(** * ARQV30 Enhanced v2.0: front-end scripts, service worker and schema

    A shallow embedding of the browser-side code of the repository
    (main.js, analysis.js, the upload script, the service worker) and of
    the SQL migration, with the properties the specification states about
    them.

    Conventions.
    - A JavaScript string is a [string] of bytes (the UTF-8 encoding of the
      source text).
    - A value obtained from [JSON.parse] is a [Json.value]; numbers are
      integers.  [Json.to_string] is the conversion to a string, with the
      TypeError it throws for an object that has an own [toString]
      property and with the text of a number beyond the safe integers left
      as a parameter; [Json.toString] is its text where every printed
      number is a safe integer and the conversion returns.
    - The DOM, [localStorage], the network and the clock are explicit
      arguments; everything a function does to the outside world is
      returned as a list of [effect]s in program order. *)

From Stdlib Require Import ZArith List String Ascii Bool Lia.
From Stdlib Require Import Numbers.DecimalString.
From stdpp Require Import gmap strings.
Import ListNotations.

Local Open Scope string_scope.
Local Open Scope Z_scope.

(** * Part I: the program *)

(** ** JavaScript string primitives *)

Module JS.

(** The double quote, for the markup the scripts build. *)
Definition dq : string := String (ascii_of_nat 34) EmptyString.

(** The line feed. *)
Definition nl : string := String (ascii_of_nat 10) EmptyString.

(** [String(n)] for an integer [n]. *)
Definition dec (n : Z) : string := NilZero.string_of_int (Z.to_int n).

(** [s.startsWith(p)]. *)
Definition startsWith (s p : string) : bool := String.prefix p s.

(** [s.includes(p)]: [p] occurs somewhere in [s]. *)
Fixpoint includes (s p : string) : bool :=
  String.prefix p s ||
  match s with
  | EmptyString => false
  | String _ s' => includes s' p
  end.

(** [s.toLowerCase()] and [s.toUpperCase()] on the ASCII letters; the other
    bytes are kept. *)
Definition lower_ascii (c : ascii) : ascii :=
  let n := nat_of_ascii c in
  if (Nat.leb 65 n && Nat.leb n 90)%bool then ascii_of_nat (n + 32) else c.

Definition upper_ascii (c : ascii) : ascii :=
  let n := nat_of_ascii c in
  if (Nat.leb 97 n && Nat.leb n 122)%bool then ascii_of_nat (n - 32) else c.

Fixpoint toLowerCase (s : string) : string :=
  match s with
  | EmptyString => EmptyString
  | String c s' => String (lower_ascii c) (toLowerCase s')
  end.

(** [s.split('.').pop()]: the text after the last dot, or all of [s] when
    it has no dot.  [acc] is the piece being read. *)
Fixpoint split_pop (acc s : string) : string :=
  match s with
  | EmptyString => acc
  | String c s' =>
      if Ascii.eqb c "."%char then split_pop EmptyString s'
      else split_pop (acc +:+ String c EmptyString) s'
  end.

Definition last_piece (s : string) : string := split_pop EmptyString s.

(** [l.join(sep)] for an array of strings. *)
Fixpoint join (sep : string) (l : list string) : string :=
  match l with
  | [] => ""
  | [x] => x
  | x :: rest => x +:+ sep +:+ join sep rest
  end.

(** [l.includes(x)] and [l.some(p)] for an array of strings. *)
Definition mem (x : string) (l : list string) : bool :=
  existsb (String.eqb x) l.

Definition some (p : string -> bool) (l : list string) : bool := existsb p l.

(** The regular-expression class [\w]. *)
Definition is_word (c : ascii) : bool :=
  let n := nat_of_ascii c in
  ((Nat.leb 48 n && Nat.leb n 57) || (Nat.leb 65 n && Nat.leb n 90) ||
   (Nat.leb 97 n && Nat.leb n 122) || Nat.eqb n 95)%bool.

(** [s.replace(/_/g, ' ')]. *)
Fixpoint underscores_to_spaces (s : string) : string :=
  match s with
  | EmptyString => EmptyString
  | String c s' =>
      String (if Ascii.eqb c "_"%char then " "%char else c)
             (underscores_to_spaces s')
  end.

(** [s.replace(/\b\w/g, l => l.toUpperCase())]: every word character that
    starts a word is upper-cased.  [prev] tells whether the previous
    character was a word character. *)
Fixpoint capitalize_words (prev : bool) (s : string) : string :=
  match s with
  | EmptyString => EmptyString
  | String c s' =>
      let w := is_word c in
      String (if (w && negb prev)%bool then upper_ascii c else c)
             (capitalize_words w s')
  end.

End JS.

Abbreviation dq := JS.dq.
Abbreviation nl := JS.nl.

(** ** Exceptions *)

Inductive exn : Type :=
| TypeError
| SyntaxError
| Error (message : string).

Inductive outcome (A : Type) : Type :=
| Returned (a : A)
| Thrown (e : exn).

Arguments Returned {A} a.
Arguments Thrown {A} e.

#[global] Instance outcome_ret : MRet outcome := fun A a => Returned a.

#[global] Instance outcome_bind : MBind outcome := fun A B f c =>
  match c with
  | Returned a => f a
  | Thrown e => Thrown e
  end.

(** [l.map(f)] when [f] may throw: the first exception ends the loop. *)
Fixpoint mapM {A B : Type} (f : A -> outcome B) (l : list A) : outcome (list B) :=
  match l with
  | [] => Returned []
  | x :: rest => y ← f x; ys ← mapM f rest; Returned (y :: ys)
  end.

(** [l.map((x, i) => f(i, x))] when [f] may throw. *)
Definition imapM {A B : Type} (f : nat -> A -> outcome B) (l : list A)
  : outcome (list B) :=
  mapM (fun p => f (fst p) (snd p)) (imap pair l).

(** A computation that returns when [ready] holds and throws a TypeError
    when it does not. *)
Definition returns_iff {A : Type} (ready : bool) (c : outcome A) : Prop :=
  if ready then exists a, c = Returned a else c = Thrown TypeError.

(** ** Values read from JSON *)

Module Json.

#[local] Set Warnings "-register-all".

(** An object is the list of its own properties in [Object.entries] order,
    with distinct keys. *)
Inductive value : Type :=
| JUndefined
| JNull
| JBool (b : bool)
| JNum (n : Z)
| JStr (s : string)
| JArr (items : list value)
| JObj (fields : list (string * value)).

(** [!!v]. *)
Definition truthy (v : value) : bool :=
  match v with
  | JUndefined | JNull => false
  | JBool b => b
  | JNum n => negb (n =? 0)
  | JStr s => negb (String.eqb s "")
  | JArr _ | JObj _ => true
  end.

Definition nullish (v : value) : bool :=
  match v with
  | JUndefined | JNull => true
  | _ => false
  end.

(** [Array.isArray(v)]. *)
Definition isArray (v : value) : bool :=
  match v with
  | JArr _ => true
  | _ => false
  end.

(** [typeof v === 'object']. *)
Definition typeof_object (v : value) : bool :=
  match v with
  | JNull | JArr _ | JObj _ => true
  | _ => false
  end.

Fixpoint lookup_field (name : string) (fields : list (string * value)) : value :=
  match fields with
  | [] => JUndefined
  | (key, v) :: rest => if String.eqb key name then v else lookup_field name rest
  end.

(** [v.name] for a data property [name], on a receiver that is neither
    [null] nor [undefined]: primitives and arrays have no such property. *)
Definition field (v : value) (name : string) : value :=
  match v with
  | JObj fields => lookup_field name fields
  | _ => JUndefined
  end.

(** [v.name] on any receiver. *)
Definition prop (v : value) (name : string) : outcome value :=
  if nullish v then Thrown TypeError else Returned (field v name).

(** [v?.name]. *)
Definition opt_prop (v : value) (name : string) : value :=
  if nullish v then JUndefined else field v name.

(** [v === 'text'] for a string literal. *)
Definition is_text (v : value) (text : string) : bool :=
  match v with
  | JStr s => String.eqb s text
  | _ => false
  end.

(** [a || b]. *)
Definition or_else (a b : value) : value := if truthy a then a else b.

(** The receiver of an array method ([map], [join], [forEach]): calling
    one on anything but an array is a [TypeError]. *)
Definition as_array (v : value) : outcome (list value) :=
  match v with
  | JArr items => Returned items
  | _ => Thrown TypeError
  end.

(** The items of an array. *)
Definition elements (v : value) : list value :=
  match v with
  | JArr items => items
  | _ => []
  end.

(** The text of [String(v)], as a template literal or a concatenation
    converts [v], for a value whose conversion returns and whose numbers
    are safe integers; [to_string] below is the conversion itself. *)
Fixpoint toString (v : value) : string :=
  match v with
  | JUndefined => "undefined"
  | JNull => "null"
  | JBool true => "true"
  | JBool false => "false"
  | JNum n => JS.dec n
  | JStr s => s
  | JArr items =>
      JS.join ","
        (map (fun x => if nullish x then "" else toString x) items)
  | JObj _ => "[object Object]"
  end.

(** [v || 'fallback'] inside a template literal. *)
Definition text_or (v : value) (fallback : string) : string :=
  toString (or_else v (JStr fallback)).

(** [s || 'fallback'] for a string [s]. *)
Definition nonempty_or (s fallback : string) : string :=
  if String.eqb s "" then fallback else s.


(** [Object.entries(v)] for a value with [typeof v === 'object'] other
    than [null]: an array lists its indices. *)
Definition entries (v : value) : list (string * value) :=
  match v with
  | JObj fields => fields
  | JArr items => imap (fun i x => (JS.dec (Z.of_nat i), x)) items
  | _ => []
  end.

(** *** Conversion to a string, with its exceptions *)

(** An own property named [name]. *)
Definition has_own (fields : list (string * value)) (name : string) : bool :=
  existsb (fun kv => String.eqb (fst kv) name) fields.

(** [Number.isSafeInteger(n)]: the integers a number holds exactly, which
    print digit by digit. *)
Definition safe_integer (n : Z) : bool := Z.abs n <? 2 ^ 53.

Section Conversion.

(** [String(n)] for a number that is not a safe integer: its digits are
    rounded from 2^53 on, and from 10^21 on it prints in exponent
    notation. *)
Variable number_text : Z -> string.

(** [String(v)], the conversion a template literal, a concatenation and
    [join] apply to [v].  An object is converted by its [toString]
    method, which is that of [Object.prototype] unless the object has an
    own property of that name; in an object read from JSON an own
    [toString] is never a function, [valueOf] returns the object itself,
    and the conversion throws a TypeError.  An array is converted by
    [join(',')], which converts its items and prints [null] and
    [undefined] as the empty string. *)
Fixpoint to_string (v : value) : outcome string :=
  match v with
  | JUndefined => Returned "undefined"
  | JNull => Returned "null"
  | JBool true => Returned "true"
  | JBool false => Returned "false"
  | JNum n => Returned (if safe_integer n then JS.dec n else number_text n)
  | JStr s => Returned s
  | JArr items =>
      texts ←
        (fix each (l : list value) : outcome (list string) :=
           match l with
           | [] => Returned []
           | x :: rest =>
               s ← (if nullish x then Returned "" else to_string x);
               ss ← each rest;
               Returned (s :: ss)
           end) items;
      Returned (JS.join "," texts)
  | JObj fields =>
      if has_own fields "toString" then Thrown TypeError
      else Returned "[object Object]"
  end.

(** The text of one item of [items.join(sep)]. *)
Definition item_text (x : value) : outcome string :=
  if nullish x then Returned "" else to_string x.

(** [items.join(sep)]. *)
Definition join (sep : string) (items : list value) : outcome string :=
  texts ← mapM item_text items;
  Returned (JS.join sep texts).

(** [v || 'fallback'] inside a template literal. *)
Definition str_or (v : value) (fallback : string) : outcome string :=
  to_string (or_else v (JStr fallback)).

(** [ToPrimitive(v)], as [new Date(v)] applies it: an object or an array
    is replaced by its text. *)
Definition to_primitive (v : value) : outcome value :=
  match v with
  | JArr _ | JObj _ => s ← to_string v; Returned (JStr s)
  | _ => Returned v
  end.

End Conversion.

(** The values [String(v)] converts without an exception. *)
Fixpoint converts (v : value) : bool :=
  match v with
  | JArr items => forallb converts items
  | JObj fields => negb (has_own fields "toString")
  | _ => true
  end.

(** The values all of whose numbers print digit by digit. *)
Fixpoint plain_numbers (v : value) : bool :=
  match v with
  | JNum n => safe_integer n
  | JArr items => forallb plain_numbers items
  | _ => true
  end.

(** Sample input: the object [JSON.parse] reads from the text
    [{"toString":1}], which has no conversion to a string. *)
Definition without_text : value := JObj [("toString", JNum 1)].

(** Sample input: a stand-in for [String(n)] beyond the safe integers. *)
Definition sample_number_text : Z -> string := fun _ => "1e+21".

End Json.

(** ** What the scripts do to the outside world *)

(** A request sent with [fetch] or [XMLHttpRequest]. *)
Record http_request : Type := { verb : string; path : string }.

(** The text of an alert: a literal, or a prefix followed by the message
    of a caught exception. *)
Inductive text : Type :=
| Plain (s : string)
| WithMessageOf (prefix : string) (e : exn).

(** [localStorage]. *)
Abbreviation storage := (gmap string string).

(** The sources of fresh identifiers: [Date.now()] and
    [Math.random().toString(36).substr(2, 9)]. *)
Record entropy : Type := { now : Z; random36 : string }.

(** ** Result rendering (analysis.js, AnalysisManager) *)

Module Render.
Import Json.

(** AnalysisManager.renderListAsCards. *)
Definition renderListAsCards (list : value) : string :=
  if negb (truthy list) || negb (isArray list) then "<p>Não informado</p>"
  else
    JS.join ""
      (map (fun item =>
              "
            <div class=" +:+ dq +:+ "info-card" +:+ dq +:+ ">
                <span>" +:+ (toString item) +:+ "</span>
            </div>
        ")
           (elements list)).

(** The label of a card: [key.replace(/_/g, ' ').replace(/\b\w/g, l => l.toUpperCase())]. *)
Definition label_of (key : string) : string :=
  JS.capitalize_words false (JS.underscores_to_spaces key).

(** AnalysisManager.renderObjectAsCards. *)
Definition renderObjectAsCards (obj : value) : string :=
  if negb (truthy obj) || negb (typeof_object obj) then "<p>Não informado</p>"
  else
    JS.join ""
      (map (fun '(key, value) =>
              let label := label_of key in
              if isArray value then
                "
                    <div class=" +:+ dq +:+ "info-card" +:+ dq +:+ ">
                        <strong>" +:+ label +:+ ":</strong>
                        <ul>" +:+ (JS.join "" (map (fun item => "<li>" +:+ toString item +:+ "</li>") (elements value))) +:+ "</ul>
                    </div>
                "
              else
                "
                    <div class=" +:+ dq +:+ "info-card" +:+ dq +:+ ">
                        <strong>" +:+ label +:+ ":</strong>
                        <span>" +:+ (toString value) +:+ "</span>
                    </div>
                ")
           (entries obj)).














End Render.

(** ** The upload manager (upload script, FileUploadManager) *)

Module Upload.

(** The fields of a [File] the manager reads. *)
Record file : Type := { name : string; size : Z; type : string }.

Definition maxFileSize : Z := 16 * 1024 * 1024.

Definition allowedTypes : list string :=
  [ "application/pdf";
    "application/vnd.openxmlformats-officedocument.wordprocessingml.document";
    "application/msword";
    "application/vnd.openxmlformats-officedocument.spreadsheetml.sheet";
    "application/vnd.ms-excel";
    "text/csv";
    "text/plain";
    "application/json" ].

Definition allowedExtensions : list string :=
  [ ".pdf"; ".doc"; ".docx"; ".xlsx"; ".xls"; ".csv"; ".txt"; ".json" ].

(** The object validateFile returns: [{ valid: false, message }] or
    [{ valid: true }]. *)
Inductive validation : Type :=
| Invalid (message : string)
| Valid.

(** ['.' + file.name.split('.').pop().toLowerCase()]. *)
Definition fileExtension (f : file) : string :=
  "." +:+ JS.toLowerCase (JS.last_piece (name f)).

Definition isValidType (f : file) : bool :=
  JS.mem (type f) allowedTypes || JS.mem (fileExtension f) allowedExtensions.

(** FileUploadManager.validateFile. *)
Definition validateFile (file : file) : validation :=
  if size file >? maxFileSize then
    Invalid ("Arquivo " +:+ dq +:+ name file +:+ dq +:+ " é muito grande. Tamanho máximo: 16MB.")
  else if negb (isValidType file) then
    Invalid ("Tipo de arquivo " +:+ dq +:+ name file +:+ dq +:+ " não suportado. Tipos aceitos: PDF, DOC, DOCX, XLSX, XLS, CSV, TXT, JSON.")
  else Valid.

(** The page, as far as the manager looks at it: whether the element
    [uploadedFiles] exists, and the text of the [.file-name] node of every
    [.file-item] element, in document order. *)
Record page : Type := { uploadedFiles : bool; file_items : list string }.

Inductive effect : Type :=
| ShowError (message : string)
| XhrSend (r : http_request) (upload : file) (session_id : string).

(** [xhr.open('POST', '/api/upload_attachment')]. *)
Definition upload_request : http_request :=
  {| verb := "POST"; path := "/api/upload_attachment" |}.

Section Manager.

(** The text content the HTML parser gives to a file name assigned through
    [innerHTML]. *)
Variable text_of_markup : string -> string.

(** [window.app?.sessionId || 'default_session']. *)
Variable session_id : string.

(** FileUploadManager.addFileToUI. *)
Definition addFileToUI (p : page) (f : file) : page :=
  if negb (uploadedFiles p) then p
  else {| uploadedFiles := true;
          file_items := (file_items p ++ [text_of_markup (name f)])%list |}.

(** FileUploadManager.uploadFile, up to [xhr.send].  A [File] carries no
    [_fileData], so the element is found by its name text. *)
Definition uploadFile (p : page) (f : file) : list effect :=
  if negb (existsb (String.eqb (name f)) (file_items p)) then []
  else [XhrSend upload_request f session_id].

(** FileUploadManager.processFile. *)
Definition processFile (p : page) (f : file) : page * list effect :=
  match validateFile f with
  | Invalid message => (p, [ShowError message])
  | Valid =>
      let p' := addFileToUI p f in
      (p', uploadFile p' f)
  end.

(** FileUploadManager.handleFiles. *)
Fixpoint handleFiles (p : page) (files : list file) : page * list effect :=
  match files with
  | [] => (p, [])
  | f :: rest =>
      let '(p1, e1) := processFile p f in
      let '(p2, e2) := handleFiles p1 rest in
      (p2, (e1 ++ e2)%list)
  end.

End Manager.

Definition is_upload (e : effect) : bool :=
  match e with
  | XhrSend _ _ _ => true
  | _ => false
  end.

(** Client-side validation, as the specification words it. *)
Definition passes_validation (f : file) : Prop :=
  size f <= 16 * 1024 * 1024 /\
  (JS.mem (type f) allowedTypes = true \/
   JS.mem (fileExtension f) allowedExtensions = true).

(** Sample inputs. *)
Definition sample_page : page := {| uploadedFiles := true; file_items := [] |}.

Definition sample_ok : file :=
  {| name := "briefing.PDF"; size := 2048; type := "" |}.

Definition sample_too_big : file :=
  {| name := "video.pdf"; size := 17 * 1024 * 1024; type := "application/pdf" |}.

(** [validation.valid]. *)
Definition valid (v : validation) : bool :=
  match v with
  | Valid => true
  | Invalid _ => false
  end.

(** The one thing processFile does for a file on a page that shows it:
    an error for a rejected file, an upload for an accepted one. *)
Definition outcome_of (session_id : string) (f : file) : effect :=
  match validateFile f with
  | Invalid message => ShowError message
  | Valid => XhrSend upload_request f session_id
  end.

(** *** Icons *)

(** The object literal of getFileIcon, as its own properties. *)
Definition iconMap : list (string * string) :=
  [ ("pdf", "fas fa-file-pdf");
    ("doc", "fas fa-file-word");
    ("docx", "fas fa-file-word");
    ("xls", "fas fa-file-excel");
    ("xlsx", "fas fa-file-excel");
    ("csv", "fas fa-file-csv");
    ("txt", "fas fa-file-alt");
    ("json", "fas fa-file-code") ].

(** The properties an object literal inherits from [Object.prototype];
    each is a function or an object, hence truthy. *)
Definition Object_prototype : list string :=
  [ "constructor"; "__proto__"; "hasOwnProperty"; "isPrototypeOf";
    "propertyIsEnumerable"; "toLocaleString"; "toString"; "valueOf";
    "__defineGetter__"; "__defineSetter__"; "__lookupGetter__";
    "__lookupSetter__" ].

(** What getFileIcon returns: a class name, or the member of
    [Object.prototype] the extension names. *)
Inductive icon : Type :=
| ClassName (s : string)
| Inherited (member : string).

Fixpoint own_property (key : string) (properties : list (string * string))
  : option string :=
  match properties with
  | [] => None
  | (k, v) :: rest => if String.eqb k key then Some v else own_property key rest
  end.

(** FileUploadManager.getFileIcon: [iconMap[extension] || 'fas fa-file']. *)
Definition getFileIcon (filename : string) : icon :=
  let extension := JS.toLowerCase (JS.last_piece filename) in
  match own_property extension iconMap with
  | Some cls => if String.eqb cls "" then ClassName "fas fa-file" else ClassName cls
  | None =>
      if JS.mem extension Object_prototype then Inherited extension
      else ClassName "fas fa-file"
  end.

(** Upper-case ASCII letters in a string. *)
Definition is_upper (c : ascii) : bool :=
  (Nat.leb 65 (nat_of_ascii c) && Nat.leb (nat_of_ascii c) 90)%bool.

Fixpoint has_upper (s : string) : bool :=
  match s with
  | EmptyString => false
  | String c s' => is_upper c || has_upper s'
  end.

(** *** The end of an upload *)

(** What the [load] and [error] listeners of uploadFile tell the user:
    the text they put in the status node of the row, and the message they
    show (the icon they add and the progress bar they hide are left
    out). *)
Inductive notice : Type :=
| StatusText (s : string)
| Failure (message : string)
| Success (message : string).

Section Listeners.

(** [String(n)] for a number that is not a safe integer. *)
Variable number_text : Z -> string.

(** FileUploadManager.onUploadSuccess, for a row with its status node:
    what it has told the user, and the exception it ends with, if any. *)
Definition onUploadSuccess (response : Json.value) : list notice * option exn :=
  match Json.to_string number_text (Json.field response "content_type") with
  | Thrown e => ([], Some e)
  | Returned content_type =>
      let told := [StatusText (content_type +:+ " • Processado")] in
      match Json.to_string number_text (Json.field response "filename") with
      | Thrown e => (told, Some e)
      | Returned filename =>
          ((told ++ [Success ("Arquivo " +:+ dq +:+ filename +:+ dq
                              +:+ " processado com sucesso!")])%list, None)
      end
  end.

(** FileUploadManager.onUploadError, for a row with its status node. *)
Definition onUploadError (errorMessage : Json.value) : list notice * option exn :=
  let told := [StatusText "Erro no processamento"] in
  match Json.to_string number_text errorMessage with
  | Thrown e => (told, Some e)
  | Returned message =>
      ((told ++ [Failure ("Erro ao processar arquivo: " +:+ message)])%list, None)
  end.

(** The [load] listener: [status] is [xhr.status] and [parsed] the outcome
    of [JSON.parse(xhr.responseText)].  An exception leaves the listener;
    nothing catches it. *)
Definition on_load (status : Z) (parsed : outcome Json.value)
  : list notice * option exn :=
  if status =? 200 then
    match parsed with
    | Thrown e => ([], Some e)
    | Returned response =>
        match Json.prop response "success" with
        | Thrown e => ([], Some e)
        | Returned success =>
            if Json.truthy success then onUploadSuccess response
            else onUploadError
                   (Json.or_else (Json.field response "error")
                                 (Json.JStr "Erro desconhecido"))
        end
    end
  else onUploadError (Json.JStr "Erro no servidor").

(** The [error] listener. *)
Definition on_error : list notice * option exn :=
  onUploadError (Json.JStr "Erro de conexão").

End Listeners.

Definition is_failure (n : notice) : bool :=
  match n with
  | Failure _ => true
  | _ => false
  end.

Definition is_success (n : notice) : bool :=
  match n with
  | Success _ => true
  | _ => false
  end.

(** How often the user is told how the upload ended. *)
Definition told_end (notices : list notice) : nat :=
  (length (List.filter is_success notices)
   + length (List.filter is_failure notices))%nat.

(** The bodies of a 200 answer that make the [load] listener throw: a
    text that is not JSON, the JSON [null], or a body one of whose printed
    fields has no conversion to a string. *)
Definition unreportable (parsed : outcome Json.value) : Prop :=
  match parsed with
  | Thrown _ => True
  | Returned response =>
      Json.nullish response = true \/
      (if Json.truthy (Json.field response "success")
       then Json.converts (Json.field response "content_type")
            && Json.converts (Json.field response "filename")
       else Json.converts (Json.field response "error")) = false
  end.

(** Sample inputs: a drop of an accepted and a rejected file, a page
    without the uploadedFiles element, and a parser that decodes the
    character reference of a file name. *)
Definition sample_drop : list file := [sample_ok; sample_too_big].

Definition bare_page : page := {| uploadedFiles := false; file_items := [] |}.

Definition sample_entity : file :=
  {| name := "q&amp;a.txt"; size := 10; type := "text/plain" |}.

Definition decode_amp (s : string) : string :=
  if String.eqb s "q&amp;a.txt" then "q&a.txt" else s.

End Upload.

(** ** The service worker *)

Module ServiceWorker.

Definition STATIC_CACHE_NAME : string := "arqv30-static-v2.0".
Definition DYNAMIC_CACHE_NAME : string := "arqv30-dynamic-v2.0".

Definition STATIC_FILES : list string :=
  [ "/";
    "/static/css/main.css";
    "/static/css/components.css";
    "/static/js/main.js";
    "/static/js/analysis.js";
    "/static/js/upload.js";
    "/static/images/logo.png";
    "https://fonts.googleapis.com/css2?family=Inter:wght@300;400;500;600;700&display=swap";
    "https://cdnjs.cloudflare.com/ajax/libs/font-awesome/6.4.0/css/all.min.css" ].

Definition API_CACHE_PATTERNS : list string :=
  [ "/api/health"; "/api/app_status"; "/api/stats" ].

Record request : Type := { method : string; url : string }.

Record response : Type := { ok : bool; status : Z; body : string }.

Definition isStaticFile (url : string) : bool :=
  JS.some (fun file => JS.includes url file) STATIC_FILES ||
  JS.includes url "/static/" ||
  JS.includes url ".css" ||
  JS.includes url ".js" ||
  JS.includes url ".png" ||
  JS.includes url ".jpg" ||
  JS.includes url ".ico" ||
  JS.includes url "fonts.googleapis.com" ||
  JS.includes url "cdnjs.cloudflare.com".

Definition isAPIRequest (url : string) : bool :=
  JS.some (fun pattern => JS.includes url pattern) API_CACHE_PATTERNS.

Definition isAnalysisRequest (url : string) : bool :=
  JS.includes url "/api/analyze" ||
  JS.includes url "/api/upload_attachment" ||
  JS.includes url "/generate-pdf".

Inductive strategy : Type :=
| CacheFirst
| NetworkFirstWithCache
| NetworkOnly
| StaleWhileRevalidate.

(** The fetch listener: the strategy handed to [event.respondWith], or
    [None] when the listener returns without answering and the browser
    performs the request itself. *)
Definition on_fetch (request : request) : option strategy :=
  if negb (String.eqb (method request) "GET") then None
  else if negb (JS.startsWith (url request) "http") then None
  else if isStaticFile (url request) then Some CacheFirst
  else if isAPIRequest (url request) then Some NetworkFirstWithCache
  else if isAnalysisRequest (url request) then Some NetworkOnly
  else Some StaleWhileRevalidate.

(** The two caches of the worker, keyed by request URL. *)
Record caches : Type := {
  static_cache : gmap string response;
  dynamic_cache : gmap string response
}.

(** [caches.match(request)]: the static cache is the older one and is
    searched first. *)
Definition caches_match (c : caches) (request : request) : option response :=
  match static_cache c !! url request with
  | Some r => Some r
  | None => dynamic_cache c !! url request
  end.

Definition put_static (c : caches) (request : request) (r : response) : caches :=
  {| static_cache := <[url request := r]> (static_cache c);
     dynamic_cache := dynamic_cache c |}.

Definition put_dynamic (c : caches) (request : request) (r : response) : caches :=
  {| static_cache := static_cache c;
     dynamic_cache := <[url request := r]> (dynamic_cache c) |}.

(** The network: the response to a GET of a URL, or [None] when [fetch]
    rejects. *)
Definition network : Type := string -> option response.

(** What a strategy produces: the response given to the page ([None] for
    [undefined]), the caches afterwards, whether [fetch] was called and
    whether the response given to the page came out of a cache. *)
Record served : Type := {
  answer : option response;
  store : caches;
  contacted : bool;
  from_cache : bool
}.

Definition offline_text : response :=
  {| ok := false; status := 503; body := "Offline - Content not available" |}.

Definition offline_json : response :=
  {| ok := false; status := 503;
     body := "{" +:+ dq +:+ "error" +:+ dq +:+ ":" +:+ dq +:+ "Offline" +:+ dq +:+ "," +:+ dq +:+ "message" +:+ dq +:+ ":" +:+ dq +:+ "Network unavailable and no cached version found" +:+ dq +:+ "}" |}.

Definition network_error_json : response :=
  {| ok := false; status := 503;
     body := "{" +:+ dq +:+ "error" +:+ dq +:+ ":" +:+ dq +:+ "Network Error" +:+ dq +:+ "," +:+ dq +:+ "message" +:+ dq +:+ ":" +:+ dq +:+ "Analysis requires internet connection" +:+ dq +:+ "}" |}.

Definition cacheFirst (c : caches) (net : network) (request : request) : served :=
  match caches_match c request with
  | Some cachedResponse =>
      {| answer := Some cachedResponse; store := c;
         contacted := false; from_cache := true |}
  | None =>
      match net (url request) with
      | Some networkResponse =>
          {| answer := Some networkResponse;
             store := if ok networkResponse
                      then put_static c request networkResponse else c;
             contacted := true; from_cache := false |}
      | None =>
          {| answer := Some offline_text; store := c;
             contacted := true; from_cache := false |}
      end
  end.

Definition networkFirstWithCache (c : caches) (net : network) (request : request)
  : served :=
  match net (url request) with
  | Some networkResponse =>
      if ok networkResponse then
        {| answer := Some networkResponse;
           store := put_dynamic c request networkResponse;
           contacted := true; from_cache := false |}
      else
        match caches_match c request with
        | Some cachedResponse =>
            {| answer := Some cachedResponse; store := c;
               contacted := true; from_cache := true |}
        | None =>
            {| answer := Some offline_json; store := c;
               contacted := true; from_cache := false |}
        end
  | None =>
      match caches_match c request with
      | Some cachedResponse =>
          {| answer := Some cachedResponse; store := c;
             contacted := true; from_cache := true |}
      | None =>
          {| answer := Some offline_json; store := c;
             contacted := true; from_cache := false |}
      end
  end.

Definition networkOnly (c : caches) (net : network) (request : request) : served :=
  match net (url request) with
  | Some networkResponse =>
      {| answer := Some networkResponse; store := c;
         contacted := true; from_cache := false |}
  | None =>
      {| answer := Some network_error_json; store := c;
         contacted := true; from_cache := false |}
  end.

Definition staleWhileRevalidate (c : caches) (net : network) (request : request)
  : served :=
  let cachedResponse := dynamic_cache c !! url request in
  let store' :=
    match net (url request) with
    | Some networkResponse =>
        if ok networkResponse then put_dynamic c request networkResponse else c
    | None => c
    end in
  match cachedResponse with
  | Some r =>
      {| answer := Some r; store := store'; contacted := true; from_cache := true |}
  | None =>
      {| answer := net (url request); store := store';
         contacted := true; from_cache := false |}
  end.

Definition run_strategy (s : strategy) : caches -> network -> request -> served :=
  match s with
  | CacheFirst => cacheFirst
  | NetworkFirstWithCache => networkFirstWithCache
  | NetworkOnly => networkOnly
  | StaleWhileRevalidate => staleWhileRevalidate
  end.

(** The worker's answer to a fetch event, or [None] when the event is left
    to the browser. *)
Definition handle_fetch (c : caches) (net : network) (request : request)
  : option served :=
  match on_fetch request with
  | Some s => Some (run_strategy s c net request)
  | None => None
  end.

(** Sample inputs: a GET of an analysis endpoint, empty caches, a network
    that answers 200 with a first body, and one that answers with a later
    body. *)
Definition analysis_get : request :=
  {| method := "GET"; url := "http://localhost:5000/api/analyze" |}.

Definition no_caches : caches := {| static_cache := ∅; dynamic_cache := ∅ |}.

Definition first_answer : response := {| ok := true; status := 200; body := "first" |}.
Definition later_answer : response := {| ok := true; status := 200; body := "later" |}.

Definition first_network : network := fun _ => Some first_answer.
Definition later_network : network := fun _ => Some later_answer.

(** *** The worker over a sequence of fetch events *)

(** The caches once the worker has handled a fetch event: a request and
    the network as it is at that moment. *)
Definition after_fetch_event (c : caches) (ev : request * network) : caches :=
  match handle_fetch c (snd ev) (fst ev) with
  | Some s => store s
  | None => c
  end.

Definition after_fetch_events (c : caches) (evs : list (request * network)) : caches :=
  fold_left after_fetch_event evs c.

(** Every response a cache holds is one with [response.ok]. *)
Definition only_ok (c : caches) : Prop :=
  forall (u : string) (x : response),
    static_cache c !! u = Some x \/ dynamic_cache c !! u = Some x -> ok x = true.

(** *** Activation *)

(** A cache the activate listener deletes. *)
Definition is_old_cache (cacheName : string) : bool :=
  negb (String.eqb cacheName STATIC_CACHE_NAME) &&
  negb (String.eqb cacheName DYNAMIC_CACHE_NAME) &&
  JS.startsWith cacheName "arqv30-".

(** The activate listener: the names [caches.keys()] lists afterwards. *)
Definition activate (cacheNames : list string) : list string :=
  List.filter (fun cacheName => negb (is_old_cache cacheName)) cacheNames.

(** *** Periodic cleanup *)

Section Cleanup.

(** The responses of the dynamic cache, and the time
    [new Date(response.headers.get('date')).getTime()] of one: [None] when
    the response has no date header, or one [Date] cannot read (the time is
    then NaN, and no comparison with NaN holds). *)
Variable cached : Type.
Variable date_of : cached -> option Z.

Definition maxAge : Z := 7 * 24 * 60 * 60 * 1000.

(** [now - responseDate > maxAge]. *)
Definition expired (now : Z) (r : cached) : bool :=
  match date_of r with
  | Some responseDate => now - responseDate >? maxAge
  | None => false
  end.

(** cleanupOldCaches: the entries of the dynamic cache it leaves. *)
Definition cleanupOldCaches (entries : gmap string cached) (now : Z)
  : gmap string cached :=
  filter (fun entry => expired now (snd entry) = false) entries.

End Cleanup.

(** Sample inputs: a GET of an endpoint the worker lists under
    API_CACHE_PATTERNS, a page that is neither static, API nor analysis by
    the worker's tests but for the slash, and a network that is down. *)
Definition stats_get : request :=
  {| method := "GET"; url := "https://arqv30.example/api/stats" |}.

Definition offline : network := fun _ => None.

Definition failing_network : network :=
  fun _ => Some {| ok := false; status := 500; body := "Internal Server Error" |}.

Definition static_holds_first : caches :=
  {| static_cache := {[ url stats_get := first_answer ]}; dynamic_cache := ∅ |}.

End ServiceWorker.

(** ** The synchronous analysis manager (analysis.js, AnalysisManager) *)

Module AnalysisManager.
Import Json.

(** The fields of the manager that startAnalysis assigns. *)
Record manager : Type := {
  isAnalyzing : bool;
  analysisStartTime : option Z
}.

Definition constructor : manager :=
  {| isAnalyzing := false; analysisStartTime := None |}.

(** AnalysisManager.getSessionId: the identifier and the storage
    afterwards. *)
Definition getSessionId (localStorage : storage) (e : entropy) : string * storage :=
  let fresh :=
    let sessionId := "session_" +:+ JS.dec (now e) +:+ "_" +:+ random36 e in
    (sessionId, <["arqv30_session_id" := sessionId]> localStorage) in
  match localStorage !! "arqv30_session_id" with
  | Some sessionId => if String.eqb sessionId "" then fresh else (sessionId, localStorage)
  | None => fresh
  end.

Definition analyze_request : http_request :=
  {| verb := "POST"; path := "/api/analyze" |}.

(** AnalysisManager.downloadPdf posts the result here. *)
Definition generate_pdf_request : http_request :=
  {| verb := "POST"; path := "/generate-pdf" |}.

Inductive effect : Type :=
| Fetch (r : http_request) (body : string)
| ShowError (message : text)
| ConsoleError (e : exn)
| ShowProgressArea
| StartProgressAnimation
| CompleteProgress
| StopProgressAnimation
| DisplayResultsAfter (delay_ms : Z) (result : value).

(** A call of startAnalysis that went past its guard is suspended at one
    of its two [await]s until the promise settles. *)
Inductive pending : Type :=
| AwaitingFetch
| AwaitingJson.

Record world : Type := {
  self : manager;
  runs : list pending;
  log : list effect
}.

Definition initial : world :=
  {| self := constructor; runs := []; log := [] |}.

(** What the event loop delivers to the manager. *)
Inductive event : Type :=
| Call (segmento_filled : bool) (formData : outcome string) (clock : Z)
| FetchSettled (i : nat) (r : outcome (bool * Z))
| JsonSettled (i : nat) (r : outcome value).

Definition emit (w : world) (es : list effect) : world :=
  {| self := self w; runs := runs w; log := (log w ++ es)%list |}.

(** The [catch] and [finally] clauses of startAnalysis, for the run at
    position [i]. *)
Definition finally (w : world) (i : nat) : world :=
  {| self := {| isAnalyzing := false;
                analysisStartTime := analysisStartTime (self w) |};
     runs := delete i (runs w);
     log := (log w ++ [StopProgressAnimation])%list |}.

Definition catch (w : world) (e : exn) : world :=
  emit w [ConsoleError e; ShowError (WithMessageOf "Erro na análise: " e)].

(** AnalysisManager.startAnalysis, from the call to its first [await]. *)
Definition startAnalysis (w : world) (segmento_filled : bool)
    (formData : outcome string) (clock : Z) : world :=
  if isAnalyzing (self w) then w
  else if negb segmento_filled then
    emit w [ShowError (Plain "Por favor, preencha pelo menos o segmento de mercado.")]
  else
    let w1 :=
      {| self := {| isAnalyzing := true; analysisStartTime := Some clock |};
         runs := runs w;
         log := (log w ++ [ShowProgressArea; StartProgressAnimation])%list |} in
    match formData with
    | Returned body =>
        {| self := self w1;
           runs := (runs w1 ++ [AwaitingFetch])%list;
           log := (log w1 ++ [Fetch analyze_request body])%list |}
    | Thrown e =>
        let w2 := catch w1 e in
        {| self := {| isAnalyzing := false;
                      analysisStartTime := analysisStartTime (self w2) |};
           runs := runs w2;
           log := (log w2 ++ [StopProgressAnimation])%list |}
    end.

(** The rest of startAnalysis once [fetch] has settled. *)
Definition after_fetch (w : world) (i : nat) (r : outcome (bool * Z)) : world :=
  match r with
  | Thrown e => finally (catch w e) i
  | Returned (false, status) =>
      finally (catch w (Error ("Erro na análise: " +:+ JS.dec status))) i
  | Returned (true, _) =>
      {| self := self w; runs := <[i := AwaitingJson]> (runs w); log := log w |}
  end.

(** The rest of startAnalysis once [response.json()] has settled. *)
Definition after_json (w : world) (i : nat) (r : outcome value) : world :=
  match r with
  | Thrown e => finally (catch w e) i
  | Returned result =>
      finally (emit w [CompleteProgress; DisplayResultsAfter 1000 result]) i
  end.

(** One turn of the event loop.  A promise settles only for a run that is
    waiting for it. *)
Definition step (w : world) (ev : event) : world :=
  match ev with
  | Call segmento_filled formData clock =>
      startAnalysis w segmento_filled formData clock
  | FetchSettled i r =>
      match runs w !! i with
      | Some AwaitingFetch => after_fetch w i r
      | _ => w
      end
  | JsonSettled i r =>
      match runs w !! i with
      | Some AwaitingJson => after_json w i r
      | _ => w
      end
  end.

Definition run (w : world) (evs : list event) : world := fold_left step evs w.

(** The number of POST /api/analyze requests that have not settled. *)
Definition awaiting_fetch (p : pending) : bool :=
  match p with
  | AwaitingFetch => true
  | AwaitingJson => false
  end.

Definition in_flight (w : world) : nat :=
  length (List.filter awaiting_fetch (runs w)).

(** The guard and the pending runs agree: the guard is closed exactly
    while one run is suspended, and there is never more than one. *)
Definition consistent (w : world) : Prop :=
  (isAnalyzing (self w) = true /\ exists p, runs w = [p]) \/
  (isAnalyzing (self w) = false /\ runs w = []).

(** Sample inputs: a form with its segment filled in, submitted once. *)
Definition sample_body : string := "{}".
Definition sample_call : event := Call true (Returned sample_body) 1700000000000.
Definition sample_failure : outcome (bool * Z) := Thrown (Error "Failed to fetch").

(** *** Accounting for the runs *)

(** The effects that open and close a run that went past the guard, and
    the two ways a run ends for the user: its results are scheduled for
    display, or the [catch] clause shows an error. *)
Definition is_start (e : effect) : bool :=
  match e with
  | StartProgressAnimation => true
  | _ => false
  end.

Definition is_stop (e : effect) : bool :=
  match e with
  | StopProgressAnimation => true
  | _ => false
  end.

Definition is_end (e : effect) : bool :=
  match e with
  | DisplayResultsAfter _ _ => true
  | ShowError (WithMessageOf _ _) => true
  | _ => false
  end.

Definition is_post (e : effect) : bool :=
  match e with
  | Fetch _ _ => true
  | _ => false
  end.

Definition count (p : effect -> bool) (l : list effect) : nat :=
  length (List.filter p l).

(** The runs that were started are those that have ended and those that
    are suspended. *)
Definition accounted (w : world) : Prop :=
  count is_start (log w) = (count is_stop (log w) + length (runs w))%nat /\
  count is_start (log w) = (count is_end (log w) + length (runs w))%nat /\
  (count is_post (log w) <= count is_start (log w))%nat.

End AnalysisManager.

(** ** The dashboard frame (analysis.js, generateInteractiveDashboard) *)

Module Dashboard.

(** The markup of generateInteractiveDashboard up to its first
    interpolation: the title and the download buttons. *)
Definition header : string :=
  "
            <div class=" +:+ dq +:+ "interactive-dashboard" +:+ dq +:+ ">
                <div class=" +:+ dq +:+ "dashboard-header" +:+ dq +:+ ">
                    <h2>📊 Relatório Interativo de Análise</h2>
                    <div class=" +:+ dq +:+ "dashboard-actions" +:+ dq +:+ ">
                        <button class=" +:+ dq +:+ "btn-secondary" +:+ dq +:+ " onclick=" +:+ dq +:+ "asyncAnalysisManager.downloadReport('txt')" +:+ dq +:+ ">
                            <i class=" +:+ dq +:+ "fas fa-file-alt" +:+ dq +:+ "></i> Download TXT
                        </button>
                        <button class=" +:+ dq +:+ "btn-secondary" +:+ dq +:+ " onclick=" +:+ dq +:+ "asyncAnalysisManager.downloadReport('pdf')" +:+ dq +:+ ">
                            <i class=" +:+ dq +:+ "fas fa-file-pdf" +:+ dq +:+ "></i> Download PDF
                        </button>
                        <button class=" +:+ dq +:+ "btn-secondary" +:+ dq +:+ " onclick=" +:+ dq +:+ "asyncAnalysisManager.downloadReport('json')" +:+ dq +:+ ">
                            <i class=" +:+ dq +:+ "fas fa-code" +:+ dq +:+ "></i> Download JSON
                        </button>
                    </div>
                </div>

                <div class=" +:+ dq +:+ "dashboard-grid" +:+ dq +:+ ">
                    <!-- Avatar Section -->
                    <div class=" +:+ dq +:+ "dashboard-card" +:+ dq +:+ ">
                        <h3>🎯 Avatar Ultra-Detalhado</h3>
                        <div class=" +:+ dq +:+ "avatar-summary" +:+ dq +:+ ">
                            ".

(** The rest of the markup of generateInteractiveDashboard, cut at its
    interpolations. *)

(** The markup between the avatar and the insights. *)
Definition after_avatar : string :=
  "
                        </div>
                    </div>

                    <!-- Insights Section -->
                    <div class=" +:+ dq +:+ "dashboard-card" +:+ dq +:+ ">
                        <h3>✨ Insights Exclusivos</h3>
                        <div class=" +:+ dq +:+ "insights-list" +:+ dq +:+ ">
                            ".

(** The markup between the insights and the competition. *)
Definition after_insights : string :=
  "
                        </div>
                    </div>

                    <!-- Competition Section -->
                    <div class=" +:+ dq +:+ "dashboard-card" +:+ dq +:+ ">
                        <h3>⚔️ Análise de Concorrência</h3>
                        <div class=" +:+ dq +:+ "competition-summary" +:+ dq +:+ ">
                            ".

(** The markup between the competition and the action plan. *)
Definition after_competition : string :=
  "
                        </div>
                    </div>

                    <!-- Action Plan Section -->
                    <div class=" +:+ dq +:+ "dashboard-card" +:+ dq +:+ ">
                        <h3>📋 Plano de Ação</h3>
                        <div class=" +:+ dq +:+ "action-plan-summary" +:+ dq +:+ ">
                            ".

(** The markup between the action plan and the metadata. *)
Definition after_plan : string :=
  "
                        </div>
                    </div>

                    <!-- Metadata Section -->
                    <div class=" +:+ dq +:+ "dashboard-card" +:+ dq +:+ ">
                        <h3>📊 Informações da Análise</h3>
                        <div class=" +:+ dq +:+ "metadata-summary" +:+ dq +:+ ">
                            ".

(** The markup after the metadata. *)
Definition footer : string :=
  "
                        </div>
                    </div>
                </div>
            </div>
        ".







End Dashboard.

(** ** The asynchronous analysis manager (analysis.js, AsyncAnalysisManager) *)

Module AsyncAnalysisManager.
Import Json.

Record manager : Type := {
  currentTaskId : value;
  statusCheckInterval : option positive
}.

Definition constructor : manager :=
  {| currentTaskId := JNull; statusCheckInterval := None |}.

(** AsyncAnalysisManager.getSessionId: the identifier and the storage
    afterwards. *)
Definition getSessionId (localStorage : storage) (e : entropy) : string * storage :=
  let fresh :=
    let sessionId := "session_" +:+ JS.dec (now e) +:+ "_" +:+ random36 e in
    (sessionId, <["arqv30_session_id" := sessionId]> localStorage) in
  match localStorage !! "arqv30_session_id" with
  | Some sessionId => if String.eqb sessionId "" then fresh else (sessionId, localStorage)
  | None => fresh
  end.

Definition analyze_async_request : http_request :=
  {| verb := "POST"; path := "/api/analyze_async" |}.

(** [fetch(`/api/task_status/${this.currentTaskId}`)]. *)
Definition task_status_request (currentTaskId : value) : http_request :=
  {| verb := "GET"; path := "/api/task_status/" +:+ toString currentTaskId |}.

Definition dashboard_request : http_request :=
  {| verb := "GET"; path := "/api/dashboard" |}.

(** AsyncAnalysisManager.downloadPDF posts the result here. *)
Definition generate_pdf_request : http_request :=
  {| verb := "POST"; path := "/api/generate_pdf" |}.

(** [fetch(`/api/analysis/${analysisId}/download?format=${format}`)]. *)
Definition analysis_download_request (analysisId format : value) : http_request :=
  {| verb := "GET";
     path := "/api/analysis/" +:+ toString analysisId +:+ "/download?format="
             +:+ toString format |}.

Definition validate_apis_request : http_request :=
  {| verb := "POST"; path := "/api/validate_apis" |}.

(** A [Blob]: its MIME type and its content. *)
Record blob : Type := { mime : string; content : string }.

Inductive effect : Type :=
| Fetch (r : http_request) (body : option string)
| ShowError (message : text)
| ShowSuccess (message : string)
| ConsoleError (e : exn)
| ShowAsyncProgress
| UpdateProgressUI (status : value)
| HideAsyncProgress
| Download (filename : string) (file : blob).

(** The manager on its page: the interval timers it has created that are
    still active, with their period in milliseconds, the handle the
    browser gives out next, and the promises its code is waiting for. *)
Record world : Type := {
  self : manager;
  timers : gmap positive Z;
  next_timer : positive;
  awaiting_analyze : nat;
  awaiting_status : nat;
  log : list effect
}.

(** [new AsyncAnalysisManager()]: init loads the dashboard. *)
Definition initial : world :=
  {| self := constructor; timers := ∅; next_timer := 1%positive;
     awaiting_analyze := 0; awaiting_status := 0;
     log := [Fetch dashboard_request None] |}.

Definition emit (w : world) (es : list effect) : world :=
  {| self := self w; timers := timers w; next_timer := next_timer w;
     awaiting_analyze := awaiting_analyze w;
     awaiting_status := awaiting_status w;
     log := (log w ++ es)%list |}.

(** AsyncAnalysisManager.startStatusMonitoring: [setInterval(..., 2000)]. *)
Definition startStatusMonitoring (w : world) : world :=
  if negb (truthy (currentTaskId (self w))) then w
  else
    let h := next_timer w in
    {| self := {| currentTaskId := currentTaskId (self w);
                  statusCheckInterval := Some h |};
       timers := <[h := 2000]> (timers w);
       next_timer := Pos.succ h;
       awaiting_analyze := awaiting_analyze w;
       awaiting_status := awaiting_status w;
       log := log w |}.

(** AsyncAnalysisManager.stopStatusMonitoring: [clearInterval]. *)
Definition stopStatusMonitoring (w : world) : world :=
  match statusCheckInterval (self w) with
  | Some h =>
      {| self := {| currentTaskId := currentTaskId (self w);
                    statusCheckInterval := None |};
         timers := delete h (timers w);
         next_timer := next_timer w;
         awaiting_analyze := awaiting_analyze w;
         awaiting_status := awaiting_status w;
         log := log w |}
  | None => w
  end.

(** The [catch] clause of startAsyncAnalysis. *)
Definition catch_start (w : world) (e : exn) : world :=
  emit w [ConsoleError e; ShowError (WithMessageOf "Erro: " e)].

(** AsyncAnalysisManager.startAsyncAnalysis, from the call to its first
    [await]. *)
Definition startAsyncAnalysis (w : world) (segmento_filled : bool)
    (formData : outcome string) : world :=
  if negb segmento_filled then
    emit w [ShowError (Plain "Por favor, preencha pelo menos o segmento de mercado.")]
  else
    match formData with
    | Thrown e => catch_start w e
    | Returned body =>
        let w1 := emit w [Fetch analyze_async_request (Some body)] in
        {| self := self w1; timers := timers w1; next_timer := next_timer w1;
           awaiting_analyze := S (awaiting_analyze w1);
           awaiting_status := awaiting_status w1;
           log := log w1 |}
    end.

(** The rest of startAsyncAnalysis once the POST has settled: [r] is the
    rejection of [fetch], or [response.ok], [response.status] and the
    outcome of [response.json()]. *)
Definition after_analyze (w : world) (r : outcome (bool * Z * outcome value)) : world :=
  match r with
  | Thrown e => catch_start w e
  | Returned (false, status, _) =>
      catch_start w (Error ("Erro na análise: " +:+ JS.dec status))
  | Returned (true, _, Thrown e) => catch_start w e
  | Returned (true, _, Returned result) =>
      match prop result "task_id" with
      | Thrown e => catch_start w e
      | Returned task_id =>
          let w1 :=
            {| self := {| currentTaskId := task_id;
                          statusCheckInterval := statusCheckInterval (self w) |};
               timers := timers w; next_timer := next_timer w;
               awaiting_analyze := awaiting_analyze w;
               awaiting_status := awaiting_status w;
               log := (log w ++ [ShowAsyncProgress])%list |} in
          emit (startStatusMonitoring w1)
               [ShowSuccess ("Análise iniciada! ID: " +:+ toString task_id)]
      end
  end.

(** The interval callback, up to its first [await]. *)
Definition poll (w : world) : world :=
  let w1 := emit w [Fetch (task_status_request (currentTaskId (self w))) None] in
  {| self := self w1; timers := timers w1; next_timer := next_timer w1;
     awaiting_analyze := awaiting_analyze w1;
     awaiting_status := S (awaiting_status w1);
     log := log w1 |}.

(** AsyncAnalysisManager.onAnalysisComplete: the world it leaves and the
    exception it ends with, if any.  [shown] is the outcome of
    displayInteractiveDashboard, which renders the result into the page and
    throws when the result does not have the shape it reads. *)
Definition onAnalysisComplete (w : world) (shown : outcome unit)
  : world * option exn :=
  let w1 := emit w [HideAsyncProgress] in
  match shown with
  | Thrown e => (w1, Some e)
  | Returned _ =>
      (emit w1 [Fetch dashboard_request None;
                ShowSuccess "Análise concluída com sucesso!"], None)
  end.

(** AsyncAnalysisManager.onAnalysisError. *)
Definition onAnalysisError (w : world) (error : value) : world :=
  emit w [HideAsyncProgress;
          ShowError (Plain ("Erro na análise: " +:+ toString error))].

(** The rest of the interval callback once the status has arrived: [r] is
    the outcome of [fetch] and [response.json()]. *)
Definition after_status (w : world) (r : outcome value) (shown : outcome unit) : world :=
  match r with
  | Thrown e => emit w [ConsoleError e]
  | Returned status =>
      if nullish status then emit w [ConsoleError TypeError]
      else
        let w1 := emit w [UpdateProgressUI status] in
        if is_text (field status "state") "SUCCESS" then
          match onAnalysisComplete w1 shown with
          | (w2, None) => stopStatusMonitoring w2
          | (w2, Some e) => emit w2 [ConsoleError e]
          end
        else if is_text (field status "state") "FAILURE" then
          stopStatusMonitoring (onAnalysisError w1 (field status "error"))
        else w1
  end.

(** What the event loop delivers to the manager. *)
Inductive event : Type :=
| Click (segmento_filled : bool) (formData : outcome string)
| AnalyzeSettled (r : outcome (bool * Z * outcome value))
| Tick (h : positive)
| StatusSettled (r : outcome value) (shown : outcome unit).

Definition settle_analyze (w : world) : world :=
  {| self := self w; timers := timers w; next_timer := next_timer w;
     awaiting_analyze := pred (awaiting_analyze w);
     awaiting_status := awaiting_status w;
     log := log w |}.

Definition settle_status (w : world) : world :=
  {| self := self w; timers := timers w; next_timer := next_timer w;
     awaiting_analyze := awaiting_analyze w;
     awaiting_status := pred (awaiting_status w);
     log := log w |}.

(** One turn of the event loop.  A timer fires only while it is active, and
    a promise settles only if the code is waiting for it. *)
Definition step (w : world) (ev : event) : world :=
  match ev with
  | Click segmento_filled formData => startAsyncAnalysis w segmento_filled formData
  | AnalyzeSettled r =>
      match awaiting_analyze w with
      | O => w
      | S _ => after_analyze (settle_analyze w) r
      end
  | Tick h =>
      match timers w !! h with
      | Some _ => poll w
      | None => w
      end
  | StatusSettled r shown =>
      match awaiting_status w with
      | O => w
      | S _ => after_status (settle_status w) r shown
      end
  end.

Definition run (w : world) (evs : list event) : world := fold_left step evs w.

(** The status polls in a log. *)
Definition is_status_poll (e : effect) : bool :=
  match e with
  | Fetch r _ => String.eqb (verb r) "GET" && JS.startsWith (path r) "/api/task_status/"
  | _ => false
  end.

Definition status_polls (l : list effect) : list effect :=
  List.filter is_status_poll l.

(** A status in a terminal state. *)
Definition terminal (status : value) : bool :=
  is_text (field status "state") "SUCCESS" ||
  is_text (field status "state") "FAILURE".

(** *** The plain-text report *)

Section Report.

(** [String(n)] for a number that is not a safe integer. *)
Variable number_text : Z -> string.

(** [items.map((x, i) => `${i + 1}. ${x}`).join('\n')]. *)
Definition numbered (items : list value) : outcome string :=
  lines ←
    imapM (fun i x =>
             text ← to_string number_text x;
             Returned (JS.dec (Z.of_nat i + 1) +:+ ". " +:+ text))
          items;
  Returned (JS.join nl lines).

(** AsyncAnalysisManager.formatAvatarForTXT. *)
Definition formatAvatarForTXT (avatar : value) : outcome string :=
  if negb (truthy avatar) then Returned "Dados não disponíveis"
  else
    let perfil := or_else (field avatar "perfil_demografico") (JObj []) in
    let dores := or_else (field avatar "dores_principais") (JArr []) in
    let desejos := or_else (field avatar "desejos_principais") (JArr []) in
    idade ← str_or number_text (field perfil "idade") "N/A";
    renda ← str_or number_text (field perfil "renda") "N/A";
    localizacao ← str_or number_text (field perfil "localizacao") "N/A";
    dores ← (items ← as_array dores; numbered items);
    desejos ← (items ← as_array desejos; numbered items);
    Returned ("
Perfil Demográfico:
- Idade: " +:+ idade +:+ "
- Renda: " +:+ renda +:+ "
- Localização: " +:+ localizacao +:+ "

Principais Dores:
" +:+ dores +:+ "

Principais Desejos:
" +:+ desejos +:+ "
").

(** AsyncAnalysisManager.formatInsightsForTXT. *)
Definition formatInsightsForTXT (insights : value) : outcome string :=
  if negb (truthy insights) || negb (isArray insights)
  then Returned "Nenhum insight disponível"
  else numbered (elements insights).

(** [v?.join(', ') || 'N/A']. *)
Definition joined_or_na (v : value) : outcome string :=
  if nullish v then Returned "N/A"
  else
    items ← as_array v;
    joined ← join number_text ", " items;
    Returned (nonempty_or joined "N/A").

(** One competitor of formatCompetitionForTXT (the body of its [map]). *)
Definition competitor_text (comp : value) : outcome string :=
  if nullish comp then Thrown TypeError
  else
    nome ← str_or number_text (field comp "nome") "N/A";
    forcas ← joined_or_na (field comp "forcas");
    fraquezas ← joined_or_na (field comp "fraquezas");
    Returned ("
Concorrente: " +:+ nome +:+ "
Forças: " +:+ forcas +:+ "
Fraquezas: " +:+ fraquezas +:+ "
").

(** AsyncAnalysisManager.formatCompetitionForTXT. *)
Definition formatCompetitionForTXT (competition : value) : outcome string :=
  if negb (truthy competition) || negb (isArray competition)
  then Returned "Dados não disponíveis"
  else
    blocks ← mapM competitor_text (elements competition);
    Returned (JS.join nl blocks).

(** [v?.map(ativ => `- ${ativ}`).join('\n') || 'N/A']. *)
Definition dashed_or_na (v : value) : outcome string :=
  if nullish v then Returned "N/A"
  else
    items ← as_array v;
    lines ←
      mapM (fun ativ => text ← to_string number_text ativ; Returned ("- " +:+ text))
           items;
    Returned (nonempty_or (JS.join nl lines) "N/A").

(** AsyncAnalysisManager.formatActionPlanForTXT. *)
Definition formatActionPlanForTXT (actionPlan : value) : outcome string :=
  if negb (truthy actionPlan) then Returned "Dados não disponíveis"
  else
    let txt := "" in
    txt ←
      (let fase := field actionPlan "fase_1" in
       if truthy fase then
         duracao ← str_or number_text (field fase "duracao") "30 dias";
         atividades ← dashed_or_na (field fase "atividades");
         Returned (txt +:+ ("
Fase 1 (" +:+ duracao +:+ "):
") +:+ atividades)
       else Returned txt);
    txt ←
      (let fase := field actionPlan "fase_2" in
       if truthy fase then
         duracao ← str_or number_text (field fase "duracao") "60 dias";
         atividades ← dashed_or_na (field fase "atividades");
         Returned (txt +:+ ("

Fase 2 (" +:+ duracao +:+ "):
") +:+ atividades)
       else Returned txt);
    Returned txt.

(** AsyncAnalysisManager.generateTXTReport; [now_text] is
    [new Date().toLocaleString('pt-BR')]. *)
Definition generateTXTReport (now_text : string) (result : value) : outcome string :=
  if nullish result then Thrown TypeError
  else
    let task_metadata := field result "task_metadata" in
    task_id ← str_or number_text (opt_prop task_metadata "task_id") "N/A";
    avatar ← formatAvatarForTXT (field result "avatar_ultra_detalhado");
    insights ← formatInsightsForTXT (field result "insights_exclusivos");
    competition ← formatCompetitionForTXT (field result "analise_concorrencia");
    plan ← formatActionPlanForTXT (field result "plano_acao");
    processing_mode ← str_or number_text (opt_prop task_metadata "processing_mode") "N/A";
    ai_provider_used ← str_or number_text (opt_prop task_metadata "ai_provider_used") "N/A";
    Returned ("
ARQV30 Enhanced v2.0 - Relatório de Análise de Mercado
========================================================

Gerado em: " +:+ now_text +:+ "
Task ID: " +:+ task_id +:+ "

AVATAR ULTRA-DETALHADO:
" +:+ avatar +:+ "

INSIGHTS EXCLUSIVOS:
" +:+ insights +:+ "

ANÁLISE DE CONCORRÊNCIA:
" +:+ competition +:+ "

PLANO DE AÇÃO:
" +:+ plan +:+ "

========================================================
Relatório gerado pelo ARQV30 Enhanced v2.0
Processamento: " +:+ processing_mode +:+ "
IA Utilizada: " +:+ ai_provider_used +:+ "
").

End Report.

(** A result from which the report can be built: where the report calls
    an array method, the result holds an array or nothing, and what the
    report prints converts to a string. *)
Definition list_or_absent (v : value) : bool := negb (truthy v) || isArray v.

Definition list_or_nullish (v : value) : bool := nullish v || isArray v.

(** [(v || []).map(x => `${x}`)]. *)
Definition printed_list (v : value) : bool := list_or_absent v && converts v.

(** [v?.join(', ')] and [v?.map(x => `${x}`)]. *)
Definition printed_optional_list (v : value) : bool := list_or_nullish v && converts v.

Definition avatar_ready (avatar : value) : bool :=
  negb (truthy avatar) ||
  (let perfil := or_else (field avatar "perfil_demografico") (JObj []) in
   converts (field perfil "idade") &&
   (converts (field perfil "renda") &&
    (converts (field perfil "localizacao") &&
     (printed_list (field avatar "dores_principais") &&
      printed_list (field avatar "desejos_principais"))))).

Definition insights_ready (insights : value) : bool :=
  negb (truthy insights) || negb (isArray insights) || converts insights.

Definition competitor_ready (comp : value) : bool :=
  negb (nullish comp) &&
  (converts (field comp "nome") &&
   (printed_optional_list (field comp "forcas") &&
    printed_optional_list (field comp "fraquezas"))).

Definition competition_ready (competition : value) : bool :=
  negb (truthy competition) || negb (isArray competition) ||
  forallb competitor_ready (elements competition).

Definition phase_ready (fase : value) : bool :=
  negb (truthy fase) ||
  (converts (field fase "duracao") &&
   printed_optional_list (field fase "atividades")).

Definition plan_ready (actionPlan : value) : bool :=
  negb (truthy actionPlan) ||
  (phase_ready (field actionPlan "fase_1") &&
   phase_ready (field actionPlan "fase_2")).

Definition report_ready (result : value) : bool :=
  negb (nullish result) &&
  (let task_metadata := field result "task_metadata" in
   converts (opt_prop task_metadata "task_id") &&
   (avatar_ready (field result "avatar_ultra_detalhado") &&
    (insights_ready (field result "insights_exclusivos") &&
     (competition_ready (field result "analise_concorrencia") &&
      (plan_ready (field result "plano_acao") &&
       (converts (opt_prop task_metadata "processing_mode") &&
        converts (opt_prop task_metadata "ai_provider_used"))))))).

(** *** Export *)

Section Reports.

(** [JSON.parse], [JSON.stringify(v)] and [JSON.stringify(v, null, 2)]. *)
Variable JSON_parse : string -> outcome value.
Variable JSON_stringify : value -> string.
Variable JSON_stringify_indented : value -> string.

(** [String(n)] for a number that is not a safe integer. *)
Variable number_text : Z -> string.

(** [JSON.parse(localStorage.getItem('last_analysis_result'))]; a missing
    item reads [null], which parses to [null]. *)
Definition stored_result (localStorage : storage) : outcome value :=
  match localStorage !! "last_analysis_result" with
  | Some s => JSON_parse s
  | None => Returned JNull
  end.

(** AsyncAnalysisManager.downloadTXT. *)
Definition downloadTXT (now_text : string) (clock : Z) (result : value)
  : outcome (list effect) :=
  txtContent ← generateTXTReport number_text now_text result;
  Returned [Download ("analise_" +:+ JS.dec clock +:+ ".txt")
                     {| mime := "text/plain;charset=utf-8"; content := txtContent |}].

(** AsyncAnalysisManager.downloadPDF: what it does, and the exception it
    ends with if any.  [reply] is the rejection of [fetch] or of
    [response.blob()], or [response.ok] and the blob. *)
Definition downloadPDF (clock : Z) (result : value) (reply : outcome (bool * blob))
  : list effect * option exn :=
  let sent := [Fetch generate_pdf_request (Some (JSON_stringify result))] in
  match reply with
  | Thrown e => (sent, Some e)
  | Returned (false, _) => (sent, Some (Error "Erro ao gerar PDF"))
  | Returned (true, b) =>
      ((sent ++ [Download ("analise_" +:+ JS.dec clock +:+ ".pdf") b])%list, None)
  end.

(** AsyncAnalysisManager.downloadJSON. *)
Definition downloadJSON (clock : Z) (result : value) : list effect :=
  [Download ("analise_" +:+ JS.dec clock +:+ ".json")
            {| mime := "application/json";
               content := JSON_stringify_indented result |}].

(** AsyncAnalysisManager.downloadReport. *)
Definition downloadReport (m : manager) (localStorage : storage) (format : string)
    (now_text : string) (clock : Z) (pdf_reply : outcome (bool * blob))
  : list effect :=
  if negb (truthy (currentTaskId m)) then
    [ShowError (Plain "Nenhuma análise disponível para download")]
  else
    let '(done, failure) :=
      match stored_result localStorage with
      | Thrown e => ([], Some e)
      | Returned result =>
          if String.eqb format "txt" then
            match downloadTXT now_text clock result with
            | Returned es => (es, None)
            | Thrown e => ([], Some e)
            end
          else if String.eqb format "pdf" then downloadPDF clock result pdf_reply
          else if String.eqb format "json" then (downloadJSON clock result, None)
          else ([], None)
      end in
    match failure with
    | None => done
    | Some e =>
        (done ++ [ConsoleError e; ShowError (WithMessageOf "Erro no download: " e)])%list
    end.

End Reports.






(** Sample inputs: the analysis button is clicked and the POST answers
    with task [t]; a status reply in state SUCCESS whose handlers return. *)
Definition click : event := Click true (Returned "{}").

Definition started (t : string) : event :=
  AnalyzeSettled (Returned (true, 200, Returned (JObj [("task_id", JStr t)]))).

Definition success_status : value :=
  JObj [("state", JStr "SUCCESS"); ("result", JObj [])].

Definition pending_status : value :=
  JObj [("state", JStr "PROGRESS"); ("current", JNum 1); ("total", JNum 4)].

Definition success : event := StatusSettled (Returned success_status) (Returned ()).

(** Two analyses started one after the other; the timer of the second
    then observes SUCCESS. *)
Definition double_start : list event :=
  [click; started "t1"; click; started "t2"; Tick 2; success].

(** [n] further rounds of the first timer: a tick, then a SUCCESS reply. *)
Fixpoint rounds (n : nat) : list event :=
  match n with
  | O => []
  | S n' => Tick 1 :: success :: rounds n'
  end.

(** Ticks and status replies, whatever their handlers do. *)
Definition no_start (ev : event) : Prop :=
  match ev with
  | Tick _ | StatusSettled _ _ => True
  | _ => False
  end.

(** Sample inputs for the export: a stored result, a manager that has
    started a task, a storage that holds some text under
    'last_analysis_result', and stand-ins for the JSON built-ins that read
    that text as the sample result. *)
Definition sample_result : value :=
  JObj [ ("task_metadata", JObj [("task_id", JStr "t1"); ("processing_mode", JStr "async")]);
         ("avatar_ultra_detalhado",
          JObj [ ("perfil_demografico", JObj [("idade", JStr "30-45")]);
                 ("dores_principais", JArr [JStr "tempo"; JStr "custo"]) ]);
         ("insights_exclusivos", JArr [JStr "nicho em alta"]);
         ("analise_concorrencia",
          JArr [JObj [("nome", JStr "Acme"); ("forcas", JArr [JStr "marca"; JStr "preco"])]]);
         ("plano_acao", JObj [("fase_1", JObj [("atividades", JArr [JStr "pesquisa"])])]) ].

Definition sample_manager : manager :=
  {| currentTaskId := JStr "t1"; statusCheckInterval := None |}.


Definition sample_parse : string -> outcome value := fun _ => Returned sample_result.
Definition sample_stringify : value -> string := fun _ => "stored text".

Definition sample_pdf : blob := {| mime := "application/pdf"; content := "%PDF-1.4" |}.

(** *** The interactive dashboard *)

Section Display.

(** [String(n)] for a number that is not a safe integer. *)
Variable number_text : Z -> string.

(** [new Date(v).toLocaleString('pt-BR')] for a primitive [v]. *)
Variable date_text : value -> string.

(** [JSON.stringify(v)]. *)
Variable JSON_stringify : value -> string.

(** [v?.slice(0, 2).join(', ') || 'N/A']. *)
Definition first_two_or_na (v : value) : outcome string :=
  if nullish v then Returned "N/A"
  else
    items ← as_array v;
    joined ← join number_text ", " (take 2 items);
    Returned (nonempty_or joined "N/A").

(** AsyncAnalysisManager.formatAvatarSummary. *)
Definition formatAvatarSummary (avatar : value) : outcome string :=
  if negb (truthy avatar) then Returned "<p>Dados não disponíveis</p>"
  else
    let perfil := or_else (field avatar "perfil_demografico") (JObj []) in
    let dores := or_else (field avatar "dores_principais") (JArr []) in
    idade ← str_or number_text (field perfil "idade") "N/A";
    renda ← str_or number_text (field perfil "renda") "N/A";
    localizacao ← str_or number_text (field perfil "localizacao") "N/A";
    dores ←
      (items ← as_array dores;
       mapM (fun dor => text ← to_string number_text dor;
                        Returned ("<li>" +:+ text +:+ "</li>"))
            (take 3 items));
    Returned ("
            <div class=" +:+ dq +:+ "avatar-quick-view" +:+ dq +:+ ">
                <p><strong>Idade:</strong> " +:+ idade +:+ "</p>
                <p><strong>Renda:</strong> " +:+ renda +:+ "</p>
                <p><strong>Localização:</strong> " +:+ localizacao +:+ "</p>
                <p><strong>Principais Dores:</strong></p>
                <ul>
                    " +:+ (JS.join "" dores) +:+ "
                </ul>
            </div>
        ").

(** AsyncAnalysisManager.formatInsightsList. *)
Definition formatInsightsList (insights : value) : outcome string :=
  if negb (truthy insights) || negb (isArray insights)
  then Returned "<p>Nenhum insight disponível</p>"
  else
    let insights := elements insights in
    items ←
      imapM (fun index insight =>
               text ← to_string number_text insight;
               Returned ("
                    <div class=" +:+ dq +:+ "insight-item" +:+ dq +:+ ">
                        <span class=" +:+ dq +:+ "insight-number" +:+ dq +:+ ">" +:+ (JS.dec (Z.of_nat index + 1)) +:+ "</span>
                        <span class=" +:+ dq +:+ "insight-text" +:+ dq +:+ ">" +:+ text +:+ "</span>
                    </div>
                "))
            (take 5 insights);
    Returned ("
            <div class=" +:+ dq +:+ "insights-quick-view" +:+ dq +:+ ">
                " +:+ (JS.join "" items) +:+ "
                " +:+ (if (5 <? length insights)%nat then "<p class=" +:+ dq +:+ "more-insights" +:+ dq +:+ ">+" +:+ (JS.dec (Z.of_nat (length insights) - 5)) +:+ " insights adicionais</p>" else "") +:+ "
            </div>
        ").

(** One competitor of formatCompetitionSummary (the body of its [map]). *)
Definition competitor_item (comp : value) : outcome string :=
  if nullish comp then Thrown TypeError
  else
    nome ← str_or number_text (field comp "nome") "Concorrente";
    forcas ← first_two_or_na (field comp "forcas");
    fraquezas ← first_two_or_na (field comp "fraquezas");
    Returned ("
                    <div class=" +:+ dq +:+ "competitor-item" +:+ dq +:+ ">
                        <h4>" +:+ nome +:+ "</h4>
                        <p><strong>Forças:</strong> " +:+ (forcas) +:+ "</p>
                        <p><strong>Fraquezas:</strong> " +:+ (fraquezas) +:+ "</p>
                    </div>
                ").

(** AsyncAnalysisManager.formatCompetitionSummary. *)
Definition formatCompetitionSummary (competition : value) : outcome string :=
  if negb (truthy competition) || negb (isArray competition)
  then Returned "<p>Dados não disponíveis</p>"
  else
    cards ← mapM competitor_item (take 2 (elements competition));
    Returned ("
            <div class=" +:+ dq +:+ "competition-quick-view" +:+ dq +:+ ">
                " +:+ (JS.join "" cards) +:+ "
            </div>
        ").

(** AsyncAnalysisManager.formatActionPlanSummary. *)
Definition formatActionPlanSummary (actionPlan : value) : outcome string :=
  if negb (truthy actionPlan) then Returned "<p>Dados não disponíveis</p>"
  else
    fase_1 ←
      (let fase := field actionPlan "fase_1" in
       if truthy fase then
         duracao ← str_or number_text (field fase "duracao") "30 dias";
         atividades ← first_two_or_na (field fase "atividades");
         Returned ("
                    <div class=" +:+ dq +:+ "phase-item" +:+ dq +:+ ">
                        <h4>Fase 1 (" +:+ duracao +:+ ")</h4>
                        <p>" +:+ (atividades) +:+ "</p>
                    </div>
                ")
       else Returned "");
    fase_2 ←
      (let fase := field actionPlan "fase_2" in
       if truthy fase then
         duracao ← str_or number_text (field fase "duracao") "60 dias";
         atividades ← first_two_or_na (field fase "atividades");
         Returned ("
                    <div class=" +:+ dq +:+ "phase-item" +:+ dq +:+ ">
                        <h4>Fase 2 (" +:+ duracao +:+ ")</h4>
                        <p>" +:+ (atividades) +:+ "</p>
                    </div>
                ")
       else Returned "");
    Returned ("
            <div class=" +:+ dq +:+ "action-plan-quick-view" +:+ dq +:+ ">
                " +:+ (fase_1) +:+ "
                " +:+ (fase_2) +:+ "
            </div>
        ").

(** AsyncAnalysisManager.formatMetadataSummary. *)
Definition formatMetadataSummary (metadata : value) : outcome string :=
  if negb (truthy metadata) then Returned "<p>Dados não disponíveis</p>"
  else
    task_id ← str_or number_text (field metadata "task_id") "N/A";
    processed_at ← to_primitive number_text (field metadata "processed_at");
    processing_mode ← str_or number_text (field metadata "processing_mode") "N/A";
    search_rounds ←
      to_string number_text (or_else (field metadata "search_rounds") (JNum 0));
    ai_provider_used ← str_or number_text (field metadata "ai_provider_used") "N/A";
    Returned ("
            <div class=" +:+ dq +:+ "metadata-quick-view" +:+ dq +:+ ">
                <p><strong>ID da Task:</strong> " +:+ task_id +:+ "</p>
                <p><strong>Processado em:</strong> " +:+ (date_text processed_at) +:+ "</p>
                <p><strong>Modo:</strong> " +:+ processing_mode +:+ "</p>
                <p><strong>Rodadas de Busca:</strong> " +:+ search_rounds +:+ "</p>
                <p><strong>IA Utilizada:</strong> " +:+ ai_provider_used +:+ "</p>
            </div>
        ").

(** AsyncAnalysisManager.generateInteractiveDashboard: the markup of
    [Dashboard], with the five summaries at its interpolations. *)
Definition generateInteractiveDashboard (result : value) : outcome string :=
  if nullish result then Thrown TypeError
  else
    avatar ← formatAvatarSummary (field result "avatar_ultra_detalhado");
    insights ← formatInsightsList (field result "insights_exclusivos");
    competition ← formatCompetitionSummary (field result "analise_concorrencia");
    plan ← formatActionPlanSummary (field result "plano_acao");
    metadata ← formatMetadataSummary (field result "task_metadata");
    Returned (Dashboard.header +:+ avatar +:+
              Dashboard.after_avatar +:+ insights +:+
              Dashboard.after_insights +:+ competition +:+
              Dashboard.after_competition +:+ plan +:+
              Dashboard.after_plan +:+ metadata +:+
              Dashboard.footer).

(** AsyncAnalysisManager.setupInteractiveDashboard:
    [localStorage.setItem('last_analysis_result', JSON.stringify(result))];
    [JSON.stringify(undefined)] is [undefined], which is stored as the
    text 'undefined'. *)
Definition setupInteractiveDashboard (localStorage : storage) (result : value)
  : storage :=
  <["last_analysis_result" :=
      match result with
      | JUndefined => "undefined"
      | _ => JSON_stringify result
      end]> localStorage.

(** AsyncAnalysisManager.displayInteractiveDashboard; [container] tells
    whether the element interactiveDashboard is on the page.  It gives the
    markup assigned to [container.innerHTML], if any, and the storage
    afterwards. *)
Definition displayInteractiveDashboard (container : bool) (localStorage : storage)
    (result : value) : outcome (option string * storage) :=
  if negb container then Returned (None, localStorage)
  else
    dashboardHTML ← generateInteractiveDashboard result;
    Returned (Some dashboardHTML, setupInteractiveDashboard localStorage result).

(** A status reply as the event loop delivers it on a page:
    onAnalysisComplete displays [status.result]. *)
Definition status_reply (container : bool) (localStorage : storage)
    (status : value) : event :=
  StatusSettled (Returned status)
    (_ ← displayInteractiveDashboard container localStorage (field status "result");
     Returned ()).

End Display.

(** A result the dashboard can be built from: where the dashboard calls
    an array method, the result holds an array or nothing, and what the
    dashboard prints converts to a string.  Only the first items of each
    list are looked at. *)

(** [v?.slice(0, 2).join(', ')]. *)
Definition first_two_ready (v : value) : bool :=
  list_or_nullish v && forallb converts (take 2 (elements v)).

Definition avatar_summary_ready (avatar : value) : bool :=
  negb (truthy avatar) ||
  (let perfil := or_else (field avatar "perfil_demografico") (JObj []) in
   let dores := field avatar "dores_principais" in
   converts (field perfil "idade") &&
   (converts (field perfil "renda") &&
    (converts (field perfil "localizacao") &&
     (list_or_absent dores && forallb converts (take 3 (elements dores)))))).

Definition insights_list_ready (insights : value) : bool :=
  negb (truthy insights) || negb (isArray insights) ||
  forallb converts (take 5 (elements insights)).

Definition competitor_item_ready (comp : value) : bool :=
  negb (nullish comp) &&
  (converts (field comp "nome") &&
   (first_two_ready (field comp "forcas") &&
    first_two_ready (field comp "fraquezas"))).

Definition competition_summary_ready (competition : value) : bool :=
  negb (truthy competition) || negb (isArray competition) ||
  forallb competitor_item_ready (take 2 (elements competition)).

Definition phase_summary_ready (fase : value) : bool :=
  negb (truthy fase) ||
  (converts (field fase "duracao") && first_two_ready (field fase "atividades")).

Definition plan_summary_ready (actionPlan : value) : bool :=
  negb (truthy actionPlan) ||
  (phase_summary_ready (field actionPlan "fase_1") &&
   phase_summary_ready (field actionPlan "fase_2")).

Definition metadata_summary_ready (metadata : value) : bool :=
  negb (truthy metadata) ||
  (converts (field metadata "task_id") &&
   (converts (field metadata "processed_at") &&
    (converts (field metadata "processing_mode") &&
     (converts (field metadata "search_rounds") &&
      converts (field metadata "ai_provider_used"))))).

Definition dashboard_ready (result : value) : bool :=
  negb (nullish result) &&
  (avatar_summary_ready (field result "avatar_ultra_detalhado") &&
   (insights_list_ready (field result "insights_exclusivos") &&
    (competition_summary_ready (field result "analise_concorrencia") &&
     (plan_summary_ready (field result "plano_acao") &&
      metadata_summary_ready (field result "task_metadata"))))).

(** *** Invariants of the timers *)

(** Every active timer has the period of startStatusMonitoring and a
    handle the browser has already given out, and the handle the manager
    holds is that of an active timer. *)
Definition timers_sound (w : world) : Prop :=
  (forall (h : positive) (period : Z),
     timers w !! h = Some period -> period = 2000 /\ (h < next_timer w)%positive) /\
  (forall h : positive,
     statusCheckInterval (self w) = Some h -> timers w !! h = Some 2000).


(** A reply to the POST that carries a task identifier. *)
Definition carries_task_id (r : outcome (bool * Z * outcome value)) : bool :=
  match r with
  | Returned (true, _, Returned result) =>
      negb (nullish result) && truthy (field result "task_id")
  | _ => false
  end.

(** Sample inputs: a SUCCESS status without result, a result whose third
    competitor is malformed, and stand-ins for the built-ins. *)
Definition success_without_result : value := JObj [("state", JStr "SUCCESS")].

Definition third_competitor_malformed : value :=
  JObj [("analise_concorrencia",
         JArr [JObj [("nome", JStr "A")]; JObj [("nome", JStr "B")]; JNull])].

(** Two analyses started one after the other. *)
Definition two_starts : list event := [click; started "t1"; click; started "t2"].

Definition sample_date_text : value -> string := fun _ => "03/11/2026, 10:00:00".

(** A result whose only pain has no conversion to a string, and one
    whose metadata holds such an object as its number of search rounds. *)
Definition pain_without_text : value :=
  JObj [("avatar_ultra_detalhado", JObj [("dores_principais", JArr [without_text])])].

Definition rounds_without_text : value :=
  JObj [("task_metadata", JObj [("search_rounds", without_text)])].


End AsyncAnalysisManager.

(** ** Session identifiers across the two managers *)

Module Session.

Inductive caller : Type :=
| Sync    (* AnalysisManager.collectFormData *)
| Async.  (* AsyncAnalysisManager.collectFormData *)

Definition getSessionId (c : caller) : storage -> entropy -> string * storage :=
  match c with
  | Sync => AnalysisManager.getSessionId
  | Async => AsyncAnalysisManager.getSessionId
  end.

(** The [session_id] fields of a sequence of submissions from one browser,
    each with its own clock and random draw. *)
Fixpoint session_ids (localStorage : storage) (calls : list (caller * entropy))
  : list string :=
  match calls with
  | [] => []
  | (c, e) :: rest =>
      let '(sessionId, localStorage') := getSessionId c localStorage e in
      sessionId :: session_ids localStorage' rest
  end.

(** Sample inputs. *)
Definition sample_entropy : entropy := {| now := 1700000000000; random36 := "k3j9x0q1z" |}.
Definition later_entropy : entropy := {| now := 1700000999999; random36 := "zzzzzzzzz" |}.

(** [window.app?.sessionId || 'default_session'], the session identifier
    FileUploadManager.uploadFile appends to its form; [app_sessionId] is
    [window.app?.sessionId], which is [undefined] when the page has no
    [window.app]. *)
Definition form_session_id (app_sessionId : Json.value) : string :=
  Json.text_or app_sessionId "default_session".

End Session.

(** ** The application object (main.js, ARQVApp) *)

Module ARQVApp.

(** ARQVApp.generateSessionId. *)
Definition generateSessionId (e : entropy) : string :=
  "session_" +:+ JS.dec (now e) +:+ "_" +:+ random36 e.

(** ARQVApp.checkSystemStatus fetches this. *)
Definition app_status_request : http_request :=
  {| verb := "GET"; path := "/api/app_status" |}.

End ARQVApp.

(** ** The requests of the page scripts *)

Module Endpoints.
Import Json.

(** Every place in main.js, analysis.js and the upload script that calls
    [fetch] or sends an [XMLHttpRequest], with the values its URL is built
    from. *)
Inductive site : Type :=
| AnalysisManager_startAnalysis
| AnalysisManager_downloadPdf
| AsyncAnalysisManager_startAsyncAnalysis
| AsyncAnalysisManager_startStatusMonitoring (currentTaskId : value)
| AsyncAnalysisManager_downloadPDF
| AsyncAnalysisManager_loadDashboard
| AsyncAnalysisManager_downloadAnalysis (analysisId format : value)
| AsyncAnalysisManager_validateAPIs
| ARQVApp_checkSystemStatus
| FileUploadManager_uploadFile.

Definition request_at (s : site) : http_request :=
  match s with
  | AnalysisManager_startAnalysis => AnalysisManager.analyze_request
  | AnalysisManager_downloadPdf => AnalysisManager.generate_pdf_request
  | AsyncAnalysisManager_startAsyncAnalysis =>
      AsyncAnalysisManager.analyze_async_request
  | AsyncAnalysisManager_startStatusMonitoring currentTaskId =>
      AsyncAnalysisManager.task_status_request currentTaskId
  | AsyncAnalysisManager_downloadPDF => AsyncAnalysisManager.generate_pdf_request
  | AsyncAnalysisManager_loadDashboard => AsyncAnalysisManager.dashboard_request
  | AsyncAnalysisManager_downloadAnalysis analysisId format =>
      AsyncAnalysisManager.analysis_download_request analysisId format
  | AsyncAnalysisManager_validateAPIs =>
      AsyncAnalysisManager.validate_apis_request
  | ARQVApp_checkSystemStatus => ARQVApp.app_status_request
  | FileUploadManager_uploadFile => Upload.upload_request
  end.

(** An endpoint of the specification: a fixed path, or a path that ends
    in an identifier. *)
Inductive endpoint : Type :=
| Fixed (verb path : string)
| WithId (verb prefix : string).

(** The seven endpoints the specification lists as consumed by the front
    end. *)
Definition spec_endpoints : list endpoint :=
  [ Fixed "POST" "/api/analyze";
    Fixed "POST" "/api/analyze_async";
    WithId "GET" "/api/task_status/";
    Fixed "POST" "/api/upload_attachment";
    Fixed "GET" "/api/dashboard";
    Fixed "POST" "/generate-pdf";
    Fixed "GET" "/api/app_status" ].

Definition targets (r : http_request) (e : endpoint) : bool :=
  match e with
  | Fixed v p => String.eqb (verb r) v && String.eqb (path r) p
  | WithId v p => String.eqb (verb r) v && JS.startsWith (path r) p
  end.

Definition listed (r : http_request) : bool := existsb (targets r) spec_endpoints.

(** The request the service worker sees when a page script fetches [r]:
    the browser resolves the path against the origin of the page (for a
    path the URL parser leaves as it is). *)
Definition worker_request (origin : string) (r : http_request)
  : ServiceWorker.request :=
  {| ServiceWorker.method := verb r;
     ServiceWorker.url := origin +:+ path r |}.

(** Sample inputs: the origin of a local deployment, and a status that
    reports progress. *)
Definition sample_origin : string := "http://localhost:5000".

Definition progress_reply : ServiceWorker.response :=
  {| ServiceWorker.ok := true; ServiceWorker.status := 200;
     ServiceWorker.body := "{" +:+ dq +:+ "state" +:+ dq +:+ ":" +:+ dq
                           +:+ "PROGRESS" +:+ dq +:+ "}" |}.

Definition sample_poll : ServiceWorker.request :=
  worker_request sample_origin (AsyncAnalysisManager.task_status_request (JStr "t1")).

End Endpoints.

(** ** The database migration *)

Module Schema.

Inductive sqltype : Type :=
| SERIAL
| VARCHAR (n : Z)
| TEXT
| DECIMAL (p s : Z)
| INTEGER
| INET
| JSONB
| TIMESTAMPTZ.

(** The default of a column, where the migration gives one. *)
Inductive default : Type :=
| NoDefault
| DefaultText (s : string)
| DefaultNow.

Record column : Type := {
  col_name : string;
  col_type : sqltype;
  primary_key : bool;
  unique : bool;
  not_null : bool;
  col_default : default
}.

Definition plain (name : string) (t : sqltype) : column :=
  {| col_name := name; col_type := t; primary_key := false; unique := false;
     not_null := false; col_default := NoDefault |}.

Definition required (name : string) (t : sqltype) : column :=
  {| col_name := name; col_type := t; primary_key := false; unique := false;
     not_null := true; col_default := NoDefault |}.

Definition serial_key (name : string) : column :=
  {| col_name := name; col_type := SERIAL; primary_key := true; unique := true;
     not_null := true; col_default := NoDefault |}.

Definition stamped (name : string) : column :=
  {| col_name := name; col_type := TIMESTAMPTZ; primary_key := false;
     unique := false; not_null := false; col_default := DefaultNow |}.

Record table : Type := { table_name : string; columns : list column }.

Definition analyses : table :=
  {| table_name := "analyses";
     columns :=
       [ serial_key "id";
         required "nicho" (VARCHAR 255);
         plain "produto" (VARCHAR 255);
         plain "descricao" TEXT;
         plain "preco" (DECIMAL 10 2);
         plain "publico" (VARCHAR 500);
         plain "concorrentes" TEXT;
         plain "dados_adicionais" TEXT;
         plain "objetivo_receita" (DECIMAL 15 2);
         plain "orcamento_marketing" (DECIMAL 15 2);
         plain "prazo_lancamento" (VARCHAR 100);
         plain "avatar_data" JSONB;
         plain "positioning_data" JSONB;
         plain "competition_data" JSONB;
         plain "marketing_data" JSONB;
         plain "metrics_data" JSONB;
         plain "funnel_data" JSONB;
         plain "market_intelligence" JSONB;
         plain "action_plan" JSONB;
         plain "comprehensive_analysis" JSONB;
         {| col_name := "status"; col_type := VARCHAR 50; primary_key := false;
            unique := false; not_null := false;
            col_default := DefaultText "pending" |};
         stamped "created_at";
         stamped "updated_at" ] |}.

Definition sessions : table :=
  {| table_name := "sessions";
     columns :=
       [ serial_key "id";
         {| col_name := "session_id"; col_type := VARCHAR 255;
            primary_key := false; unique := true; not_null := true;
            col_default := NoDefault |};
         plain "user_agent" TEXT;
         plain "ip_address" INET;
         plain "metadata" JSONB;
         stamped "created_at";
         stamped "last_activity" ] |}.

Definition attachments : table :=
  {| table_name := "attachments";
     columns :=
       [ serial_key "id";
         required "session_id" (VARCHAR 255);
         required "filename" (VARCHAR 255);
         required "original_filename" (VARCHAR 255);
         plain "file_size" INTEGER;
         plain "mime_type" (VARCHAR 100);
         plain "content_type" (VARCHAR 50);
         plain "extracted_content" TEXT;
         plain "metadata" JSONB;
         stamped "created_at" ] |}.

(** The tables the migration creates, in order. *)
Definition migration : list table := [analyses; sessions; attachments].

Inductive datum : Type :=
| Null
| Int (n : Z)
| Str (s : string)
| Time (t : Z).

(** A row: the value of each of its columns. *)
Abbreviation row := (gmap string datum).

Definition column_names (t : table) : list string := map col_name (columns t).

(** A row of table [t] has exactly the columns of [t]. *)
Definition row_of (t : table) (r : row) : Prop :=
  forall c : string, is_Some (r !! c) <-> In c (column_names t).

(** The PL/pgSQL function update_updated_at_column:
    [NEW.updated_at = NOW(); RETURN NEW;].  Assigning to a field the record
    does not have raises an error ([None]) and the statement is aborted. *)
Definition update_updated_at_column (NEW : row) (clock : Z) : option row :=
  match NEW !! "updated_at" with
  | Some _ => Some (<["updated_at" := Time clock]> NEW)
  | None => None
  end.

(** A [BEFORE UPDATE ... FOR EACH ROW] trigger. *)
Record trigger : Type := {
  trigger_name : string;
  on_table : string;
  execute : row -> Z -> option row
}.

Definition triggers : list trigger :=
  [ {| trigger_name := "update_analyses_updated_at"; on_table := "analyses";
       execute := update_updated_at_column |};
    {| trigger_name := "update_sessions_last_activity"; on_table := "sessions";
       execute := update_updated_at_column |} ].

(** The row the [BEFORE UPDATE] triggers of table [t] hand on when an
    [UPDATE] proposes [NEW] at time [clock]: every trigger of the table
    rewrites it in turn; [None] when one of them raises, which aborts the
    statement.  The constraints of the table are checked on that row
    afterwards ([update_statement]). *)
Definition fire (t : string) (clock : Z) (acc : option row) (g : trigger) : option row :=
  match acc with
  | Some r => if String.eqb (on_table g) t then execute g r clock else Some r
  | None => None
  end.

Definition update (t : table) (NEW : row) (clock : Z) : option row :=
  fold_left (fire (table_name t) clock) triggers (Some NEW).

(** Sample inputs: a row of sessions and a row of analyses (only some of
    its columns differ from NULL). *)
Definition sample_session : row :=
  <["id" := Int 1]> (<["session_id" := Str "session_1700000000000_k3j9x0q1z"]>
  (<["user_agent" := Str "Mozilla/5.0"]> (<["ip_address" := Str "127.0.0.1"]>
  (<["metadata" := Null]> (<["created_at" := Time 100]>
  (<["last_activity" := Time 100]> ∅)))))).

Definition sample_analysis : row :=
  <["updated_at" := Time 100]> (<["created_at" := Time 100]>
  (list_to_map (map (fun c => (col_name c, Null)) (columns analyses)))).

(** *** The statement UPDATE *)

(** Whether a column of a row holds NULL. *)
Definition is_null (d : option datum) : bool :=
  match d with
  | Some Null | None => true
  | Some _ => false
  end.

Definition datum_eqb (a b : datum) : bool :=
  match a, b with
  | Int n, Int m => n =? m
  | Str s, Str s' => String.eqb s s'
  | Time t, Time t' => t =? t'
  | _, _ => false
  end.

(** The NOT NULL constraints of a table (those of PRIMARY KEY among
    them). *)
Definition not_null_ok (t : table) (r : row) : bool :=
  forallb (fun c => negb (not_null c) || negb (is_null (r !! col_name c)))
          (columns t).

(** The PRIMARY KEY and UNIQUE constraints of a table, for the row [r]
    and the other rows the table holds: no other row has the value of [r]
    in such a column. *)
Definition unique_ok (t : table) (others : list row) (r : row) : bool :=
  forallb (fun c =>
             negb (unique c) ||
             forallb (fun o =>
                        negb (match o !! col_name c, r !! col_name c with
                              | Some a, Some b => datum_eqb a b
                              | _, _ => false
                              end))
                     others)
          (columns t).

(** [UPDATE t SET ...] for one row of [t]: [NEW] is the row the statement
    proposes, its values already converted to the types of the columns,
    and [others] are the other rows of the table.  The BEFORE UPDATE
    triggers rewrite the proposed row, then the constraints of the table
    are checked on the row they hand on; the result is the row that is
    stored, or [None] when a trigger or a constraint raises and the
    statement is aborted. *)
Definition update_statement (t : table) (others : list row) (NEW : row)
    (clock : Z) : option row :=
  match update t NEW clock with
  | Some r => if not_null_ok t r && unique_ok t others r then Some r else None
  | None => None
  end.

(** Sample inputs: a row of attachments, a row of analyses with its key
    and its niche, and the same row without niche. *)
Definition sample_attachment : row :=
  <["id" := Int 1]> (<["session_id" := Str "s1"]> (<["filename" := Str "a.pdf"]> ∅)).

Definition stored_analysis : row :=
  <["id" := Int 1]> (<["nicho" := Str "E-commerce"]> sample_analysis).

Definition analysis_without_niche : row := <["id" := Int 1]> sample_analysis.

End Schema.

(** * Part II: properties *)

(** ** Strings *)

Module StringFacts.

Lemma startsWith_append (p s : string) : JS.startsWith (p +:+ s) p = true.
Proof.
  unfold JS.startsWith. induction p as [|c p IH]; simpl.
  - now destruct s.
  - destruct (ascii_dec c c) as [_ | Hne]; [exact IH | now destruct Hne].
Qed.

End StringFacts.



(** ** The upload manager validates before it uploads *)

Module UploadFacts.
Import Upload.

Example extension_is_lower_cased :
  fileExtension {| name := "Plano.Final.PDF"; size := 10; type := "" |} = ".pdf".
Proof. reflexivity. Qed.

Example name_without_dot :
  fileExtension {| name := "json"; size := 10; type := "" |} = ".json".
Proof. reflexivity. Qed.

Lemma validateFile_valid (f : file) :
  validateFile f = Valid <-> passes_validation f.
Proof.
  unfold validateFile, passes_validation, isValidType, maxFileSize.
  destruct (Z.gtb_spec (size f) (16 * 1024 * 1024)) as [Hbig | Hsmall].
  - split; [discriminate | lia].
  - destruct (JS.mem (type f) allowedTypes) eqn:Ht,
             (JS.mem (fileExtension f) allowedExtensions) eqn:He; simpl.
    + split; [intros _; split; [lia | now left] | reflexivity].
    + split; [intros _; split; [lia | now left] | reflexivity].
    + split; [intros _; split; [lia | now right] | reflexivity].
    + split; [discriminate | intros [_ [H | H]]; discriminate].
Qed.

Lemma validateFile_invalid (f : file) :
  ~ passes_validation f -> exists message, validateFile f = Invalid message.
Proof.
  intros Hno. destruct (validateFile f) as [message|] eqn:Hv.
  - now exists message.
  - apply validateFile_valid in Hv. contradiction.
Qed.

Lemma processFile_upload (text_of_markup : string -> string)
    (session_id : string) (p : page) (f : file) (e : effect) :
  In e (snd (processFile text_of_markup session_id p f)) ->
  is_upload e = true ->
  e = XhrSend upload_request f session_id /\ passes_validation f.
Proof.
  intros Hin Hup. unfold processFile in Hin.
  destruct (validateFile f) as [message|] eqn:Hv; simpl in Hin.
  - destruct Hin as [<- | []]. discriminate.
  - unfold uploadFile in Hin.
    destruct (negb _); simpl in Hin; [contradiction|].
    destruct Hin as [<- | []].
    split; [reflexivity | now apply validateFile_valid].
Qed.

(** C4. For every file handed to processFile, an upload request (POST
    /api/upload_attachment) is issued only if the file passes client-side
    validation: its size is at most 16*1024*1024 bytes and its MIME type is
    in the allowed-types list or its lower-cased extension is in the
    allowed-extensions list; a file failing either check produces an error
    message, and no upload request is made for it. *)
Theorem processFile_uploads_only_valid
    (text_of_markup : string -> string) (session_id : string)
    (p : page) (f : file) :
  (forall e, In e (snd (processFile text_of_markup session_id p f)) ->
             is_upload e = true ->
             e = XhrSend upload_request f session_id /\ passes_validation f) /\
  (~ passes_validation f ->
   exists message,
     processFile text_of_markup session_id p f = (p, [ShowError message])).
Proof.
  split.
  - intros e. apply processFile_upload.
  - intros Hno. destruct (validateFile_invalid f Hno) as [message Hv].
    exists message. unfold processFile. now rewrite Hv.
Qed.

Lemma processFile_uploads_only_valid_witness :
  (In (XhrSend upload_request sample_ok "s1")
      (snd (processFile (fun s => s) "s1" sample_page sample_ok)) /\
   passes_validation sample_ok) /\
  (~ passes_validation sample_too_big /\
   exists message,
     processFile (fun s => s) "s1" sample_page sample_too_big
     = (sample_page, [ShowError message])).
Proof.
  split.
  - assert (Hin : In (XhrSend upload_request sample_ok "s1")
                     (snd (processFile (fun s => s) "s1" sample_page sample_ok)))
      by (left; reflexivity).
    split; [exact Hin|].
    exact (proj2 (proj1 (processFile_uploads_only_valid
                           (fun s => s) "s1" sample_page sample_ok)
                        _ Hin eq_refl)).
  - assert (Hno : ~ passes_validation sample_too_big).
    { intros [Hsize _]. vm_compute in Hsize. apply Hsize. reflexivity. }
    split; [exact Hno|].
    exact (proj2 (processFile_uploads_only_valid
                    (fun s => s) "s1" sample_page sample_too_big) Hno).
Defined.

(** The same holds file by file for a whole drop. *)
Lemma handleFiles_uploads_only_valid
    (text_of_markup : string -> string) (session_id : string)
    (files : list file) (p : page) (e : effect) :
  In e (snd (handleFiles text_of_markup session_id p files)) ->
  is_upload e = true ->
  exists f, In f files /\ e = XhrSend upload_request f session_id /\
            passes_validation f.
Proof.
  revert p. induction files as [|f rest IH]; intros p Hin Hup; simpl in Hin.
  - contradiction.
  - destruct (processFile text_of_markup session_id p f) as [p1 e1] eqn:H1.
    destruct (handleFiles text_of_markup session_id p1 rest) as [p2 e2] eqn:H2.
    simpl in Hin. apply in_app_or in Hin as [Hin | Hin].
    + pose proof (processFile_upload text_of_markup session_id p f e) as Hok.
      rewrite H1 in Hok. destruct (Hok Hin Hup) as [-> Hv].
      exists f. split; [now left | now split].
    + specialize (IH p1). rewrite H2 in IH.
      destruct (IH Hin Hup) as (f' & Hf' & He & Hv).
      exists f'. split; [now right | now split].
Qed.

End UploadFacts.

(** ** The service worker's strategies *)

Module ServiceWorkerFacts.
Import ServiceWorker.

(** ['/'] is one of STATIC_FILES and the test is [url.includes(file)]:
    every URL with a slash is a static file. *)
Lemma slash_is_static (url : string) :
  JS.includes url "/" = true -> isStaticFile url = true.
Proof.
  intros H. unfold isStaticFile, JS.some, STATIC_FILES. simpl existsb.
  rewrite H. reflexivity.
Qed.

(** A GET of an http(s) URL with a slash is always answered cache-first;
    the other three strategies are never chosen for it. *)
Lemma get_is_cache_first (r : request) :
  method r = "GET" ->
  JS.startsWith (url r) "http" = true ->
  JS.includes (url r) "/" = true ->
  on_fetch r = Some CacheFirst.
Proof.
  intros Hm Hh Hs. unfold on_fetch.
  rewrite Hm, Hh, (slash_is_static _ Hs). reflexivity.
Qed.

(** Requests that are not GETs are left to the browser. *)
Lemma other_methods_not_intercepted (c : caches) (net : network) (r : request) :
  method r <> "GET" -> handle_fetch c net r = None.
Proof.
  intros Hm. unfold handle_fetch, on_fetch.
  destruct (String.eqb_spec (method r) "GET") as [E | E]; [contradiction|].
  reflexivity.
Qed.

(** Cache-first: a cached response is returned without contacting the
    network. *)
Lemma cacheFirst_hit (c : caches) (net : network) (r : request) (x : response) :
  caches_match c r = Some x ->
  cacheFirst c net r =
  {| answer := Some x; store := c; contacted := false; from_cache := true |}.
Proof. intros H. unfold cacheFirst. rewrite H. reflexivity. Qed.

(** Cache-first: on a miss the network response is returned and, when ok,
    stored in the static cache. *)
Lemma cacheFirst_miss (c : caches) (net : network) (r : request) (x : response) :
  caches_match c r = None ->
  net (url r) = Some x ->
  answer (cacheFirst c net r) = Some x /\
  contacted (cacheFirst c net r) = true /\
  (ok x = true -> static_cache (store (cacheFirst c net r)) !! url r = Some x) /\
  (ok x = false -> store (cacheFirst c net r) = c).
Proof.
  intros Hc Hn. unfold cacheFirst. rewrite Hc, Hn. simpl.
  repeat split.
  - intros Hok. rewrite Hok. simpl. apply lookup_insert_eq.
  - intros Hok. rewrite Hok. reflexivity.
Qed.

Lemma networkOnly_never_cached (c : caches) (net : network) (r : request) :
  from_cache (networkOnly c net r) = false /\
  contacted (networkOnly c net r) = true /\
  store (networkOnly c net r) = c.
Proof. unfold networkOnly. destruct (net (url r)); repeat split. Qed.

(** C3, at a GET of /api/analyze.  The listener classifies the request as
    a static file although it is an analysis request, so it is served
    cache-first: the first ok response is stored in the static cache, and
    the next request is answered from that cache without contacting the
    network, whatever the server would answer by then. *)
Theorem analysis_get_answered_from_cache :
  isAnalysisRequest (url analysis_get) = true /\
  on_fetch analysis_get = Some CacheFirst /\
  exists s1 s2,
    handle_fetch no_caches first_network analysis_get = Some s1 /\
    answer s1 = Some first_answer /\
    static_cache (store s1) !! url analysis_get = Some first_answer /\
    handle_fetch (store s1) later_network analysis_get = Some s2 /\
    answer s2 = Some first_answer /\
    contacted s2 = false /\
    from_cache s2 = true.
Proof.
  split; [reflexivity|]. split; [reflexivity|].
  set (s1 := cacheFirst no_caches first_network analysis_get).
  assert (Hstored : static_cache (store s1) !! url analysis_get = Some first_answer)
    by apply lookup_insert_eq.
  exists s1, (cacheFirst (store s1) later_network analysis_get).
  split; [reflexivity|]. split; [reflexivity|]. split; [exact Hstored|].
  split; [reflexivity|].
  rewrite (cacheFirst_hit _ _ _ first_answer).
  - repeat split.
  - unfold caches_match. rewrite Hstored. reflexivity.
Qed.

End ServiceWorkerFacts.

(** ** Session identifiers *)

Module SessionFacts.
Import Session.

Example first_session_id :
  getSessionId Sync ∅ sample_entropy
  = ("session_1700000000000_k3j9x0q1z",
     {["arqv30_session_id" := "session_1700000000000_k3j9x0q1z"]}).
Proof. reflexivity. Qed.

Lemma same_code (c : caller) : getSessionId c = AnalysisManager.getSessionId.
Proof. destruct c; reflexivity. Qed.

(** Whatever was stored before, the identifier a call returns is not
    empty and is what the storage holds afterwards. *)
Lemma returned_is_stored (c : caller) (ls : storage) (e : entropy) :
  fst (getSessionId c ls e) <> "" /\
  snd (getSessionId c ls e) !! "arqv30_session_id" = Some (fst (getSessionId c ls e)).
Proof.
  rewrite same_code. unfold AnalysisManager.getSessionId.
  destruct (ls !! "arqv30_session_id") as [s|] eqn:Hs.
  - destruct (String.eqb_spec s "") as [-> | Hne]; simpl.
    + split; [discriminate | apply lookup_insert_eq].
    + split; [exact Hne | exact Hs].
  - simpl. split; [discriminate | apply lookup_insert_eq].
Qed.

(** A call on a storage that holds a non-empty identifier returns it and
    changes nothing. *)
Lemma stored_is_returned (c : caller) (ls : storage) (e : entropy) (s : string) :
  ls !! "arqv30_session_id" = Some s -> s <> "" ->
  getSessionId c ls e = (s, ls).
Proof.
  intros Hs Hne. rewrite same_code. unfold AnalysisManager.getSessionId.
  rewrite Hs. destruct (String.eqb_spec s "") as [-> | _]; [contradiction|].
  reflexivity.
Qed.

Lemma session_ids_constant (calls : list (caller * entropy)) (ls : storage) (s : string) :
  ls !! "arqv30_session_id" = Some s -> s <> "" ->
  Forall (fun sessionId => sessionId = s) (session_ids ls calls).
Proof.
  intros Hs Hne. induction calls as [|[c e] rest IH]; simpl.
  - constructor.
  - rewrite (stored_is_returned c ls e s Hs Hne). constructor; [reflexivity | exact IH].
Qed.

(** C9. getSessionId is idempotent across calls and across the two
    managers: on a storage without the key 'arqv30_session_id' the first
    call generates an identifier with prefix 'session_' and stores it under
    that key; every later call, by either manager and whatever the clock
    and the random draw, returns that same identifier and leaves the
    storage as it is, so every submission carries the same session_id. *)
Theorem getSessionId_idempotent (first : caller) (ls : storage) (e : entropy)
    (later : list (caller * entropy)) :
  let sessionId := fst (getSessionId first ls e) in
  let ls' := snd (getSessionId first ls e) in
  (ls !! "arqv30_session_id" = None ->
   sessionId = "session_" +:+ JS.dec (now e) +:+ "_" +:+ random36 e /\
   JS.startsWith sessionId "session_" = true /\
   ls' = <["arqv30_session_id" := sessionId]> ls) /\
  (forall (c : caller) (e' : entropy), getSessionId c ls' e' = (sessionId, ls')) /\
  Forall (fun s => s = sessionId) (session_ids ls' later).
Proof.
  intros sessionId ls'.
  destruct (returned_is_stored first ls e) as [Hne Hstored].
  fold sessionId in Hne, Hstored. fold ls' in Hstored.
  split; [|split].
  - intros Hnone. subst sessionId ls'.
    rewrite same_code. unfold AnalysisManager.getSessionId. rewrite Hnone.
    simpl. split; [reflexivity|]. split; [|reflexivity].
    unfold JS.startsWith. now destruct (_ +:+ _).
  - intros c e'. now apply stored_is_returned.
  - now apply session_ids_constant.
Qed.

Lemma getSessionId_idempotent_witness :
  (∅ : storage) !! "arqv30_session_id" = None /\
  fst (getSessionId Sync ∅ sample_entropy) = "session_1700000000000_k3j9x0q1z" /\
  getSessionId Async (snd (getSessionId Sync ∅ sample_entropy)) later_entropy
  = ("session_1700000000000_k3j9x0q1z", snd (getSessionId Sync ∅ sample_entropy)).
Proof.
  pose proof (getSessionId_idempotent Sync ∅ sample_entropy []) as H.
  cbv zeta in H. destruct H as (Hfirst & Hnext & _).
  assert (Hnone : (∅ : storage) !! "arqv30_session_id" = None) by apply lookup_empty.
  split; [exact Hnone|].
  split.
  - exact (proj1 (Hfirst Hnone)).
  - exact (Hnext Async later_entropy).
Defined.

End SessionFacts.

(** ** The synchronous manager's guard *)

Module AnalysisManagerFacts.
Import AnalysisManager.

Lemma initial_consistent : consistent initial.
Proof. right. split; reflexivity. Qed.

Lemma finally_consistent (w : world) (i : nat) :
  (exists p, runs w = [p]) -> (i < length (runs w))%nat -> consistent (finally w i).
Proof.
  intros [p Hp] Hi. right. unfold finally; simpl. split; [reflexivity|].
  rewrite Hp in *. simpl in Hi. destruct i; [reflexivity | lia].
Qed.

Lemma step_consistent (w : world) (ev : event) :
  consistent w -> consistent (step w ev).
Proof.
  intros Hw. destruct ev as [filled form clock | i r | i r]; simpl.
  - unfold startAnalysis.
    destruct Hw as [[Hg [p Hp]] | [Hg Hr]]; rewrite Hg.
    + left. split; [exact Hg | now exists p].
    + destruct filled; simpl.
      * destruct form as [body | e]; simpl.
        -- left. split; [reflexivity|]. rewrite Hr. now exists AwaitingFetch.
        -- right. split; [reflexivity | exact Hr].
      * right. split; [exact Hg | exact Hr].
  - destruct (runs w !! i) as [[|]|] eqn:Hi; try exact Hw.
    destruct Hw as [[Hg [p Hp]] | [Hg Hr]]; [|rewrite Hr in Hi; discriminate].
    pose proof (lookup_lt_Some _ _ _ Hi) as Hlt.
    unfold after_fetch. destruct r as [[[|] status] | e].
    + left. simpl. split; [exact Hg|].
      rewrite Hp in *. destruct i; [now exists AwaitingJson | simpl in Hlt; lia].
    + apply finally_consistent; [now exists p | exact Hlt].
    + apply finally_consistent; [now exists p | exact Hlt].
  - destruct (runs w !! i) as [[|]|] eqn:Hi; try exact Hw.
    destruct Hw as [[Hg [p Hp]] | [Hg Hr]]; [|rewrite Hr in Hi; discriminate].
    pose proof (lookup_lt_Some _ _ _ Hi) as Hlt.
    unfold after_json. destruct r as [result | e];
      (apply finally_consistent; [now exists p | exact Hlt]).
Qed.

Lemma run_consistent (evs : list event) (w : world) :
  consistent w -> consistent (run w evs).
Proof.
  revert w. induction evs as [|ev evs IH]; intros w Hw; simpl.
  - exact Hw.
  - apply IH. now apply step_consistent.
Qed.

Lemma consistent_in_flight (w : world) : consistent w -> (in_flight w <= 1)%nat.
Proof.
  unfold in_flight.
  intros [[_ [p Hp]] | [_ Hr]].
  - rewrite Hp. simpl. destruct (awaiting_fetch p); simpl; lia.
  - rewrite Hr. simpl. lia.
Qed.

(** A call while the guard is closed returns at once: no request, no
    effect, no change. *)
Lemma guarded_call (w : world) (filled : bool) (form : outcome string) (clock : Z) :
  isAnalyzing (self w) = true -> step w (Call filled form clock) = w.
Proof. intros Hg. simpl. unfold startAnalysis. now rewrite Hg. Qed.

(** An event that ends a run leaves the guard open. *)
Lemma finished_run_opens_guard (w : world) (ev : event) :
  consistent w ->
  (length (runs (step w ev)) < length (runs w))%nat ->
  isAnalyzing (self (step w ev)) = false /\ runs (step w ev) = [].
Proof.
  intros Hw Hlen.
  destruct (step_consistent w ev Hw) as [[_ [p Hp]] | [Hg Hr]].
  - destruct Hw as [[_ [q Hq]] | [_ Hr]].
    + rewrite Hp, Hq in Hlen. simpl in Hlen. lia.
    + rewrite Hr in Hlen. simpl in Hlen. lia.
  - now split.
Qed.

(** The POST fails (the promise rejects, or the response is not ok). *)
Lemma failed_post_opens_guard (w : world) (i : nat) (r : outcome (bool * Z)) :
  runs w !! i = Some AwaitingFetch ->
  (forall status, r <> Returned (true, status)) ->
  isAnalyzing (self (step w (FetchSettled i r))) = false.
Proof.
  intros Hi Hr. simpl. rewrite Hi. unfold after_fetch.
  destruct r as [[[|] status] | e]; try reflexivity.
  now destruct (Hr status).
Qed.

(** The POST succeeds: the run goes on to read the body, and ends when the
    body has been read or has failed to parse. *)
Lemma succeeded_post_opens_guard (w : world) (i : nat) (status : Z)
    (r : outcome Json.value) :
  consistent w ->
  runs w !! i = Some AwaitingFetch ->
  isAnalyzing (self (step (step w (FetchSettled i (Returned (true, status))))
                          (JsonSettled i r))) = false.
Proof.
  intros Hw Hi.
  assert (Hr : runs (step w (FetchSettled i (Returned (true, status)))) !! i
               = Some AwaitingJson).
  { simpl. rewrite Hi. simpl. apply list_lookup_insert_eq.
    now apply lookup_lt_Some in Hi. }
  set (w1 := step w (FetchSettled i (Returned (true, status)))) in *.
  simpl. rewrite Hr. unfold after_json. now destruct r.
Qed.

(** With the guard open a new analysis is accepted: the request goes out. *)
Lemma open_guard_accepts (w : world) (body : string) (clock : Z) :
  isAnalyzing (self w) = false ->
  log (step w (Call true (Returned body) clock)) =
  (log w ++ [ShowProgressArea; StartProgressAnimation;
             Fetch analyze_request body])%list /\
  isAnalyzing (self (step w (Call true (Returned body) clock))) = true.
Proof.
  intros Hg. simpl. unfold startAnalysis. rewrite Hg. simpl.
  split; [|reflexivity]. now rewrite <- app_assoc.
Qed.

(** C8. startAnalysis is non-reentrant and restores its guard.  In every
    state the manager can reach: a call made while isAnalyzing is true
    returns at once and changes nothing; at most one POST /api/analyze is
    in flight; isAnalyzing is true exactly while a run is suspended; when
    a run ends, because the POST failed or because the response was read,
    isAnalyzing is false again; and with isAnalyzing false a new call
    sends its request. *)
Theorem startAnalysis_non_reentrant (evs : list event) :
  let w := run initial evs in
  (isAnalyzing (self w) = true ->
   forall filled form clock, step w (Call filled form clock) = w) /\
  (in_flight w <= 1)%nat /\
  (isAnalyzing (self w) = true <-> runs w <> []) /\
  (forall ev, (length (runs (step w ev)) < length (runs w))%nat ->
              isAnalyzing (self (step w ev)) = false /\ runs (step w ev) = []) /\
  (forall i r, runs w !! i = Some AwaitingFetch ->
               (forall status, r <> Returned (true, status)) ->
               isAnalyzing (self (step w (FetchSettled i r))) = false) /\
  (forall i status r, runs w !! i = Some AwaitingFetch ->
     isAnalyzing (self (step (step w (FetchSettled i (Returned (true, status))))
                             (JsonSettled i r))) = false) /\
  (isAnalyzing (self w) = false ->
   forall body clock,
     log (step w (Call true (Returned body) clock)) =
     (log w ++ [ShowProgressArea; StartProgressAnimation;
                Fetch analyze_request body])%list /\
     isAnalyzing (self (step w (Call true (Returned body) clock))) = true).
Proof.
  intros w.
  assert (Hw : consistent w) by (apply run_consistent, initial_consistent).
  split; [intros Hg filled form clock; now apply guarded_call|].
  split; [now apply consistent_in_flight|].
  split.
  { destruct Hw as [[Hg [p Hp]] | [Hg Hr]]; rewrite Hg.
    - rewrite Hp. split; [discriminate | reflexivity].
    - rewrite Hr. split; [discriminate | intros H; now destruct H]. }
  split; [intros ev; now apply finished_run_opens_guard|].
  split; [intros i r; now apply failed_post_opens_guard|].
  split; [intros i status r; now apply succeeded_post_opens_guard|].
  intros Hg body clock. now apply open_guard_accepts.
Qed.

Lemma startAnalysis_non_reentrant_witness :
  (isAnalyzing (self (run initial [sample_call])) = true /\
   step (run initial [sample_call]) sample_call = run initial [sample_call]) /\
  (runs (run initial [sample_call]) !! 0%nat = Some AwaitingFetch /\
   isAnalyzing (self (step (run initial [sample_call])
                           (FetchSettled 0 sample_failure))) = false) /\
  (isAnalyzing (self (run initial [])) = false /\
   isAnalyzing (self (step (run initial []) sample_call)) = true).
Proof.
  destruct (startAnalysis_non_reentrant [sample_call])
    as (Hguard & _ & _ & _ & Hfail & _ & _).
  destruct (startAnalysis_non_reentrant []) as (_ & _ & _ & _ & _ & _ & Hopen).
  split; [|split].
  - split; [reflexivity|]. apply Hguard. reflexivity.
  - split; [reflexivity|]. apply Hfail; [reflexivity|]. intros status. discriminate.
  - split; [reflexivity|]. apply (Hopen eq_refl sample_body 1700000000000).
Defined.

End AnalysisManagerFacts.

(** ** Fallbacks of the result renderers *)

Module RenderFacts.
Import Json Render.

Example list_of_two :
  renderListAsCards (JArr [JStr "a"; JNum 3]) =
  JS.join "" (map (fun t => "
            <div class=" +:+ dq +:+ "info-card" +:+ dq +:+ ">
                <span>" +:+ t +:+ "</span>
            </div>
        ") ["a"; "3"]).
Proof. reflexivity. Qed.

Example label_of_key : label_of "faixa_etaria" = "Faixa Etaria".
Proof. reflexivity. Qed.









End RenderFacts.

(** ** The polling loop *)

Module AsyncAnalysisManagerFacts.
Import Json AsyncAnalysisManager StringFacts.

Example single_start_state :
  let w := run initial [click; started "t1"] in
  currentTaskId (self w) = JStr "t1" /\
  statusCheckInterval (self w) = Some 1%positive /\
  timers w = {[1%positive := 2000]}.
Proof. repeat split. Qed.

Example single_start_poll :
  status_polls (log (run initial [click; started "t1"; Tick 1])) =
  [Fetch {| verb := "GET"; path := "/api/task_status/t1" |} None].
Proof. reflexivity. Qed.

Lemma status_polls_app (l1 l2 : list effect) :
  status_polls (l1 ++ l2) = (status_polls l1 ++ status_polls l2)%list.
Proof. apply List.filter_app. Qed.

Lemma status_poll_is_poll (t : value) :
  status_polls [Fetch (task_status_request t) None] =
  [Fetch (task_status_request t) None].
Proof.
  unfold status_polls, task_status_request. cbn [List.filter is_status_poll verb path].
  rewrite startsWith_append. reflexivity.
Qed.


Lemma log_stop (w : world) : log (stopStatusMonitoring w) = log w.
Proof. unfold stopStatusMonitoring. now destruct (statusCheckInterval (self w)). Qed.


(** The handle is null: stopStatusMonitoring clears nothing. *)
Lemma stop_without_handle (w : world) :
  statusCheckInterval (self w) = None -> stopStatusMonitoring w = w.
Proof. intros H. unfold stopStatusMonitoring. now rewrite H. Qed.

(** A status reply never issues a status poll. *)
Lemma after_status_polls (w : world) (r : outcome value) (shown : outcome unit) :
  status_polls (log (after_status w r shown)) = status_polls (log w).
Proof.
  unfold after_status. destruct r as [status | e].
  - destruct (nullish status).
    + cbn [log emit]. rewrite status_polls_app. apply app_nil_r.
    + destruct (is_text (field status "state") "SUCCESS").
      * unfold onAnalysisComplete. destruct shown as [u | e].
        -- rewrite log_stop. cbn [log emit]. rewrite !status_polls_app.
           simpl. now rewrite !app_nil_r.
        -- cbn [log emit]. rewrite !status_polls_app. simpl. now rewrite !app_nil_r.
      * destruct (is_text (field status "state") "FAILURE").
        -- rewrite log_stop. unfold onAnalysisError. cbn [log emit].
           rewrite !status_polls_app. simpl. now rewrite !app_nil_r.
        -- cbn [log emit]. rewrite status_polls_app. apply app_nil_r.
  - cbn [log emit]. rewrite status_polls_app. apply app_nil_r.
Qed.

Lemma status_reply_no_poll (w : world) (r : outcome value) (shown : outcome unit) :
  status_polls (log (step w (StatusSettled r shown))) = status_polls (log w).
Proof.
  simpl. destruct (awaiting_status w); [reflexivity|].
  now rewrite after_status_polls.
Qed.








Example pending_status_keeps_polling :
  let w := run initial [click; started "t1"; Tick 1;
                        StatusSettled (Returned pending_status) (Returned ())] in
  terminal pending_status = false /\
  timers w = {[1%positive := 2000]} /\
  statusCheckInterval (self w) = Some 1%positive.
Proof. repeat split. Qed.

Example success_stops_polling :
  let w := run initial [click; started "t1"; Tick 1; success] in
  terminal success_status = true /\
  timers w = ∅ /\
  status_polls (log (run w [Tick 1; Tick 1])) = status_polls (log w).
Proof. repeat split. Qed.

(** A SUCCESS status whose handler throws does not stop the timer: the
    exception skips stopStatusMonitoring. *)
Lemma throwing_handler_keeps_polling (w : world) (e : exn) :
  (0 < awaiting_status w)%nat ->
  timers (step w (StatusSettled (Returned success_status) (Thrown e))) = timers w /\
  statusCheckInterval (self (step w (StatusSettled (Returned success_status) (Thrown e))))
  = statusCheckInterval (self w).
Proof.
  intros Hw. simpl. destruct (awaiting_status w); [lia|]. now split.
Qed.

(** Once the manager has lost the handle of an active timer, no tick and
    no status reply stops that timer. *)
Lemma lost_timer_step (w : world) (h : positive) (period : Z) (ev : event) :
  statusCheckInterval (self w) = None ->
  timers w !! h = Some period ->
  no_start ev ->
  statusCheckInterval (self (step w ev)) = None /\
  timers (step w ev) !! h = Some period.
Proof.
  intros Hh Ht Hev. destruct ev as [f d | r | h' | r shown]; try contradiction.
  - simpl. destruct (timers w !! h'); now split.
  - simpl. destruct (awaiting_status w) as [|n]; [now split|].
    unfold after_status. destruct r as [status | e]; [|now split].
    destruct (nullish status); [now split|].
    destruct (is_text (field status "state") "SUCCESS").
    + unfold onAnalysisComplete. destruct shown as [u | e]; [|now split].
      rewrite stop_without_handle by exact Hh. now split.
    + destruct (is_text (field status "state") "FAILURE"); [|now split].
      rewrite stop_without_handle by exact Hh. now split.
Qed.

Lemma tick_polls (w : world) (h : positive) (period : Z) :
  timers w !! h = Some period ->
  status_polls (log (step w (Tick h))) =
  (status_polls (log w) ++ [Fetch (task_status_request (currentTaskId (self w))) None])%list
  /\ awaiting_status (step w (Tick h)) = S (awaiting_status w)
  /\ self (step w (Tick h)) = self w.
Proof.
  intros Ht. simpl. rewrite Ht. unfold poll. cbn [log emit self awaiting_status].
  now rewrite status_polls_app, status_poll_is_poll.
Qed.

Lemma rounds_keep_polling (n : nat) (w : world) :
  statusCheckInterval (self w) = None ->
  timers w !! 1%positive = Some 2000 ->
  statusCheckInterval (self (run w (rounds n))) = None /\
  timers (run w (rounds n)) !! 1%positive = Some 2000 /\
  length (status_polls (log (run w (rounds n)))) = (length (status_polls (log w)) + n)%nat.
Proof.
  revert w. induction n as [|n IH]; intros w Hh Ht; simpl rounds.
  - simpl. repeat split; [exact Hh | exact Ht | lia].
  - change (run w (Tick 1 :: success :: rounds n))
      with (run (step (step w (Tick 1)) success) (rounds n)).
    destruct (tick_polls w 1 2000 Ht) as (Hl1 & Ha1 & Hs1).
    destruct (lost_timer_step w 1 2000 (Tick 1) Hh Ht I) as [Hh1 Ht1].
    destruct (lost_timer_step _ 1 2000 success Hh1 Ht1 I) as [Hh2 Ht2].
    destruct (IH _ Hh2 Ht2) as (Hh3 & Ht3 & Hl3).
    split; [exact Hh3|]. split; [exact Ht3|].
    rewrite Hl3. unfold success. rewrite status_reply_no_poll.
    rewrite Hl1, length_app. simpl. lia.
Qed.

(** C1, at two analyses started one after the other.  The second start
    overwrites statusCheckInterval without clearing the first timer.  When
    the second timer observes SUCCESS, stopStatusMonitoring clears only
    that one: the first timer is still active, it polls the status of the
    second task at every tick, and no later SUCCESS reply can stop it. *)
Theorem leaked_timer_polls_after_success :
  let w := run initial double_start in
  statusCheckInterval (self w) = None /\
  timers w = {[1%positive := 2000]} /\
  status_polls (log w) = [Fetch {| verb := "GET"; path := "/api/task_status/t2" |} None] /\
  status_polls (log (run w [Tick 1])) =
    [Fetch {| verb := "GET"; path := "/api/task_status/t2" |} None;
     Fetch {| verb := "GET"; path := "/api/task_status/t2" |} None] /\
  forall n : nat,
    timers (run w (rounds n)) !! 1%positive = Some 2000 /\
    length (status_polls (log (run w (rounds n)))) = S n.
Proof.
  intros w.
  assert (Hh : statusCheckInterval (self w) = None) by reflexivity.
  assert (Ht : timers w = {[1%positive := 2000]}) by reflexivity.
  split; [exact Hh|]. split; [exact Ht|]. split; [reflexivity|]. split; [reflexivity|].
  intros n.
  destruct (rounds_keep_polling n w Hh) as (_ & Htn & Hln).
  { rewrite Ht. apply lookup_singleton_eq. }
  split; [exact Htn | exact Hln].
Qed.

End AsyncAnalysisManagerFacts.

(** ** The endpoints the page scripts call *)

Module EndpointsFacts.
Import Json Endpoints StringFacts.

Example status_poll_is_listed :
  listed (request_at (AsyncAnalysisManager_startStatusMonitoring (JStr "t1"))) = true.
Proof. reflexivity. Qed.

Lemma task_status_listed (currentTaskId : value) :
  listed (AsyncAnalysisManager.task_status_request currentTaskId) = true.
Proof.
  unfold listed, spec_endpoints, AsyncAnalysisManager.task_status_request.
  cbn [existsb targets verb path String.eqb Ascii.eqb Bool.eqb andb orb].
  rewrite startsWith_append. reflexivity.
Qed.

(** C5 as stated fails: validateAPIs posts to /api/validate_apis and
    downloadAnalysis gets /api/analysis/:id/download, neither of which is
    one of the seven endpoints; the asynchronous manager's downloadPDF
    posts to /api/generate_pdf, not to /generate-pdf. *)
Lemma unlisted_requests :
  request_at AsyncAnalysisManager_validateAPIs
    = {| verb := "POST"; path := "/api/validate_apis" |} /\
  listed (request_at AsyncAnalysisManager_validateAPIs) = false /\
  request_at (AsyncAnalysisManager_downloadAnalysis (JNum 7) (JStr "pdf"))
    = {| verb := "GET"; path := "/api/analysis/7/download?format=pdf" |} /\
  listed (request_at (AsyncAnalysisManager_downloadAnalysis (JNum 7) (JStr "pdf"))) = false /\
  request_at AsyncAnalysisManager_downloadPDF
    = {| verb := "POST"; path := "/api/generate_pdf" |} /\
  listed (request_at AsyncAnalysisManager_downloadPDF) = false.
Proof. repeat split. Qed.

(** C5, as the code has it.  Apart from the asynchronous manager's
    downloadPDF, every request of the page scripts targets one of the seven
    listed endpoints, or is validateAPIs' POST /api/validate_apis, or is
    downloadAnalysis' GET /api/analysis/:id/download?format=...; the
    synchronous manager requests its PDF with POST /generate-pdf. *)
Theorem requests_target_known_endpoints (s : site) :
  (s <> AsyncAnalysisManager_downloadPDF ->
   listed (request_at s) = true \/
   request_at s = {| verb := "POST"; path := "/api/validate_apis" |} \/
   exists analysisId format,
     request_at s =
     {| verb := "GET";
        path := "/api/analysis/" +:+ toString analysisId +:+ "/download?format="
                +:+ toString format |}) /\
  request_at AnalysisManager_downloadPdf = {| verb := "POST"; path := "/generate-pdf" |} /\
  listed (request_at AnalysisManager_downloadPdf) = true.
Proof.
  split; [|split; reflexivity].
  intros Hs. destruct s; try (left; reflexivity).
  - left. apply task_status_listed.
  - now destruct Hs.
  - right. right. now exists analysisId, format.
  - right. now left.
Qed.

Lemma requests_target_known_endpoints_witness :
  AsyncAnalysisManager_startStatusMonitoring (JStr "t1") <> AsyncAnalysisManager_downloadPDF /\
  listed (request_at (AsyncAnalysisManager_startStatusMonitoring (JStr "t1"))) = true.
Proof.
  assert (Hne : AsyncAnalysisManager_startStatusMonitoring (JStr "t1")
                <> AsyncAnalysisManager_downloadPDF) by discriminate.
  split; [exact Hne|].
  destruct (proj1 (requests_target_known_endpoints
                     (AsyncAnalysisManager_startStatusMonitoring (JStr "t1"))) Hne)
    as [H | [H | (a & f & H)]]; [exact H | discriminate H | discriminate H].
Defined.

End EndpointsFacts.

(** ** The schema and its triggers *)

Module SchemaFacts.
Import Schema.

Example three_tables :
  map table_name migration = ["analyses"; "sessions"; "attachments"].
Proof. reflexivity. Qed.

Example session_id_constraints :
  List.filter (fun c => String.eqb (col_name c) "session_id") (columns sessions)
  = [ {| col_name := "session_id"; col_type := VARCHAR 255; primary_key := false;
         unique := true; not_null := true; col_default := NoDefault |} ].
Proof. reflexivity. Qed.

Lemma sessions_has_no_updated_at (NEW : row) :
  row_of sessions NEW -> NEW !! "updated_at" = None.
Proof.
  intros Hrow. destruct (NEW !! "updated_at") as [d|] eqn:Hd; [|reflexivity].
  assert (Hin : In "updated_at" (column_names sessions)).
  { apply Hrow. rewrite Hd. now eexists. }
  simpl in Hin. repeat (destruct Hin as [Hin | Hin]; [discriminate Hin|]).
  contradiction.
Qed.

Lemma analyses_has_updated_at (NEW : row) :
  row_of analyses NEW -> is_Some (NEW !! "updated_at").
Proof.
  intros Hrow. apply Hrow. simpl. do 22 right. now left.
Qed.

(** The trigger of analyses does its bookkeeping. *)
Lemma analyses_update_stamps (NEW : row) (clock : Z) :
  row_of analyses NEW ->
  update analyses NEW clock = Some (<["updated_at" := Time clock]> NEW).
Proof.
  intros Hrow. destruct (analyses_has_updated_at NEW Hrow) as [d Hd].
  unfold update, triggers. simpl. unfold update_updated_at_column. now rewrite Hd.
Qed.

(** C7, at the sessions table.  The trigger update_sessions_last_activity
    executes update_updated_at_column, which assigns NEW.updated_at; a row
    of sessions has no such column, so the trigger raises on every UPDATE
    and last_activity is never set by it. *)
Theorem sessions_update_raises (NEW : row) (clock : Z) :
  row_of sessions NEW -> update sessions NEW clock = None.
Proof.
  intros Hrow. unfold update, triggers. simpl. unfold update_updated_at_column.
  now rewrite (sessions_has_no_updated_at NEW Hrow).
Qed.

Lemma sample_session_is_row : row_of sessions sample_session.
Proof.
  intros c. unfold sample_session.
  rewrite !lookup_insert_is_Some, lookup_empty. simpl.
  split.
  - intros H. repeat (destruct H as [<- | [_ H]]; [tauto|]).
    destruct H as [d H]. discriminate H.
  - intros H.
    repeat (destruct H as [<- | H];
            [repeat ((left; reflexivity) || (right; split; [discriminate|]))|]).
    contradiction.
Qed.

Lemma sessions_update_raises_witness :
  row_of sessions sample_session /\ update sessions sample_session 200 = None.
Proof.
  split; [exact sample_session_is_row|].
  exact (sessions_update_raises sample_session 200 sample_session_is_row).
Defined.

Example sample_analysis_stamped :
  update analyses sample_analysis 200 = Some (<["updated_at" := Time 200]> sample_analysis).
Proof. reflexivity. Qed.

End SchemaFacts.

(** ** Conversions to a string, and computations that may throw *)

Module ConversionFacts.
Import Json.

(** Induction over a value and the items of its arrays. *)
Lemma value_items_ind (P : value -> Prop) :
  (forall items, Forall P items -> P (JArr items)) ->
  (forall v, isArray v = false -> P v) ->
  forall v, P v.
Proof.
  intros Harr Hother. fix IH 1. intros v.
  destruct v; try (apply Hother; reflexivity).
  apply Harr. induction items as [|x rest IHrest]; constructor;
    [apply IH | exact IHrest].
Qed.

Lemma returned_returns_iff {A : Type} (a : A) : returns_iff true (Returned a).
Proof. now exists a. Qed.

(** Two computations in a row. *)
Lemma bind_returns_iff {A B : Type} (r1 r2 : bool) (c : outcome A)
    (k : A -> outcome B) :
  returns_iff r1 c ->
  (forall a, c = Returned a -> returns_iff r2 (k a)) ->
  returns_iff (r1 && r2) (a ← c; k a).
Proof.
  unfold returns_iff. intros Hc Hk. destruct r1; simpl.
  - destruct Hc as [a ->]. now apply Hk.
  - now rewrite Hc.
Qed.

(** A computation whose result is only put into a text. *)
Lemma last_returns_iff {A B : Type} (r : bool) (c : outcome A) (k : A -> B) :
  returns_iff r c -> returns_iff r (a ← c; Returned (k a)).
Proof.
  unfold returns_iff. intros Hc. destruct r.
  - destruct Hc as [a ->]. now eexists.
  - now rewrite Hc.
Qed.

Lemma returns_iff_eq {A : Type} (r r' : bool) (c : outcome A) :
  r = r' -> returns_iff r' c -> returns_iff r c.
Proof. now intros ->. Qed.

Lemma mapM_returns_iff {A B : Type} (f : A -> outcome B) (ready : A -> bool)
    (l : list A) :
  Forall (fun x => returns_iff (ready x) (f x)) l ->
  returns_iff (forallb ready l) (mapM f l).
Proof.
  induction 1 as [|x l Hx _ IH]; simpl; [now eexists|].
  unfold returns_iff in *.
  destruct (ready x); simpl.
  - destruct Hx as [y ->]. simpl.
    destruct (forallb ready l); [destruct IH as [ys ->]; now eexists | now rewrite IH].
  - now rewrite Hx.
Qed.

Lemma mapM_all_returns_iff {A B : Type} (f : A -> outcome B) (ready : A -> bool)
    (l : list A) :
  (forall x, returns_iff (ready x) (f x)) ->
  returns_iff (forallb ready l) (mapM f l).
Proof. intros H. apply mapM_returns_iff, List.Forall_forall. intros x _. apply H. Qed.

Lemma forallb_imap_snd {A : Type} (ready : A -> bool) (l : list A) :
  forallb (fun p : nat * A => ready (snd p)) (imap pair l) = forallb ready l.
Proof.
  enough (H : forall (g : nat -> nat),
             forallb (fun p : nat * A => ready (snd p)) (imap (fun i x => (g i, x)) l)
             = forallb ready l) by apply (H (fun i => i)).
  induction l as [|x l IH]; intros g; [reflexivity|].
  cbn [imap forallb snd]. f_equal. apply (IH (fun i => g (S i))).
Qed.

Lemma imapM_returns_iff {A B : Type} (f : nat -> A -> outcome B)
    (ready : A -> bool) (l : list A) :
  (forall i x, returns_iff (ready x) (f i x)) ->
  returns_iff (forallb ready l) (imapM f l).
Proof.
  intros H. unfold imapM. rewrite <- (forallb_imap_snd ready l).
  apply mapM_all_returns_iff. intros [i x]. apply H.
Qed.

Lemma as_array_returns_iff (v : value) : returns_iff (isArray v) (as_array v).
Proof. destruct v; simpl; try reflexivity; now eexists. Qed.

Lemma as_array_elements (v : value) (items : list value) :
  as_array v = Returned items -> v = JArr items.
Proof. destruct v; try discriminate. now intros [= ->]. Qed.

Section Conversion.

Variable number_text : Z -> string.

Lemma to_string_array (items : list value) :
  to_string number_text (JArr items) = join number_text "," items.
Proof.
  unfold join. cbn [to_string].
  match goal with
  | |- mbind _ (?each items) = _ =>
      assert (H : forall l, each l = mapM (item_text number_text) l)
  end.
  { induction l as [|x rest IH]; [reflexivity|].
    cbn [mapM]. rewrite <- IH. reflexivity. }
  now rewrite H.
Qed.

Lemma item_text_returns_iff (x : value) :
  returns_iff (converts x) (to_string number_text x) ->
  returns_iff (converts x) (item_text number_text x).
Proof.
  intros Hx. unfold item_text. destruct (nullish x) eqn:Hn; [|exact Hx].
  destruct x; try discriminate Hn; now eexists.
Qed.

(** The conversion returns exactly for the values [converts] accepts. *)
Lemma to_string_returns_iff (v : value) :
  returns_iff (converts v) (to_string number_text v).
Proof.
  induction v as [items IH | v Hv] using value_items_ind.
  - rewrite to_string_array. unfold join. cbn [converts].
    apply last_returns_iff, mapM_returns_iff.
    apply (Forall_impl _ _ _ IH). intros x. apply item_text_returns_iff.
  - destruct v as [| | [|] | n | s | items | fields]; try discriminate Hv;
      try (now eexists).
    cbn [to_string converts]. destruct (has_own fields "toString"); [reflexivity|].
    now eexists.
Qed.

Lemma falsy_converts (v : value) : truthy v = false -> converts v = true.
Proof. destruct v; try discriminate; reflexivity. Qed.

Lemma nullish_converts (v : value) : nullish v = true -> converts v = true.
Proof. destruct v; try discriminate; reflexivity. Qed.

Lemma str_or_returns_iff (v : value) (fallback : string) :
  returns_iff (converts v) (str_or number_text v fallback).
Proof.
  unfold str_or, or_else. destruct (truthy v) eqn:Ht.
  - apply to_string_returns_iff.
  - rewrite (falsy_converts v Ht). now eexists.
Qed.

Lemma join_returns_iff (sep : string) (items : list value) :
  returns_iff (forallb converts items) (join number_text sep items).
Proof.
  unfold join. apply last_returns_iff, mapM_all_returns_iff.
  intros x. apply item_text_returns_iff, to_string_returns_iff.
Qed.

Lemma to_primitive_returns_iff (v : value) :
  returns_iff (converts v) (to_primitive number_text v).
Proof.
  destruct v; try (now eexists); unfold to_primitive;
    apply last_returns_iff, to_string_returns_iff.
Qed.

(** Where the conversion returns and the numbers print digit by digit,
    its text is that of [toString]. *)
Lemma to_string_toString (v : value) (s : string) :
  plain_numbers v = true ->
  to_string number_text v = Returned s ->
  s = toString v.
Proof.
  revert s. induction v as [items IH | v Hv] using value_items_ind; intros s Hp.
  - rewrite to_string_array. unfold join. cbn [plain_numbers toString] in *.
    destruct (mapM (item_text number_text) items) as [texts|] eqn:Hm;
      [|discriminate].
    cbn [mbind outcome_bind]. intros [= <-]. f_equal.
    revert texts Hm Hp. induction IH as [|x rest Hx _ IHrest]; intros texts Hm Hp.
    + now injection Hm as <-.
    + cbn [mapM] in Hm. cbn [forallb] in Hp. apply andb_true_iff in Hp as [Hpx Hpr].
      change (item_text number_text x)
        with (if nullish x then Returned "" else to_string number_text x) in Hm.
      cbn [map]. destruct (nullish x).
      * cbn [mbind outcome_bind] in Hm.
        destruct (mapM (item_text number_text) rest) as [ss|];
          cbn [mbind outcome_bind] in Hm; [|discriminate Hm].
        injection Hm as <-. f_equal. now apply IHrest.
      * destruct (to_string number_text x) as [sx|] eqn:Hsx;
          cbn [mbind outcome_bind] in Hm; [|discriminate Hm].
        destruct (mapM (item_text number_text) rest) as [ss|];
          cbn [mbind outcome_bind] in Hm; [|discriminate Hm].
        injection Hm as <-. f_equal; [now apply Hx | now apply IHrest].
  - destruct v as [| | [|] | n | s0 | items | fields]; try discriminate Hv;
      cbn [to_string toString plain_numbers] in *;
      try (intros [= <-]; reflexivity).
    + rewrite Hp. now intros [= <-].
    + destruct (has_own fields "toString"); [discriminate|]. now intros [= <-].
Qed.

End Conversion.

End ConversionFacts.

(** ** The service worker's caches over time *)

Module ServiceWorkerCaching.
Import ServiceWorker ServiceWorkerFacts.

(** X1. Whatever strategy the fetch listener picks for a request whose URL
    holds a slash, it is cache-first: the network-first, network-only and
    stale-while-revalidate branches are taken only for URLs without any
    slash. *)
Theorem slash_urls_are_cache_first (r : request) (s : strategy) :
  on_fetch r = Some s -> JS.includes (url r) "/" = true -> s = CacheFirst.
Proof.
  intros Hs Hslash. unfold on_fetch in Hs.
  destruct (negb (String.eqb (method r) "GET")); [discriminate|].
  destruct (negb (JS.startsWith (url r) "http")); [discriminate|].
  rewrite (slash_is_static _ Hslash) in Hs. now injection Hs as <-.
Qed.

Lemma slash_urls_are_cache_first_witness :
  isAPIRequest (url stats_get) = true /\
  on_fetch stats_get = Some CacheFirst.
Proof.
  split; [reflexivity|].
  destruct (on_fetch stats_get) as [s|] eqn:Hs; [|discriminate Hs].
  now rewrite (slash_urls_are_cache_first stats_get s Hs eq_refl).
Defined.

(** The strategies never replace or remove an entry of the static cache. *)
Lemma strategy_keeps_static (s : strategy) (c : caches) (net : network)
    (r : request) (u : string) (x : response) :
  static_cache c !! u = Some x ->
  static_cache (store (run_strategy s c net r)) !! u = Some x.
Proof.
  intros Hu. destruct s; simpl.
  - unfold cacheFirst, caches_match.
    destruct (static_cache c !! url r) as [y|] eqn:Hr; [exact Hu|].
    destruct (dynamic_cache c !! url r); [exact Hu|].
    destruct (net (url r)) as [y|]; [|exact Hu]. simpl.
    destruct (ok y); [|exact Hu]. simpl.
    rewrite lookup_insert_ne; [exact Hu|]. intros E. rewrite E in Hr. congruence.
  - unfold networkFirstWithCache.
    destruct (net (url r)) as [y|]; [destruct (ok y)|];
      try exact Hu; now destruct (caches_match c r).
  - unfold networkOnly. now destruct (net (url r)).
  - unfold staleWhileRevalidate.
    assert (H : static_cache
                  match net (url r) with
                  | Some y => if ok y then put_dynamic c r y else c
                  | None => c
                  end !! u = Some x).
    { destruct (net (url r)) as [y|]; [destruct (ok y)|]; exact Hu. }
    now destruct (dynamic_cache c !! url r).
Qed.

Lemma after_fetch_keeps_static (c : caches) (ev : request * network)
    (u : string) (x : response) :
  static_cache c !! u = Some x -> static_cache (after_fetch_event c ev) !! u = Some x.
Proof.
  intros Hu. unfold after_fetch_event, handle_fetch.
  destruct (on_fetch (fst ev)); [|exact Hu].
  now apply strategy_keeps_static.
Qed.

Lemma after_fetches_keep_static (c : caches) (evs : list (request * network))
    (u : string) (x : response) :
  static_cache c !! u = Some x ->
  static_cache (after_fetch_events c evs) !! u = Some x.
Proof.
  revert c. induction evs as [|ev evs IH]; intros c Hu; [exact Hu|].
  apply IH. now apply after_fetch_keeps_static.
Qed.

(** X2. An entry of the static cache is permanent: whatever fetch events
    the worker handles afterwards, and whatever the network answers, the
    entry stays as it is, and cache-first answers a request for its URL
    with it, without calling fetch. *)
Theorem static_entries_are_permanent (c : caches) (u : string) (x : response)
    (evs : list (request * network)) (net : network) (r : request) :
  static_cache c !! u = Some x ->
  static_cache (after_fetch_events c evs) !! u = Some x /\
  (url r = u ->
   cacheFirst (after_fetch_events c evs) net r =
   {| answer := Some x; store := after_fetch_events c evs;
      contacted := false; from_cache := true |}).
Proof.
  intros Hu.
  pose proof (after_fetches_keep_static c evs u x Hu) as H.
  split; [exact H|]. intros <-. apply cacheFirst_hit.
  unfold caches_match. now rewrite H.
Qed.

Lemma static_entries_are_permanent_witness :
  static_cache static_holds_first !! url stats_get = Some first_answer /\
  cacheFirst (after_fetch_events static_holds_first
                [(stats_get, later_network); (analysis_get, later_network)])
             later_network stats_get =
  {| answer := Some first_answer;
     store := after_fetch_events static_holds_first
                [(stats_get, later_network); (analysis_get, later_network)];
     contacted := false; from_cache := true |}.
Proof.
  split; [reflexivity|].
  exact (proj2 (static_entries_are_permanent static_holds_first (url stats_get)
                  first_answer
                  [(stats_get, later_network); (analysis_get, later_network)]
                  later_network stats_get eq_refl) eq_refl).
Defined.

Lemma put_static_only_ok (c : caches) (r : request) (y : response) :
  only_ok c -> ok y = true -> only_ok (put_static c r y).
Proof.
  intros Hc Hy u x [H | H]; simpl in H.
  - destruct (decide (url r = u)) as [E | E].
    + rewrite E, lookup_insert_eq in H. now injection H as <-.
    + rewrite lookup_insert_ne in H by exact E. apply (Hc u). now left.
  - apply (Hc u). now right.
Qed.

Lemma put_dynamic_only_ok (c : caches) (r : request) (y : response) :
  only_ok c -> ok y = true -> only_ok (put_dynamic c r y).
Proof.
  intros Hc Hy u x [H | H]; simpl in H.
  - apply (Hc u). now left.
  - destruct (decide (url r = u)) as [E | E].
    + rewrite E, lookup_insert_eq in H. now injection H as <-.
    + rewrite lookup_insert_ne in H by exact E. apply (Hc u). now right.
Qed.

Lemma strategy_only_ok (s : strategy) (c : caches) (net : network) (r : request) :
  only_ok c -> only_ok (store (run_strategy s c net r)).
Proof.
  intros Hc. destruct s; simpl.
  - unfold cacheFirst. destruct (caches_match c r); [exact Hc|].
    destruct (net (url r)) as [y|]; [|exact Hc]. simpl.
    destruct (ok y) eqn:Hy; [|exact Hc]. now apply put_static_only_ok.
  - unfold networkFirstWithCache.
    destruct (net (url r)) as [y|]; [destruct (ok y) eqn:Hy|].
    + now apply put_dynamic_only_ok.
    + now destruct (caches_match c r).
    + now destruct (caches_match c r).
  - unfold networkOnly. now destruct (net (url r)).
  - unfold staleWhileRevalidate.
    assert (H : only_ok
                  match net (url r) with
                  | Some y => if ok y then put_dynamic c r y else c
                  | None => c
                  end).
    { destruct (net (url r)) as [y|]; [destruct (ok y) eqn:Hy|]; try exact Hc.
      now apply put_dynamic_only_ok. }
    now destruct (dynamic_cache c !! url r).
Qed.

(** X3. The worker caches only responses with [response.ok]: if the caches
    hold none but such responses, as the empty caches do, they still do
    after any sequence of fetch events; in particular none of the 503
    stand-ins the strategies answer with when the network is down is ever
    cached. *)
Theorem caches_hold_only_ok_responses (c : caches)
    (evs : list (request * network)) :
  only_ok c -> only_ok (after_fetch_events c evs).
Proof.
  revert c. induction evs as [|ev evs IH]; intros c Hc; [exact Hc|].
  apply IH. unfold after_fetch_event, handle_fetch.
  destruct (on_fetch (fst ev)); [|exact Hc]. now apply strategy_only_ok.
Qed.

Lemma no_caches_only_ok : only_ok no_caches.
Proof. intros u x [H | H]; simpl in H; now rewrite lookup_empty in H. Qed.

Lemma caches_hold_only_ok_responses_witness :
  only_ok no_caches /\
  only_ok (after_fetch_events no_caches
             [(stats_get, failing_network); (stats_get, first_network);
              (analysis_get, offline)]) /\
  static_cache (after_fetch_events no_caches
                  [(stats_get, failing_network); (stats_get, first_network);
                   (analysis_get, offline)]) !! url stats_get
  = Some first_answer.
Proof.
  split; [exact no_caches_only_ok|]. split; [|reflexivity].
  exact (caches_hold_only_ok_responses no_caches
           [(stats_get, failing_network); (stats_get, first_network);
            (analysis_get, offline)] no_caches_only_ok).
Defined.

(** X4. Every strategy but stale-while-revalidate always answers with a
    response, also when the network is down; stale-while-revalidate
    answers with nothing exactly when the dynamic cache has no entry for
    the URL and fetch rejects. *)
Theorem no_answer_only_from_stale_offline (s : strategy) (c : caches)
    (net : network) (r : request) :
  answer (run_strategy s c net r) = None <->
  s = StaleWhileRevalidate /\ dynamic_cache c !! url r = None /\ net (url r) = None.
Proof.
  split.
  - destruct s; simpl.
    + unfold cacheFirst. destruct (caches_match c r); [discriminate|].
      now destruct (net (url r)).
    + unfold networkFirstWithCache.
      destruct (net (url r)) as [y|]; [destruct (ok y)|];
        try discriminate; now destruct (caches_match c r).
    + unfold networkOnly. now destruct (net (url r)).
    + unfold staleWhileRevalidate.
      destruct (dynamic_cache c !! url r); [discriminate|]. simpl. now intros ->.
  - intros (-> & Hd & Hn). simpl. unfold staleWhileRevalidate. now rewrite Hd, Hn.
Qed.

Lemma no_answer_only_from_stale_offline_witness :
  answer (run_strategy StaleWhileRevalidate no_caches offline stats_get) = None /\
  answer (run_strategy NetworkOnly no_caches offline stats_get)
  = Some network_error_json.
Proof.
  split; [|reflexivity].
  apply (no_answer_only_from_stale_offline StaleWhileRevalidate no_caches offline
           stats_get).
  repeat split.
Defined.

(** X5. Network-first stores an ok response in the dynamic cache, and
    falls back on [caches.match] when the network is down or answers with
    an error.  The fallback gives back the stored response only if the
    static cache has no entry for the URL: [caches.match] looks there
    first, so a static entry wins over the response stored last. *)
Theorem networkFirst_falls_back_on_stored (c : caches) (net net' : network)
    (r : request) (x : response) :
  net (url r) = Some x -> ok x = true ->
  (forall y, net' (url r) = Some y -> ok y = false) ->
  let s := networkFirstWithCache c net r in
  let s' := networkFirstWithCache (store s) net' r in
  answer s = Some x /\
  dynamic_cache (store s) !! url r = Some x /\
  from_cache s' = true /\ store s' = store s /\
  (static_cache c !! url r = None -> answer s' = Some x) /\
  (forall z, static_cache c !! url r = Some z -> answer s' = Some z).
Proof.
  intros Hx Hok Hdown. cbn zeta.
  assert (Hs : networkFirstWithCache c net r =
               {| answer := Some x; store := put_dynamic c r x;
                  contacted := true; from_cache := false |}).
  { unfold networkFirstWithCache. now rewrite Hx, Hok. }
  rewrite Hs. cbn [answer store].
  assert (Hdyn : dynamic_cache (put_dynamic c r x) !! url r = Some x).
  { simpl. apply lookup_insert_eq. }
  split; [reflexivity|]. split; [exact Hdyn|].
  assert (Hfall : networkFirstWithCache (put_dynamic c r x) net' r =
          match caches_match (put_dynamic c r x) r with
          | Some cachedResponse =>
              {| answer := Some cachedResponse; store := put_dynamic c r x;
                 contacted := true; from_cache := true |}
          | None =>
              {| answer := Some offline_json; store := put_dynamic c r x;
                 contacted := true; from_cache := false |}
          end).
  { unfold networkFirstWithCache.
    destruct (net' (url r)) as [y|] eqn:Hy; [|reflexivity].
    now rewrite (Hdown y eq_refl). }
  rewrite Hfall. unfold caches_match. cbn [static_cache put_dynamic].
  destruct (static_cache c !! url r) as [z|] eqn:Hz.
  - cbn. repeat split; [discriminate | now intros ? [= <-]].
  - rewrite Hdyn. cbn. repeat split. discriminate.
Qed.

Lemma networkFirst_falls_back_on_stored_witness :
  answer (networkFirstWithCache
            (store (networkFirstWithCache no_caches first_network stats_get))
            offline stats_get) = Some first_answer /\
  answer (networkFirstWithCache
            (store (networkFirstWithCache static_holds_first later_network stats_get))
            failing_network stats_get) = Some first_answer.
Proof.
  split.
  - assert (Hdown : forall y, offline (url stats_get) = Some y -> ok y = false)
      by discriminate.
    destruct (networkFirst_falls_back_on_stored no_caches first_network offline
                stats_get first_answer eq_refl eq_refl Hdown)
      as (_ & _ & _ & _ & H & _).
    exact (H eq_refl).
  - assert (Hdown : forall y, failing_network (url stats_get) = Some y -> ok y = false)
      by (now intros y [= <-]).
    destruct (networkFirst_falls_back_on_stored static_holds_first later_network
                failing_network stats_get later_answer eq_refl eq_refl Hdown)
      as (_ & _ & _ & _ & _ & H).
    exact (H first_answer eq_refl).
Defined.

(** X6. Stale-while-revalidate is one response behind: it always calls
    fetch, and once the network has answered a request with an ok
    response, the next request for the same URL is answered with that
    response out of the dynamic cache, whatever the network answers by
    then. *)
Theorem stale_serves_previous_response (c : caches) (net net' : network)
    (r : request) (x : response) :
  net (url r) = Some x -> ok x = true ->
  let s := staleWhileRevalidate c net r in
  let s' := staleWhileRevalidate (store s) net' r in
  contacted s = true /\ contacted s' = true /\
  (dynamic_cache c !! url r = None -> answer s = Some x) /\
  dynamic_cache (store s) !! url r = Some x /\
  answer s' = Some x /\ from_cache s' = true.
Proof.
  intros Hx Hok. cbn zeta.
  assert (Hstore : store (staleWhileRevalidate c net r) = put_dynamic c r x).
  { unfold staleWhileRevalidate. rewrite Hx, Hok.
    now destruct (dynamic_cache c !! url r). }
  assert (Hdyn : dynamic_cache (store (staleWhileRevalidate c net r)) !! url r = Some x).
  { rewrite Hstore. simpl. apply lookup_insert_eq. }
  split; [unfold staleWhileRevalidate; now destruct (dynamic_cache c !! url r)|].
  split; [unfold staleWhileRevalidate at 1;
          now destruct (dynamic_cache _ !! url r)|].
  split.
  { intros Hnone. unfold staleWhileRevalidate. now rewrite Hnone, Hx. }
  split; [exact Hdyn|].
  unfold staleWhileRevalidate at 1 3. now rewrite Hdyn.
Qed.

Lemma stale_serves_previous_response_witness :
  answer (staleWhileRevalidate
            (store (staleWhileRevalidate no_caches first_network stats_get))
            later_network stats_get) = Some first_answer.
Proof.
  exact (proj1 (proj2 (proj2 (proj2 (proj2
    (stale_serves_previous_response no_caches first_network later_network
       stats_get first_answer eq_refl eq_refl)))))).
Defined.

Lemma activate_keeps (cacheNames : list string) (n : string) :
  In n (activate cacheNames) <-> In n cacheNames /\ is_old_cache n = false.
Proof.
  unfold activate. rewrite filter_In. now rewrite negb_true_iff.
Qed.

(** X7. Activation deletes the caches named arqv30-... other than the
    static and the dynamic cache and keeps every other cache, in order: it
    never deletes the two caches the strategies use, nor the cache of
    another application, and activating again deletes nothing more. *)
Theorem activate_deletes_old_caches_only (cacheNames : list string) :
  (forall n, In n cacheNames ->
     n = STATIC_CACHE_NAME \/ n = DYNAMIC_CACHE_NAME \/
     JS.startsWith n "arqv30-" = false ->
     In n (activate cacheNames)) /\
  (forall n, In n (activate cacheNames) ->
     In n cacheNames /\
     (n = STATIC_CACHE_NAME \/ n = DYNAMIC_CACHE_NAME \/
      JS.startsWith n "arqv30-" = false)) /\
  activate (activate cacheNames) = activate cacheNames.
Proof.
  split; [|split].
  - intros n Hin Hn. apply activate_keeps. split; [exact Hin|].
    unfold is_old_cache. destruct Hn as [-> | [-> | ->]];
      [reflexivity | reflexivity | apply andb_false_r].
  - intros n Hn. apply activate_keeps in Hn as [Hin Hold]. split; [exact Hin|].
    unfold is_old_cache in Hold.
    destruct (String.eqb_spec n STATIC_CACHE_NAME) as [-> | _]; [now left|].
    destruct (String.eqb_spec n DYNAMIC_CACHE_NAME) as [-> | _]; [right; now left|].
    right. right. exact Hold.
  - unfold activate. induction cacheNames as [|n l IH]; [reflexivity|].
    simpl. destruct (negb (is_old_cache n)) eqn:Hn; [|exact IH].
    simpl. rewrite Hn. now f_equal.
Qed.

Lemma activate_deletes_old_caches_only_witness :
  activate ["arqv30-static-v1.0"; "arqv30-static-v2.0"; "arqv30-enhanced-v2.0";
            "workbox-precache"; "arqv30-dynamic-v2.0"]
  = ["arqv30-static-v2.0"; "workbox-precache"; "arqv30-dynamic-v2.0"] /\
  In "workbox-precache"
     (activate ["arqv30-static-v1.0"; "arqv30-static-v2.0"; "arqv30-enhanced-v2.0";
                "workbox-precache"; "arqv30-dynamic-v2.0"]).
Proof.
  split; [reflexivity|].
  apply (proj1 (activate_deletes_old_caches_only
                  ["arqv30-static-v1.0"; "arqv30-static-v2.0"; "arqv30-enhanced-v2.0";
                   "workbox-precache"; "arqv30-dynamic-v2.0"])).
  - simpl. tauto.
  - right. right. reflexivity.
Defined.

Section CleanupFacts.

Variable cached : Type.
Variable date_of : cached -> option Z.

Lemma expired_later (now now' : Z) (r : cached) :
  now <= now' -> expired cached date_of now r = true ->
  expired cached date_of now' r = true.
Proof.
  unfold expired. destruct (date_of r) as [t|]; [|discriminate].
  intros Hle H. apply Z.gtb_lt in H. apply Z.gtb_lt. lia.
Qed.

(** X8. The periodic cleanup removes from the dynamic cache exactly the
    entries whose date header is more than seven days old: an entry
    without a readable date header is never removed, an entry dated in the
    last seven days (or in the future) is kept, and cleaning at a later
    time gives the same cache whether or not the earlier cleanup ran. *)
Theorem cleanupOldCaches_removes_expired (entries : gmap string cached)
    (now now' : Z) (u : string) (r : cached) :
  (cleanupOldCaches cached date_of entries now !! u = Some r <->
   entries !! u = Some r /\
   (date_of r = None \/
    exists t, date_of r = Some t /\ now - t <= 7 * 24 * 60 * 60 * 1000)) /\
  (now <= now' ->
   cleanupOldCaches cached date_of
     (cleanupOldCaches cached date_of entries now) now'
   = cleanupOldCaches cached date_of entries now').
Proof.
  split.
  - unfold cleanupOldCaches. rewrite map_lookup_filter_Some. simpl.
    unfold expired, maxAge. split; intros [Hu H]; (split; [exact Hu|]).
    + destruct (date_of r) as [t|]; [|now left]. right. exists t.
      split; [reflexivity|]. destruct (Z.gtb_spec (now - t) (7 * 24 * 60 * 60 * 1000));
        [discriminate | lia].
    + destruct H as [-> | (t & -> & Ht)]; [reflexivity|].
      destruct (Z.gtb_spec (now - t) (7 * 24 * 60 * 60 * 1000)); [lia | reflexivity].
  - intros Hle. unfold cleanupOldCaches. apply map_eq. intros k.
    apply option_eq. intros y.
    rewrite !map_lookup_filter_Some. simpl. split.
    + now intros [[Hk _] Hy].
    + intros [Hk Hy]. repeat split; try assumption.
      destruct (expired cached date_of now y) eqn:He; [|reflexivity].
      now rewrite (expired_later now now' y Hle He) in Hy.
Qed.

End CleanupFacts.

Lemma cleanupOldCaches_removes_expired_witness :
  cleanupOldCaches Z Some {[ "/a" := 0; "/b" := 1000000000 ]} 1000000000 !! "/b"
  = Some 1000000000 /\
  cleanupOldCaches Z Some
    (cleanupOldCaches Z Some {[ "/a" := 0; "/b" := 1000000000 ]} 1000000000)
    2000000000
  = cleanupOldCaches Z Some {[ "/a" := 0; "/b" := 1000000000 ]} 2000000000.
Proof.
  split.
  - apply (proj1 (cleanupOldCaches_removes_expired Z Some
                    {[ "/a" := 0; "/b" := 1000000000 ]} 1000000000 2000000000
                    "/b" 1000000000)).
    split; [reflexivity|]. right. exists 1000000000. split; [reflexivity | lia].
  - apply (proj2 (cleanupOldCaches_removes_expired Z Some
                    {[ "/a" := 0; "/b" := 1000000000 ]} 1000000000 2000000000
                    "/b" 1000000000)).
    lia.
Defined.

End ServiceWorkerCaching.

(** ** What becomes of the files of a drop *)

Module UploadDrops.
Import Upload UploadFacts.

Section Drops.

Variable text_of_markup : string -> string.
Variable session_id : string.

Lemma processFile_shown (p : page) (f : file) :
  uploadedFiles p = true ->
  text_of_markup (name f) = name f ->
  processFile text_of_markup session_id p f =
  (if valid (validateFile f)
   then {| uploadedFiles := true; file_items := (file_items p ++ [name f])%list |}
   else p,
   [outcome_of session_id f]).
Proof.
  intros Hc Hname. unfold processFile, outcome_of.
  destruct (validateFile f) as [message|]; [reflexivity|]. simpl.
  unfold addFileToUI, uploadFile. rewrite Hc. simpl. rewrite Hname.
  rewrite existsb_app. simpl. rewrite String.eqb_refl, orb_true_r. reflexivity.
Qed.

(** X9. On a page that has the uploadedFiles element, and for file names
    the HTML parser leaves as they are, a drop yields exactly one effect
    per file, in the order of the files: the error message of validateFile
    for a rejected file, the POST of the file for an accepted one; and the
    list on the page grows by the names of the accepted files. *)
Theorem handleFiles_one_effect_per_file (files : list file) (p : page) :
  uploadedFiles p = true ->
  Forall (fun f => text_of_markup (name f) = name f) files ->
  snd (handleFiles text_of_markup session_id p files)
  = map (outcome_of session_id) files /\
  file_items (fst (handleFiles text_of_markup session_id p files))
  = (file_items p
     ++ map name (List.filter (fun f => valid (validateFile f)) files))%list.
Proof.
  revert p. induction files as [|f files IH]; intros p Hc Hnames.
  - simpl. now rewrite app_nil_r.
  - inversion Hnames as [|? ? Hf Hrest]; subst.
    cbn [handleFiles]. rewrite (processFile_shown p f Hc Hf).
    set (p1 := if valid (validateFile f)
               then {| uploadedFiles := true;
                       file_items := (file_items p ++ [name f])%list |}
               else p).
    assert (Hc1 : uploadedFiles p1 = true).
    { subst p1. now destruct (valid (validateFile f)). }
    destruct (IH p1 Hc1 Hrest) as [He Hi].
    destruct (handleFiles text_of_markup session_id p1 files) as [p2 e2].
    simpl in He, Hi |- *. subst e2. split; [reflexivity|].
    rewrite Hi. subst p1. destruct (valid (validateFile f)); simpl.
    + now rewrite <- app_assoc.
    + reflexivity.
Qed.

(** X10. On a page without the uploadedFiles element (and with no file
    row of its own), a drop uploads nothing: a rejected file gets its
    error message, an accepted file is dropped without any message. *)
Theorem handleFiles_without_container (files : list file) (p : page) :
  uploadedFiles p = false ->
  file_items p = [] ->
  fst (handleFiles text_of_markup session_id p files) = p /\
  existsb is_upload (snd (handleFiles text_of_markup session_id p files)) = false /\
  snd (handleFiles text_of_markup session_id p files)
  = flat_map (fun f => match validateFile f with
                       | Invalid message => [ShowError message]
                       | Valid => []
                       end) files.
Proof.
  intros Hc Hi.
  assert (Hp : forall f, processFile text_of_markup session_id p f =
                         (p, match validateFile f with
                             | Invalid message => [ShowError message]
                             | Valid => []
                             end)).
  { intros f. unfold processFile. destruct (validateFile f); [reflexivity|].
    unfold addFileToUI, uploadFile. rewrite Hc. simpl. now rewrite Hi. }
  induction files as [|f files IH]; [repeat split|].
  cbn [handleFiles]. rewrite Hp.
  destruct IH as (IH1 & IH2 & IH3).
  destruct (handleFiles text_of_markup session_id p files) as [p2 e2].
  simpl in IH1, IH2, IH3 |- *. subst p2 e2. split; [reflexivity|].
  split; [|reflexivity].
  rewrite existsb_app, IH2. now destruct (validateFile f).
Qed.

(** X11. An accepted file whose name the HTML parser changes (a name with
    a character reference or a tag in it) is listed on the page under the
    changed name and never uploaded: uploadFile looks for the row by the
    name of the file, finds none, and returns without a message. *)
Theorem changed_name_is_never_uploaded (p : page) (f : file) :
  validateFile f = Valid ->
  uploadedFiles p = true ->
  text_of_markup (name f) <> name f ->
  ~ In (name f) (file_items p) ->
  processFile text_of_markup session_id p f =
  ({| uploadedFiles := true;
      file_items := (file_items p ++ [text_of_markup (name f)])%list |}, []).
Proof.
  intros Hv Hc Hname Hnew. unfold processFile. rewrite Hv.
  unfold addFileToUI, uploadFile. rewrite Hc. simpl.
  rewrite existsb_app. simpl.
  destruct (String.eqb_spec (name f) (text_of_markup (name f))) as [E | _];
    [now destruct Hname|].
  destruct (existsb (String.eqb (name f)) (file_items p)) eqn:Hex; [|reflexivity].
  apply existsb_exists in Hex as (x & Hx & E). apply String.eqb_eq in E.
  subst x. now destruct Hnew.
Qed.

End Drops.

Lemma handleFiles_one_effect_per_file_witness :
  snd (handleFiles (fun s => s) "s1" sample_page sample_drop)
  = [ XhrSend upload_request sample_ok "s1";
      ShowError ("Arquivo " +:+ dq +:+ "video.pdf" +:+ dq
                 +:+ " é muito grande. Tamanho máximo: 16MB.") ] /\
  file_items (fst (handleFiles (fun s => s) "s1" sample_page sample_drop))
  = ["briefing.PDF"].
Proof.
  apply (handleFiles_one_effect_per_file (fun s => s) "s1" sample_drop sample_page).
  - reflexivity.
  - repeat constructor.
Defined.

Lemma handleFiles_without_container_witness :
  snd (handleFiles (fun s => s) "s1" bare_page sample_drop)
  = [ ShowError ("Arquivo " +:+ dq +:+ "video.pdf" +:+ dq
                 +:+ " é muito grande. Tamanho máximo: 16MB.") ].
Proof.
  exact (proj2 (proj2 (handleFiles_without_container (fun s => s) "s1" sample_drop
                         bare_page eq_refl eq_refl))).
Defined.

Lemma changed_name_is_never_uploaded_witness :
  validateFile sample_entity = Valid /\
  processFile decode_amp "s1" sample_page sample_entity
  = ({| uploadedFiles := true; file_items := ["q&a.txt"] |}, []).
Proof.
  split; [reflexivity|].
  apply (changed_name_is_never_uploaded decode_amp "s1" sample_page sample_entity).
  - reflexivity.
  - reflexivity.
  - discriminate.
  - intros [].
Defined.

End UploadDrops.

(** ** Icons and the end of an upload *)

Module UploadIcons.
Import Json Upload.

Lemma toLowerCase_no_upper (s : string) : has_upper (JS.toLowerCase s) = false.
Proof.
  induction s as [|c s IH]; [reflexivity|]. simpl. rewrite IH, orb_false_r.
  unfold is_upper, JS.lower_ascii.
  destruct (Nat.leb 65 (nat_of_ascii c) && Nat.leb (nat_of_ascii c) 90)%bool eqn:Hc.
  - apply andb_true_iff in Hc as [H1 H2].
    apply Nat.leb_le in H1. apply Nat.leb_le in H2.
    rewrite nat_ascii_embedding by lia.
    apply andb_false_iff. right. apply Nat.leb_gt. lia.
  - exact Hc.
Qed.

Lemma extension_of_allowed (e : string) :
  JS.mem ("." +:+ e) allowedExtensions = true ->
  In e ["pdf"; "doc"; "docx"; "xlsx"; "xls"; "csv"; "txt"; "json"].
Proof.
  unfold JS.mem, allowedExtensions. cbn [existsb append]. intros H.
  repeat (apply orb_true_iff in H as [H | H];
          [apply String.eqb_eq in H; injection H as H; cbv in H; subst e; simpl; auto 10|]).
  discriminate H.
Qed.

(** X12. getFileIcon gives every file whose extension validateFile accepts
    an icon of its own, never the generic one, whatever the case of the
    extension.  It returns a class name for every file name but those
    whose extension, in lower case, is constructor or __proto__: for these
    the lookup in the icon table finds a member of Object.prototype, and
    that member is returned instead of a class name. *)
Theorem getFileIcon_covers_allowed_extensions (f : file) (filename member : string) :
  (JS.mem (fileExtension f) allowedExtensions = true ->
   exists cls, getFileIcon (name f) = ClassName cls /\ cls <> "fas fa-file") /\
  (getFileIcon filename = Inherited member <->
   JS.toLowerCase (JS.last_piece filename) = member /\
   (member = "constructor" \/ member = "__proto__")).
Proof.
  split.
  - intros H. apply extension_of_allowed in H. unfold getFileIcon.
    simpl in H.
    repeat (destruct H as [<- | H]; [eexists; split; [reflexivity | discriminate]|]).
    contradiction.
  - unfold getFileIcon.
    pose proof (toLowerCase_no_upper (JS.last_piece filename)) as Hlow.
    set (e := JS.toLowerCase (JS.last_piece filename)) in *.
    split.
    + intros H.
      destruct (own_property e iconMap) as [cls|] eqn:Hown.
      { now destruct (String.eqb cls ""). }
      destruct (JS.mem e Object_prototype) eqn:Hmem; [|discriminate].
      injection H as <-. split; [reflexivity|].
      unfold JS.mem, Object_prototype in Hmem. cbn [existsb] in Hmem.
      apply orb_true_iff in Hmem as [Hm | Hmem];
        [apply String.eqb_eq in Hm; now left|].
      apply orb_true_iff in Hmem as [Hm | Hmem];
        [apply String.eqb_eq in Hm; now right|].
      exfalso.
      repeat (apply orb_true_iff in Hmem as [Hm | Hmem];
              [apply String.eqb_eq in Hm; rewrite Hm in Hlow; discriminate Hlow|]).
      discriminate Hmem.
    + intros [<- [Hm | Hm]]; now rewrite Hm.
Qed.

Lemma getFileIcon_covers_allowed_extensions_witness :
  getFileIcon (name sample_ok) = ClassName "fas fa-file-pdf" /\
  getFileIcon "notes.Constructor" = Inherited "constructor".
Proof.
  split.
  - destruct (proj1 (getFileIcon_covers_allowed_extensions sample_ok "" "") eq_refl)
      as (cls & Hcls & _).
    rewrite Hcls. now injection Hcls as <-.
  - apply (proj2 (getFileIcon_covers_allowed_extensions sample_ok
                    "notes.Constructor" "constructor")).
    split; [reflexivity | now left].
Defined.

Section Listeners.

Variable number_text : Z -> string.

Lemma to_string_cases (v : value) :
  (converts v = true /\ exists s, to_string number_text v = Returned s) \/
  (converts v = false /\ to_string number_text v = Thrown TypeError).
Proof.
  pose proof (ConversionFacts.to_string_returns_iff number_text v) as H.
  unfold returns_iff in H. destruct (converts v); [left | right]; now split.
Qed.

Lemma converts_or_else (v d : value) :
  converts d = true -> converts (or_else v d) = converts v.
Proof.
  intros Hd. unfold or_else. destruct (truthy v) eqn:Ht; [reflexivity|].
  now rewrite Hd, (ConversionFacts.falsy_converts v Ht).
Qed.

Lemma onUploadError_cases (errorMessage : value) :
  (converts errorMessage = true /\
   exists message,
     onUploadError number_text errorMessage
     = ([StatusText "Erro no processamento";
         Failure ("Erro ao processar arquivo: " +:+ message)], None)) \/
  (converts errorMessage = false /\
   onUploadError number_text errorMessage
   = ([StatusText "Erro no processamento"], Some TypeError)).
Proof.
  unfold onUploadError.
  destruct (to_string_cases errorMessage) as [[Hc [s ->]] | [Hc ->]];
    [left | right]; (split; [exact Hc|]); [now exists s | reflexivity].
Qed.

Lemma onUploadSuccess_cases (response : value) :
  (converts (field response "content_type") && converts (field response "filename")
   = true /\
   exists content_type filename,
     onUploadSuccess number_text response
     = ([StatusText (content_type +:+ " • Processado");
         Success ("Arquivo " +:+ dq +:+ filename +:+ dq
                  +:+ " processado com sucesso!")], None)) \/
  (converts (field response "content_type") && converts (field response "filename")
   = false /\
   exists told,
     onUploadSuccess number_text response = (told, Some TypeError) /\
     existsb is_success told = false /\ told_end told = 0%nat).
Proof.
  unfold onUploadSuccess.
  destruct (to_string_cases (field response "content_type"))
    as [[-> [content_type ->]] | [-> ->]].
  - destruct (to_string_cases (field response "filename"))
      as [[-> [filename ->]] | [-> ->]].
    + left. split; [reflexivity|]. now exists content_type, filename.
    + right. split; [reflexivity|]. eexists. now split.
  - right. split; [reflexivity|]. exists []. now split.
Qed.

End Listeners.

(** X13. When an upload has completed, the user is told at most once how
    it ended, and exactly once when the listener returns: that the file
    was processed, only if the server answered 200 with a body whose
    [success] is truthy and whose [content_type] and [filename] have a
    conversion to a string; that it failed, in the other cases in which
    the listener returns.  The [load] listener throws, before it tells how
    the upload ended, exactly for a 200 answer whose body is not JSON, is
    the JSON null, or holds in a printed field ([content_type] or
    [filename] of a success, [error] of a failure) an object that has an
    own toString property, or an array that holds one.  The [error]
    listener tells the failure once. *)
Theorem completed_upload_is_reported_once (number_text : Z -> string)
    (status : Z) (parsed : outcome value) :
  let notices := fst (on_load number_text status parsed) in
  let failure := snd (on_load number_text status parsed) in
  (told_end notices <= 1)%nat /\
  (failure = None <-> told_end notices = 1%nat) /\
  (existsb is_success notices = true <->
   status = 200 /\
   exists response,
     parsed = Returned response /\
     truthy (field response "success") = true /\
     converts (field response "content_type") = true /\
     converts (field response "filename") = true) /\
  (failure <> None <-> status = 200 /\ unreportable parsed) /\
  (forall e, failure = Some e -> parsed = Thrown e \/ e = TypeError) /\
  on_error number_text
  = ([StatusText "Erro no processamento";
      Failure "Erro ao processar arquivo: Erro de conexão"], None).
Proof.
  intros notices failure. subst notices failure. unfold on_load.
  split; [|split; [|split; [|split; [|split; [|reflexivity]]]]].
  all: (destruct (Z.eqb_spec status 200) as [-> | Hne];
        [destruct parsed as [response | e0]; unfold prop;
         [destruct (nullish response) eqn:Hnull;
          [|destruct (truthy (field response "success")) eqn:Hs;
            [destruct (onUploadSuccess_cases number_text response)
               as [[Hc (content_type & filename & ->)]
                  | [Hc (told & -> & Hsucc & Htold)]]
            |destruct (onUploadError_cases number_text
                         (or_else (field response "error")
                                  (JStr "Erro desconhecido")))
               as [[Hc [message ->]] | [Hc ->]];
             rewrite converts_or_else in Hc by reflexivity]]|]|]).
  all: try (unfold told_end in Htold).
  all: cbn [fst snd told_end List.filter is_success is_failure length app existsb
              orb Nat.add unreportable onUploadError to_string].
  (* at most once *)
  1-7: try rewrite Htold; lia.
  (* the listener returns iff the user is told once *)
  1-7: try rewrite Htold; split; intros H; try discriminate H; try reflexivity; lia.
  (* the success message *)
  - split; [discriminate|]. intros (_ & r & [= <-] & H & _).
    destruct response; try discriminate Hnull; discriminate H.
  - split; [intros _ | reflexivity]. split; [reflexivity|]. exists response.
    apply andb_true_iff in Hc as [Hc1 Hc2]. now repeat split.
  - rewrite Hsucc. split; [discriminate|].
    intros (_ & r & [= <-] & _ & H1 & H2). rewrite H1, H2 in Hc. discriminate Hc.
  - split; [discriminate|]. intros (_ & r & [= <-] & H & _). congruence.
  - split; [discriminate|]. intros (_ & r & [= <-] & H & _). congruence.
  - split; [discriminate|]. intros (_ & r & H & _). discriminate H.
  - split; [discriminate|]. now intros [H _].
  (* the exceptions *)
  - split; [intros _ | discriminate]. split; [reflexivity|]. now left.
  - split; [now intros H|]. intros [_ [H | H]]; [congruence|].
    rewrite Hs, Hc in H. discriminate H.
  - split; [intros _ | discriminate]. split; [reflexivity|]. right. now rewrite Hs.
  - split; [now intros H|]. intros [_ [H | H]]; [congruence|].
    rewrite Hs, Hc in H. discriminate H.
  - split; [intros _ | discriminate]. split; [reflexivity|]. right. now rewrite Hs.
  - split; [intros _ | discriminate]. now split.
  - split; [now intros H | now intros [H _]].
  (* the exception is that of JSON.parse, or a TypeError *)
  - intros e H; try discriminate H; injection H as <-; auto.
  - intros e H; try discriminate H; injection H as <-; auto.
  - intros e H; try discriminate H; injection H as <-; auto.
  - intros e H; try discriminate H; injection H as <-; auto.
  - intros e H; try discriminate H; injection H as <-; auto.
  - intros e H; try discriminate H; injection H as <-; auto.
  - intros e H; try discriminate H; injection H as <-; auto.
Qed.

Lemma completed_upload_is_reported_once_witness :
  snd (on_load sample_number_text 200
         (Returned (JObj [("success", JBool true); ("content_type", without_text)])))
  <> None /\
  existsb is_success
    (fst (on_load sample_number_text 200
            (Returned (JObj [("success", JBool true); ("filename", JStr "a.pdf")]))))
  = true.
Proof.
  split.
  - apply (proj2 (proj1 (proj2 (proj2 (proj2
             (completed_upload_is_reported_once sample_number_text 200
                (Returned (JObj [("success", JBool true);
                                 ("content_type", without_text)])))))))).
    split; [reflexivity|]. right. reflexivity.
  - apply (proj2 (proj1 (proj2 (proj2
             (completed_upload_is_reported_once sample_number_text 200
                (Returned (JObj [("success", JBool true);
                                 ("filename", JStr "a.pdf")]))))))).
    split; [reflexivity|]. eexists. repeat split; reflexivity.
Defined.

End UploadIcons.

(** ** When the dashboard and the report can be built *)

Module DashboardFacts.
Import Json AsyncAnalysisManager StringFacts ConversionFacts.

(** [(v || []).method(...)]. *)
Lemma or_empty_returns_iff {B : Type} (v : value) (ready : list value -> bool)
    (k : list value -> outcome B) :
  (forall items, returns_iff (ready items) (k items)) ->
  returns_iff (list_or_absent v && ready (elements v))
              (items ← as_array (or_else v (JArr [])); k items).
Proof.
  intros Hk. unfold list_or_absent, or_else.
  destruct v as [| | [|] | n | s | items | fields]; cbn [truthy negb orb isArray andb];
    try reflexivity; try apply Hk.
  - destruct (n =? 0); cbn [negb orb andb]; [apply Hk | reflexivity].
  - destruct (String.eqb s ""); cbn [negb orb andb]; [apply Hk | reflexivity].
Qed.

Lemma forallb_take {A : Type} (p : A -> bool) (n : nat) (l : list A) :
  forallb p l = true -> forallb p (take n l) = true.
Proof.
  revert n. induction l as [|x l IH]; intros [|n]; simpl; try reflexivity.
  intros H. apply andb_true_iff in H as [-> H]. now apply IH.
Qed.

Section Summaries.

Variable number_text : Z -> string.
Variable date_text : value -> string.

Lemma or_else_returns_iff (v d : value) :
  converts d = true ->
  returns_iff (converts v) (to_string number_text (or_else v d)).
Proof.
  intros Hd. unfold or_else. destruct (truthy v) eqn:Ht.
  - apply to_string_returns_iff.
  - rewrite (falsy_converts v Ht). rewrite <- Hd. apply to_string_returns_iff.
Qed.

Lemma first_two_or_na_returns_iff (v : value) :
  returns_iff (first_two_ready v) (first_two_or_na number_text v).
Proof.
  destruct v; try reflexivity; try (now eexists).
  unfold first_two_ready, first_two_or_na.
  cbn [nullish list_or_nullish isArray orb andb as_array elements mbind outcome_bind].
  apply last_returns_iff, join_returns_iff.
Qed.

Lemma competitor_item_returns_iff (comp : value) :
  returns_iff (competitor_item_ready comp) (competitor_item number_text comp).
Proof.
  unfold competitor_item_ready, competitor_item.
  destruct (nullish comp); [reflexivity|]. cbn [negb andb].
  apply bind_returns_iff; [apply str_or_returns_iff|]. intros nome _.
  apply bind_returns_iff; [apply first_two_or_na_returns_iff|]. intros forcas _.
  apply last_returns_iff, first_two_or_na_returns_iff.
Qed.

Lemma formatAvatarSummary_returns_iff (avatar : value) :
  returns_iff (avatar_summary_ready avatar) (formatAvatarSummary number_text avatar).
Proof.
  unfold avatar_summary_ready, formatAvatarSummary.
  destruct (truthy avatar); cbn [negb orb]; [|apply returned_returns_iff]. cbv zeta.
  apply bind_returns_iff; [apply str_or_returns_iff|]. intros idade _.
  apply bind_returns_iff; [apply str_or_returns_iff|]. intros renda _.
  apply bind_returns_iff; [apply str_or_returns_iff|]. intros localizacao _.
  apply last_returns_iff.
  apply (or_empty_returns_iff _ (fun items => forallb converts (take 3 items))).
  intros items. apply mapM_all_returns_iff. intros dor.
  apply last_returns_iff, to_string_returns_iff.
Qed.

Lemma formatInsightsList_returns_iff (insights : value) :
  returns_iff (insights_list_ready insights) (formatInsightsList number_text insights).
Proof.
  unfold insights_list_ready, formatInsightsList.
  destruct (negb (truthy insights) || negb (isArray insights));
    cbn [orb]; [apply returned_returns_iff|]. cbv zeta.
  apply last_returns_iff, imapM_returns_iff. intros index insight.
  apply last_returns_iff, to_string_returns_iff.
Qed.

Lemma formatCompetitionSummary_returns_iff (competition : value) :
  returns_iff (competition_summary_ready competition)
              (formatCompetitionSummary number_text competition).
Proof.
  unfold competition_summary_ready, formatCompetitionSummary.
  destruct (negb (truthy competition) || negb (isArray competition));
    cbn [orb]; [apply returned_returns_iff|].
  apply last_returns_iff, mapM_all_returns_iff, competitor_item_returns_iff.
Qed.

Lemma phase_summary_returns_iff (fase : value) (fallback : string)
    (k : string -> string -> string) :
  returns_iff (phase_summary_ready fase)
    (if truthy fase then
       duracao ← str_or number_text (field fase "duracao") fallback;
       atividades ← first_two_or_na number_text (field fase "atividades");
       Returned (k duracao atividades)
     else Returned "").
Proof.
  unfold phase_summary_ready. destruct (truthy fase); cbn [negb orb];
    [|apply returned_returns_iff].
  apply bind_returns_iff; [apply str_or_returns_iff|]. intros duracao _.
  apply last_returns_iff, first_two_or_na_returns_iff.
Qed.

Lemma formatActionPlanSummary_returns_iff (actionPlan : value) :
  returns_iff (plan_summary_ready actionPlan)
              (formatActionPlanSummary number_text actionPlan).
Proof.
  unfold plan_summary_ready, formatActionPlanSummary.
  destruct (truthy actionPlan); cbn [negb orb]; [|apply returned_returns_iff].
  apply bind_returns_iff.
  { apply phase_summary_returns_iff. }
  intros fase_1 _. apply last_returns_iff.
  apply phase_summary_returns_iff.
Qed.

Lemma formatMetadataSummary_returns_iff (metadata : value) :
  returns_iff (metadata_summary_ready metadata)
              (formatMetadataSummary number_text date_text metadata).
Proof.
  unfold metadata_summary_ready, formatMetadataSummary.
  destruct (truthy metadata); cbn [negb orb]; [|apply returned_returns_iff].
  apply bind_returns_iff; [apply str_or_returns_iff|]. intros task_id _.
  apply bind_returns_iff; [apply to_primitive_returns_iff|]. intros processed_at _.
  apply bind_returns_iff; [apply str_or_returns_iff|]. intros processing_mode _.
  apply bind_returns_iff; [now apply or_else_returns_iff|]. intros search_rounds _.
  apply last_returns_iff, str_or_returns_iff.
Qed.

Lemma generateInteractiveDashboard_returns_iff (result : value) :
  returns_iff (dashboard_ready result)
              (generateInteractiveDashboard number_text date_text result).
Proof.
  unfold dashboard_ready, generateInteractiveDashboard.
  destruct (nullish result); [reflexivity|]. cbn [negb andb].
  apply bind_returns_iff; [apply formatAvatarSummary_returns_iff|]. intros avatar _.
  apply bind_returns_iff; [apply formatInsightsList_returns_iff|]. intros insights _.
  apply bind_returns_iff; [apply formatCompetitionSummary_returns_iff|].
  intros competition _.
  apply bind_returns_iff; [apply formatActionPlanSummary_returns_iff|]. intros plan _.
  apply last_returns_iff, formatMetadataSummary_returns_iff.
Qed.

Lemma dashboard_starts_with_header (result : value) (html : string) :
  generateInteractiveDashboard number_text date_text result = Returned html ->
  JS.startsWith html Dashboard.header = true.
Proof.
  unfold generateInteractiveDashboard. destruct (nullish result); [discriminate|].
  destruct (formatAvatarSummary _ _) as [avatar|]; [|discriminate].
  destruct (formatInsightsList _ _) as [insights|]; [|discriminate].
  destruct (formatCompetitionSummary _ _) as [competition|]; [|discriminate].
  destruct (formatActionPlanSummary _ _) as [plan|]; [|discriminate].
  destruct (formatMetadataSummary _ _ _) as [metadata|]; [|discriminate].
  cbn [mbind outcome_bind]. intros [= <-]. apply startsWith_append.
Qed.

(** *** The plain-text report *)

Lemma numbered_returns_iff (items : list value) :
  returns_iff (forallb converts items) (numbered number_text items).
Proof.
  unfold numbered. apply last_returns_iff, imapM_returns_iff. intros i x.
  apply last_returns_iff, to_string_returns_iff.
Qed.

Lemma printed_list_elements (v : value) :
  printed_list v = list_or_absent v && forallb converts (elements v).
Proof. unfold printed_list. destruct v; reflexivity. Qed.

Lemma printed_list_returns_iff (v : value) :
  returns_iff (printed_list v)
    (items ← as_array (or_else v (JArr [])); numbered number_text items).
Proof.
  rewrite printed_list_elements.
  apply (or_empty_returns_iff _ (forallb converts)), numbered_returns_iff.
Qed.

Lemma formatAvatarForTXT_returns_iff (avatar : value) :
  returns_iff (avatar_ready avatar) (formatAvatarForTXT number_text avatar).
Proof.
  unfold avatar_ready, formatAvatarForTXT.
  destruct (truthy avatar); cbn [negb orb]; [|apply returned_returns_iff]. cbv zeta.
  apply bind_returns_iff; [apply str_or_returns_iff|]. intros idade _.
  apply bind_returns_iff; [apply str_or_returns_iff|]. intros renda _.
  apply bind_returns_iff; [apply str_or_returns_iff|]. intros localizacao _.
  apply bind_returns_iff; [apply printed_list_returns_iff|]. intros dores _.
  apply last_returns_iff, printed_list_returns_iff.
Qed.

Lemma formatInsightsForTXT_returns_iff (insights : value) :
  returns_iff (insights_ready insights) (formatInsightsForTXT number_text insights).
Proof.
  unfold insights_ready, formatInsightsForTXT.
  destruct (negb (truthy insights) || negb (isArray insights)) eqn:Hg;
    cbn [orb]; [apply returned_returns_iff|].
  apply orb_false_iff in Hg as [_ Hg]. apply negb_false_iff in Hg.
  destruct insights; try discriminate Hg.
  cbn [elements converts]. apply numbered_returns_iff.
Qed.

Lemma joined_or_na_returns_iff (v : value) :
  returns_iff (printed_optional_list v) (joined_or_na number_text v).
Proof.
  destruct v; try reflexivity; try (now eexists).
  unfold printed_optional_list, joined_or_na.
  cbn [nullish list_or_nullish isArray orb andb as_array converts mbind outcome_bind].
  apply last_returns_iff, join_returns_iff.
Qed.

Lemma dashed_or_na_returns_iff (v : value) :
  returns_iff (printed_optional_list v) (dashed_or_na number_text v).
Proof.
  destruct v; try reflexivity; try (now eexists).
  unfold printed_optional_list, dashed_or_na.
  cbn [nullish list_or_nullish isArray orb andb as_array converts mbind outcome_bind].
  apply last_returns_iff, mapM_all_returns_iff. intros ativ.
  apply last_returns_iff, to_string_returns_iff.
Qed.

Lemma competitor_text_returns_iff (comp : value) :
  returns_iff (competitor_ready comp) (competitor_text number_text comp).
Proof.
  unfold competitor_ready, competitor_text.
  destruct (nullish comp); [reflexivity|]. cbn [negb andb].
  apply bind_returns_iff; [apply str_or_returns_iff|]. intros nome _.
  apply bind_returns_iff; [apply joined_or_na_returns_iff|]. intros forcas _.
  apply last_returns_iff, joined_or_na_returns_iff.
Qed.

Lemma formatCompetitionForTXT_returns_iff (competition : value) :
  returns_iff (competition_ready competition)
              (formatCompetitionForTXT number_text competition).
Proof.
  unfold competition_ready, formatCompetitionForTXT.
  destruct (negb (truthy competition) || negb (isArray competition));
    cbn [orb]; [apply returned_returns_iff|].
  apply last_returns_iff, mapM_all_returns_iff, competitor_text_returns_iff.
Qed.

Lemma phase_text_returns_iff (fase : value) (txt fallback : string)
    (k : string -> string -> string) :
  returns_iff (phase_ready fase)
    (if truthy fase then
       duracao ← str_or number_text (field fase "duracao") fallback;
       atividades ← dashed_or_na number_text (field fase "atividades");
       Returned (k duracao atividades)
     else Returned txt).
Proof.
  unfold phase_ready. destruct (truthy fase); cbn [negb orb];
    [|apply returned_returns_iff].
  apply bind_returns_iff; [apply str_or_returns_iff|]. intros duracao _.
  apply last_returns_iff, dashed_or_na_returns_iff.
Qed.

Lemma formatActionPlanForTXT_returns_iff (actionPlan : value) :
  returns_iff (plan_ready actionPlan) (formatActionPlanForTXT number_text actionPlan).
Proof.
  unfold plan_ready, formatActionPlanForTXT.
  destruct (truthy actionPlan); cbn [negb orb]; [|apply returned_returns_iff].
  cbv zeta.
  apply bind_returns_iff; [apply phase_text_returns_iff|]. intros txt _.
  apply (last_returns_iff _ _ (fun txt => txt)).
  apply (phase_text_returns_iff _ txt "60 dias"
           (fun duracao atividades => txt +:+ ("

Fase 2 (" +:+ duracao +:+ "):
") +:+ atividades)).
Qed.

Lemma generateTXTReport_returns_iff (now_text : string) (result : value) :
  returns_iff (report_ready result) (generateTXTReport number_text now_text result).
Proof.
  unfold report_ready, generateTXTReport.
  destruct (nullish result); [reflexivity|]. cbn [negb andb]. cbv zeta.
  apply bind_returns_iff; [apply str_or_returns_iff|]. intros task_id _.
  apply bind_returns_iff; [apply formatAvatarForTXT_returns_iff|]. intros avatar _.
  apply bind_returns_iff; [apply formatInsightsForTXT_returns_iff|]. intros insights _.
  apply bind_returns_iff; [apply formatCompetitionForTXT_returns_iff|].
  intros competition _.
  apply bind_returns_iff; [apply formatActionPlanForTXT_returns_iff|]. intros plan _.
  apply bind_returns_iff; [apply str_or_returns_iff|]. intros processing_mode _.
  apply last_returns_iff, str_or_returns_iff.
Qed.


(** *** What the report asks of a result and what the dashboard asks *)

Lemma forallb_weaken {A : Type} (p q : A -> bool) (l : list A) :
  (forall x, p x = true -> q x = true) ->
  forallb p l = true -> forallb q l = true.
Proof.
  intros Hpq. induction l as [|x l IH]; [reflexivity|]. cbn [forallb].
  intros H. apply andb_true_iff in H as [Hx Hl].
  now rewrite (Hpq x Hx), (IH Hl).
Qed.

Lemma printed_optional_first_two (v : value) :
  printed_optional_list v = true -> first_two_ready v = true.
Proof.
  unfold printed_optional_list, first_two_ready. intros H.
  apply andb_true_iff in H as [-> Hc]. cbn [andb].
  destruct v; try reflexivity. now apply forallb_take.
Qed.

Lemma avatar_ready_summary (avatar : value) :
  avatar_ready avatar = true -> avatar_summary_ready avatar = true.
Proof.
  unfold avatar_ready, avatar_summary_ready.
  destruct (truthy avatar); cbn [negb orb]; [|reflexivity]. cbv zeta. intros H.
  apply andb_true_iff in H as [-> H]. apply andb_true_iff in H as [-> H].
  apply andb_true_iff in H as [-> H]. apply andb_true_iff in H as [H _].
  rewrite printed_list_elements in H. apply andb_true_iff in H as [-> H].
  cbn [andb]. now apply forallb_take.
Qed.

Lemma insights_ready_list (insights : value) :
  insights_ready insights = true -> insights_list_ready insights = true.
Proof.
  unfold insights_ready, insights_list_ready.
  destruct (negb (truthy insights) || negb (isArray insights)) eqn:Hg;
    cbn [orb]; [reflexivity|].
  apply orb_false_iff in Hg as [_ Hg]. apply negb_false_iff in Hg.
  destruct insights; try discriminate Hg. cbn [converts elements].
  apply forallb_take.
Qed.

Lemma competitor_ready_item (comp : value) :
  competitor_ready comp = true -> competitor_item_ready comp = true.
Proof.
  unfold competitor_ready, competitor_item_ready. intros H.
  apply andb_true_iff in H as [-> H]. apply andb_true_iff in H as [-> H].
  apply andb_true_iff in H as [Hfo Hfr].
  now rewrite (printed_optional_first_two _ Hfo), (printed_optional_first_two _ Hfr).
Qed.

Lemma competition_ready_summary (competition : value) :
  competition_ready competition = true ->
  competition_summary_ready competition = true.
Proof.
  unfold competition_ready, competition_summary_ready.
  destruct (negb (truthy competition) || negb (isArray competition));
    cbn [orb]; [reflexivity|].
  intros H. apply forallb_take.
  exact (forallb_weaken _ _ _ competitor_ready_item H).
Qed.

Lemma phase_ready_summary (fase : value) :
  phase_ready fase = true -> phase_summary_ready fase = true.
Proof.
  unfold phase_ready, phase_summary_ready.
  destruct (truthy fase); cbn [negb orb]; [|reflexivity]. intros H.
  apply andb_true_iff in H as [-> H]. now apply printed_optional_first_two.
Qed.

Lemma plan_ready_summary (actionPlan : value) :
  plan_ready actionPlan = true -> plan_summary_ready actionPlan = true.
Proof.
  unfold plan_ready, plan_summary_ready.
  destruct (truthy actionPlan); cbn [negb orb]; [|reflexivity]. intros H.
  apply andb_true_iff in H as [H1 H2].
  now rewrite (phase_ready_summary _ H1), (phase_ready_summary _ H2).
Qed.

Lemma report_ready_dashboard_ready (result : value) :
  report_ready result = true ->
  metadata_summary_ready (field result "task_metadata") = true ->
  dashboard_ready result = true.
Proof.
  unfold report_ready, dashboard_ready. intros H Hmeta.
  destruct (nullish result); [discriminate H|]. cbn [negb andb] in *. cbv zeta in H.
  apply andb_true_iff in H as [_ H]. apply andb_true_iff in H as [Hav H].
  apply andb_true_iff in H as [Hins H]. apply andb_true_iff in H as [Hcomp H].
  apply andb_true_iff in H as [Hplan _].
  now rewrite (avatar_ready_summary _ Hav), (insights_ready_list _ Hins),
    (competition_ready_summary _ Hcomp), (plan_ready_summary _ Hplan), Hmeta.
Qed.

End Summaries.

(** X14. generateInteractiveDashboard returns exactly for the results
    that are ready for it: a result that is not null, whose avatar has its
    list of pains as an array or not at all, whose first two competitors
    are objects with their strengths and weaknesses as arrays or absent,
    whose plan phases have their activities as arrays or absent, and in
    which every value the dashboard prints has a conversion to a string
    (the printed fields, the first three pains, the first five insights,
    the first two strengths, weaknesses and activities: none is an object
    with an own toString property, nor an array that holds one).  For
    every other result it throws a TypeError; so it does for a result whose
    pain is such an object, or whose number of search rounds is.  A
    dashboard that is built starts with the title and the three download
    buttons. *)
Theorem dashboard_is_built_iff_ready (number_text : Z -> string)
    (date_text : value -> string) (result : value) :
  (dashboard_ready result = true ->
   exists html,
     generateInteractiveDashboard number_text date_text result = Returned html /\
     JS.startsWith html Dashboard.header = true) /\
  (dashboard_ready result = false ->
   generateInteractiveDashboard number_text date_text result = Thrown TypeError) /\
  dashboard_ready pain_without_text = false /\
  dashboard_ready rounds_without_text = false.
Proof.
  pose proof (generateInteractiveDashboard_returns_iff number_text date_text result)
    as H.
  unfold returns_iff in H.
  split; [|split; [|split; reflexivity]]; intros Hr; rewrite Hr in H.
  - destruct H as [html Hhtml]. exists html. split; [exact Hhtml|].
    exact (dashboard_starts_with_header number_text date_text result html Hhtml).
  - exact H.
Qed.

Lemma dashboard_is_built_iff_ready_witness :
  (exists html,
     generateInteractiveDashboard sample_number_text sample_date_text sample_result
     = Returned html /\
     JS.startsWith html Dashboard.header = true) /\
  generateInteractiveDashboard sample_number_text sample_date_text pain_without_text
  = Thrown TypeError /\
  generateInteractiveDashboard sample_number_text sample_date_text
    (JObj [("plano_acao", JObj [("fase_1", JObj [("atividades", JStr "pesquisa")])])])
  = Thrown TypeError.
Proof.
  split; [|split].
  - exact (proj1 (dashboard_is_built_iff_ready sample_number_text sample_date_text
                    sample_result) eq_refl).
  - exact (proj1 (proj2 (dashboard_is_built_iff_ready sample_number_text
                           sample_date_text pain_without_text)) eq_refl).
  - exact (proj1 (proj2 (dashboard_is_built_iff_ready sample_number_text
                           sample_date_text
                           (JObj [("plano_acao",
                                   JObj [("fase_1",
                                          JObj [("atividades", JStr "pesquisa")])])])))
                 eq_refl).
Defined.

(** X15. generateTXTReport fails, with a TypeError, exactly for the
    results that are not ready for the plain-text report: null, a list
    that is neither an array nor absent, a competitor that is null, or a
    printed value without conversion to a string (an object with an own
    toString property, or an array that holds one).  The report reads every
    item where the dashboard reads the first ones, and the dashboard prints
    more of the metadata: a result the report can be built from can be
    displayed if its metadata can be printed; a result whose third
    competitor is malformed is displayed and cannot be exported as text;
    a result whose number of search rounds has no conversion is exported
    and cannot be displayed. *)
Theorem report_fails_iff_not_ready (number_text : Z -> string) (now_text : string)
    (result : value) :
  (generateTXTReport number_text now_text result = Thrown TypeError <->
   report_ready result = false) /\
  (report_ready result = true ->
   metadata_summary_ready (field result "task_metadata") = true ->
   dashboard_ready result = true) /\
  (dashboard_ready third_competitor_malformed = true /\
   report_ready third_competitor_malformed = false) /\
  (report_ready rounds_without_text = true /\
   dashboard_ready rounds_without_text = false) /\
  report_ready pain_without_text = false.
Proof.
  split; [|split; [apply report_ready_dashboard_ready |
                   split; [|split]; try split; reflexivity]].
  pose proof (generateTXTReport_returns_iff number_text now_text result) as H.
  unfold returns_iff in H. destruct (report_ready result).
  - destruct H as [txt ->]. split; discriminate.
  - now rewrite H.
Qed.

Lemma report_fails_iff_not_ready_witness :
  generateTXTReport sample_number_text "03/11/2026" third_competitor_malformed
  = Thrown TypeError /\
  generateTXTReport sample_number_text "03/11/2026" pain_without_text
  = Thrown TypeError /\
  dashboard_ready sample_result = true.
Proof.
  split; [|split].
  - exact (proj2 (proj1 (report_fails_iff_not_ready sample_number_text "03/11/2026"
                           third_competitor_malformed)) eq_refl).
  - exact (proj2 (proj1 (report_fails_iff_not_ready sample_number_text "03/11/2026"
                           pain_without_text)) eq_refl).
  - exact (proj1 (proj2 (report_fails_iff_not_ready sample_number_text "03/11/2026"
                           sample_result)) eq_refl eq_refl).
Defined.

Section Storage.

Variable number_text : Z -> string.
Variable date_text : value -> string.
Variable JSON_parse : string -> outcome value.
Variable JSON_stringify JSON_stringify_indented : value -> string.

(** X16. What the dashboard displays is what the export reads: when
    displayInteractiveDashboard has rendered a result on a page with the
    interactiveDashboard element, the storage holds its JSON text, and,
    [JSON.parse] reading that text back as the result, downloadReport
    exports this very result.  On a page without the element nothing is
    rendered and the storage is left as it was, so the export still reads
    what an earlier analysis stored. *)
Theorem displayed_result_is_exported (container : bool) (ls ls' : storage)
    (result : value) (html : option string) (m : manager)
    (now_text : string) (clock : Z) (pdf_reply : outcome (bool * blob)) :
  displayInteractiveDashboard number_text date_text JSON_stringify container ls result
  = Returned (html, ls') ->
  (container = false -> html = None /\ ls' = ls) /\
  (container = true ->
   ls' !! "last_analysis_result" = Some (JSON_stringify result) /\
   (JSON_parse (JSON_stringify result) = Returned result ->
    truthy (currentTaskId m) = true ->
    stored_result JSON_parse ls' = Returned result /\
    downloadReport JSON_parse JSON_stringify JSON_stringify_indented number_text
      m ls' "json" now_text clock pdf_reply
    = [Download ("analise_" +:+ JS.dec clock +:+ ".json")
         {| mime := "application/json";
            content := JSON_stringify_indented result |}])).
Proof.
  unfold displayInteractiveDashboard. destruct container; cbn [negb].
  - destruct (generateInteractiveDashboard number_text date_text result)
      as [h|] eqn:Hgen; [|discriminate].
    cbn [mbind outcome_bind]. intros [= <- <-].
    split; [discriminate|]. intros _.
    assert (Hstored : setupInteractiveDashboard JSON_stringify ls result
                      !! "last_analysis_result" = Some (JSON_stringify result)).
    { unfold setupInteractiveDashboard. rewrite lookup_insert_eq.
      destruct result; try reflexivity. discriminate Hgen. }
    split; [exact Hstored|]. intros Hround Htask.
    assert (Hread : stored_result JSON_parse
                      (setupInteractiveDashboard JSON_stringify ls result)
                    = Returned result).
    { unfold stored_result. now rewrite Hstored. }
    split; [exact Hread|].
    unfold downloadReport. now rewrite Htask, Hread.
  - intros [= <- <-]. split; [now split | discriminate].
Qed.

(** X17. A SUCCESS status whose result the dashboard cannot be built from
    never stops the polling: on a page with the interactiveDashboard
    element, onAnalysisComplete throws before stopStatusMonitoring is
    reached, the timers and the manager are left as they were, the user is
    shown neither a success nor an error message, and nothing is stored
    for the export. *)
Theorem unusable_result_keeps_polling (ls : storage) (w : world) (status : value) :
  (0 < awaiting_status w)%nat ->
  is_text (field status "state") "SUCCESS" = true ->
  dashboard_ready (field status "result") = false ->
  let w' :=
    step w (status_reply number_text date_text JSON_stringify true ls status) in
  timers w' = timers w /\
  self w' = self w /\
  log w' = (log w ++ [UpdateProgressUI status; HideAsyncProgress;
                      ConsoleError TypeError])%list /\
  displayInteractiveDashboard number_text date_text JSON_stringify true ls
    (field status "result")
  = Thrown TypeError.
Proof.
  intros Hwait Hstate Hready. cbn zeta.
  assert (Hshown : displayInteractiveDashboard number_text date_text JSON_stringify
                     true ls (field status "result") = Thrown TypeError).
  { unfold displayInteractiveDashboard. cbn [negb].
    pose proof (generateInteractiveDashboard_returns_iff number_text date_text
                  (field status "result")) as H.
    unfold returns_iff in H. rewrite Hready in H. now rewrite H. }
  unfold status_reply. rewrite Hshown. cbn [mbind outcome_bind step].
  destruct (awaiting_status w) as [|n] eqn:Hn; [lia|].
  unfold after_status.
  assert (Hnull : nullish status = false).
  { destruct status; try discriminate Hstate; reflexivity. }
  rewrite Hnull, Hstate. cbn.
  now rewrite <- !app_assoc.
Qed.

End Storage.

Lemma displayed_result_is_exported_witness :
  exists html ls',
    displayInteractiveDashboard sample_number_text sample_date_text sample_stringify
      true ∅ sample_result
    = Returned (html, ls') /\
    stored_result sample_parse ls' = Returned sample_result.
Proof.
  destruct (displayInteractiveDashboard sample_number_text sample_date_text
              sample_stringify true ∅ sample_result)
    as [[html ls']|] eqn:Hshown; [|discriminate Hshown].
  exists html, ls'. split; [reflexivity|].
  destruct (displayed_result_is_exported sample_number_text sample_date_text
              sample_parse sample_stringify sample_stringify true ∅ ls'
              sample_result html sample_manager "03/11/2026" 1700000000000
              (Returned (true, sample_pdf)) Hshown) as [_ H].
  destruct (H eq_refl) as [_ Hexport].
  exact (proj1 (Hexport eq_refl eq_refl)).
Defined.

Lemma unusable_result_keeps_polling_witness :
  timers (run initial [click; started "t1"; Tick 1;
                       status_reply sample_number_text sample_date_text
                         sample_stringify true ∅ success_without_result])
  = {[1%positive := 2000]}.
Proof.
  assert (Hwait : (0 < awaiting_status (run initial [click; started "t1"; Tick 1]))%nat)
    by (vm_compute; lia).
  exact (proj1 (unusable_result_keeps_polling sample_number_text sample_date_text
                  sample_stringify ∅
                  (run initial [click; started "t1"; Tick 1])
                  success_without_result Hwait eq_refl eq_refl)).
Defined.

End DashboardFacts.

(** ** The export of a result *)

Module ExportFacts.
Import Json AsyncAnalysisManager StringFacts ConversionFacts DashboardFacts.

(** *** Counting in a text that is put together from pieces *)














(** *** downloadReport *)





Section Downloads.

Variable JSON_parse : string -> outcome value.
Variable JSON_stringify JSON_stringify_indented : value -> string.
Variable number_text : Z -> string.








End Downloads.




End ExportFacts.

(** ** The timers of the asynchronous manager *)

Module TimerFacts.
Import Json AsyncAnalysisManager AsyncAnalysisManagerFacts.

Lemma sound_ext (w w' : world) :
  statusCheckInterval (self w') = statusCheckInterval (self w) ->
  timers w' = timers w -> next_timer w' = next_timer w ->
  timers_sound w -> timers_sound w'.
Proof.
  intros Hh Ht Hn [H1 H2]. split.
  - intros h p. rewrite Ht, Hn. apply H1.
  - intros h. rewrite Hh, Ht. apply H2.
Qed.

Lemma start_sound (w : world) :
  timers_sound w -> timers_sound (startStatusMonitoring w).
Proof.
  intros [H1 H2]. unfold startStatusMonitoring.
  destruct (negb (truthy (currentTaskId (self w)))); [now split|].
  split; simpl.
  - intros h p Hl. destruct (decide (next_timer w = h)) as [<- | Hne].
    + rewrite lookup_insert_eq in Hl. injection Hl as <-. split; [reflexivity | lia].
    + rewrite lookup_insert_ne in Hl by exact Hne.
      destruct (H1 h p Hl) as [-> Hlt]. split; [reflexivity | lia].
  - intros h [= <-]. apply lookup_insert_eq.
Qed.

Lemma stop_sound (w : world) :
  timers_sound w -> timers_sound (stopStatusMonitoring w).
Proof.
  intros Hw. unfold stopStatusMonitoring.
  destruct (statusCheckInterval (self w)) as [h0|] eqn:Hh0; [|exact Hw].
  destruct Hw as [H1 H2]. split; simpl.
  - intros h p Hl. apply lookup_delete_Some in Hl as [_ Hl]. now apply H1.
  - discriminate.
Qed.

Lemma after_analyze_sound (w : world) (r : outcome (bool * Z * outcome value)) :
  timers_sound w -> timers_sound (after_analyze w r).
Proof.
  intros Hw. unfold after_analyze.
  destruct r as [[[[] status] [result|e]]|e];
    try (revert Hw; now apply sound_ext).
  destruct (prop result "task_id") as [task_id|e]; [|revert Hw; now apply sound_ext].
  match goal with
  | |- timers_sound (emit (startStatusMonitoring ?w1) _) =>
      assert (H1 : timers_sound w1) by (revert Hw; now apply sound_ext);
      apply start_sound in H1; revert H1; now apply sound_ext
  end.
Qed.

Lemma after_status_sound (w : world) (r : outcome value) (shown : outcome unit) :
  timers_sound w -> timers_sound (after_status w r shown).
Proof.
  intros Hw. unfold after_status.
  destruct r as [status|e]; [|revert Hw; now apply sound_ext].
  destruct (nullish status); [revert Hw; now apply sound_ext|].
  destruct (is_text (field status "state") "SUCCESS").
  - unfold onAnalysisComplete. destruct shown as [[]|e].
    + apply stop_sound. revert Hw. now apply sound_ext.
    + revert Hw. now apply sound_ext.
  - destruct (is_text (field status "state") "FAILURE").
    + apply stop_sound. revert Hw. now apply sound_ext.
    + revert Hw. now apply sound_ext.
Qed.

Lemma step_sound (w : world) (ev : event) :
  timers_sound w -> timers_sound (step w ev).
Proof.
  intros Hw. destruct ev as [filled form | r | h | r shown]; simpl.
  - unfold startAsyncAnalysis. destruct (negb filled); [revert Hw; now apply sound_ext|].
    destruct form; revert Hw; now apply sound_ext.
  - destruct (awaiting_analyze w); [exact Hw|].
    apply after_analyze_sound. revert Hw. now apply sound_ext.
  - destruct (timers w !! h); [|exact Hw]. revert Hw. now apply sound_ext.
  - destruct (awaiting_status w); [exact Hw|].
    apply after_status_sound. revert Hw. now apply sound_ext.
Qed.

Lemma initial_sound : timers_sound initial.
Proof.
  split; simpl.
  - intros h p Hl. now rewrite lookup_empty in Hl.
  - discriminate.
Qed.

(** X18. An invariant of the asynchronous manager: whatever events it has
    handled, every active interval timer is one startStatusMonitoring
    created (period 2000 ms, handle already given out), and the handle in
    statusCheckInterval, if any, is that of an active timer. *)
Theorem timers_stay_sound (evs : list event) : timers_sound (run initial evs).
Proof.
  unfold run. generalize initial_sound. generalize initial.
  induction evs as [|ev evs IH]; intros w Hw; [exact Hw|].
  simpl. apply IH. now apply step_sound.
Qed.








(** X20. What the reply to POST /api/analyze_async does to the timers.  A
    reply that carries no task identifier (fetch rejected, a status that
    is not ok, a body that is not JSON or null, or a task_id that is
    missing or falsy) creates no timer and leaves the handle as it is; if
    the body is an object without task identifier, the manager forgets the
    task it had and still announces that the analysis has started.  A
    reply that carries a task identifier adds one timer under a fresh
    handle and removes none: a timer that was already running keeps
    running. *)
Theorem start_adds_a_timer_or_none (w : world)
    (r : outcome (bool * Z * outcome value)) :
  (0 < awaiting_analyze w)%nat ->
  let w' := step w (AnalyzeSettled r) in
  (carries_task_id r = false ->
   timers w' = timers w /\
   statusCheckInterval (self w') = statusCheckInterval (self w) /\
   forall status result,
     r = Returned (true, status, Returned result) -> nullish result = false ->
     currentTaskId (self w') = field result "task_id" /\
     log w' = (log w ++ [ShowAsyncProgress;
                         ShowSuccess ("Análise iniciada! ID: "
                                      +:+ toString (field result "task_id"))])%list) /\
  (carries_task_id r = true ->
   timers w' = <[next_timer w := 2000]> (timers w) /\
   statusCheckInterval (self w') = Some (next_timer w) /\
   next_timer w' = Pos.succ (next_timer w)).
Proof.
  intros Hwait. cbn zeta. cbn [step].
  destruct (awaiting_analyze w) as [|n] eqn:Hn; [lia|]. clear Hwait.
  unfold after_analyze, carries_task_id.
  destruct r as [[[[] status] [result|e]]|e];
    try (split; [intros _; split; [reflexivity|]; split; [reflexivity|];
                 intros ? ? [=]
                | discriminate]).
  unfold prop. destruct (nullish result) eqn:Hnull; cbn [negb andb].
  { split; [|discriminate]. intros _. split; [reflexivity|]. split; [reflexivity|].
    intros ? ? [= _ <-]. congruence. }
  unfold startStatusMonitoring. cbn [self currentTaskId].
  destruct (truthy (field result "task_id")) eqn:Hid; cbn [negb].
  - split; [discriminate|]. intros _. split; [reflexivity|]. split; reflexivity.
  - split; [|discriminate]. intros _. split; [reflexivity|]. split; [reflexivity|].
    intros ? ? [= _ <-] _. split; [reflexivity|]. cbn. now rewrite <- app_assoc.
Qed.

Lemma start_adds_a_timer_or_none_witness :
  timers (run initial [click;
                       AnalyzeSettled (Returned (true, 200, Returned (JObj [])))]) = ∅ /\
  timers (run initial two_starts) = <[2%positive := 2000]> {[1%positive := 2000]}.
Proof.
  split.
  - assert (Hwait : (0 < awaiting_analyze (run initial [click]))%nat) by (vm_compute; lia).
    exact (proj1 (proj1 (start_adds_a_timer_or_none (run initial [click])
                           (Returned (true, 200, Returned (JObj []))) Hwait)
                        eq_refl)).
  - assert (Hwait : (0 < awaiting_analyze
                           (run initial [click; started "t1"; click]))%nat)
      by (vm_compute; lia).
    exact (proj1 (proj2 (start_adds_a_timer_or_none
                           (run initial [click; started "t1"; click])
                           (Returned (true, 200, Returned (JObj [("task_id", JStr "t2")])))
                           Hwait)
                        eq_refl)).
Defined.



End TimerFacts.

(** ** Cards, labels and keywords *)

Module CardFacts.
Import Json Render.

Lemma append_cons (c : ascii) (s t : string) :
  String c s +:+ t = String c (s +:+ t).
Proof. reflexivity. Qed.

Lemma append_nil_r (s : string) : s +:+ "" = s.
Proof.
  induction s as [|c s IH]; [reflexivity|]. now rewrite append_cons, IH.
Qed.

Lemma append_assoc (s t u : string) : (s +:+ t) +:+ u = s +:+ (t +:+ u).
Proof.
  induction s as [|c s IH]; [reflexivity|]. now rewrite !append_cons, IH.
Qed.

(** [l.join('')] is concatenation. *)
Lemma join_empty_cons (x : string) (l : list string) :
  JS.join "" (x :: l) = x +:+ JS.join "" l.
Proof. destruct l; simpl; [now rewrite append_nil_r | reflexivity]. Qed.

Lemma join_empty_app (l1 l2 : list string) :
  JS.join "" (l1 ++ l2) = JS.join "" l1 +:+ JS.join "" l2.
Proof.
  induction l1 as [|x l1 IH]; [reflexivity|].
  rewrite <- app_comm_cons, !join_empty_cons, IH. now rewrite append_assoc.
Qed.

(** A string that starts with a line feed is not the fallback. *)
Lemma starts_with_line_feed (s t : string) :
  nl +:+ s +:+ t <> "<p>Não informado</p>".
Proof. discriminate. Qed.

(** X22. The card renderers concatenate one card per item, in order:
    rendering a list (or the fields of an object) in two parts and joining
    the markup gives the markup of the whole.  They give the fallback
    paragraph exactly when they are handed something that is not an array
    (for renderObjectAsCards: that is falsy or not an object); an empty
    array or object gives the empty markup, not the fallback. *)
Theorem cards_are_concatenated (a b : list value) (f g : list (string * value))
    (v : value) :
  renderListAsCards (JArr (a ++ b))
  = renderListAsCards (JArr a) +:+ renderListAsCards (JArr b) /\
  renderObjectAsCards (JObj (f ++ g))
  = renderObjectAsCards (JObj f) +:+ renderObjectAsCards (JObj g) /\
  (renderListAsCards v = "<p>Não informado</p>" <-> isArray v = false) /\
  (renderObjectAsCards v = "<p>Não informado</p>" <->
   truthy v = false \/ typeof_object v = false).
Proof.
  split; [|split; [|split]].
  - unfold renderListAsCards. cbn [truthy isArray negb orb elements].
    now rewrite map_app, join_empty_app.
  - unfold renderObjectAsCards. cbn [truthy typeof_object negb orb entries].
    now rewrite map_app, join_empty_app.
  - split.
    + destruct v as [| |flag|n|s|items|fields]; try reflexivity.
      unfold renderListAsCards. cbn [truthy isArray negb orb elements].
      destruct items as [|x items]; [discriminate|].
      cbn [map]. rewrite join_empty_cons. discriminate.
    + intros H. unfold renderListAsCards. rewrite H. now rewrite orb_true_r.
  - split.
    + destruct v as [| |flag|n|s|items|fields];
        try (intros _; now left); try (intros _; now right).
      * unfold renderObjectAsCards. cbn [truthy typeof_object negb orb entries].
        destruct items as [|x items]; [discriminate|].
        cbn [imap map]. rewrite join_empty_cons.
        destruct (isArray x); discriminate.
      * unfold renderObjectAsCards. cbn [truthy typeof_object negb orb entries].
        destruct fields as [|[key x] fields]; [discriminate|].
        cbn [map]. rewrite join_empty_cons.
        destruct (isArray x); discriminate.
    + intros [H | H]; unfold renderObjectAsCards; rewrite H;
        [reflexivity | now rewrite orb_true_r].
Qed.

Lemma cards_are_concatenated_witness :
  renderListAsCards (JArr []) = "" /\
  renderListAsCards (JObj []) = "<p>Não informado</p>" /\
  renderObjectAsCards (JObj []) = "".
Proof.
  split; [reflexivity|]. split; [|reflexivity].
  exact (proj2 (proj1 (proj2 (proj2 (cards_are_concatenated [] [] [] [] (JObj []))))) eq_refl).
Defined.

Lemma upper_ascii_idempotent (c : ascii) :
  JS.upper_ascii (JS.upper_ascii c) = JS.upper_ascii c.
Proof. destruct c as [[] [] [] [] [] [] [] []]; reflexivity. Qed.

Lemma is_word_upper_ascii (c : ascii) :
  JS.is_word (JS.upper_ascii c) = JS.is_word c.
Proof. destruct c as [[] [] [] [] [] [] [] []]; reflexivity. Qed.

(** The character capitalize_words writes for a character of
    underscores_to_spaces is never an underscore. *)
Lemma label_char_no_underscore (prev : bool) (c : ascii) :
  let c' := if Ascii.eqb c "_" then " "%char else c in
  (if (JS.is_word c' && negb prev)%bool then JS.upper_ascii c' else c')
  <> "_"%char.
Proof.
  destruct prev; destruct c as [[] [] [] [] [] [] [] []]; discriminate.
Qed.

Lemma includes_underscore_cons (c : ascii) (s : string) :
  c <> "_"%char -> JS.includes (String c s) "_" = JS.includes s "_".
Proof.
  intros Hc. cbn [JS.includes String.prefix].
  destruct (ascii_dec "_" c) as [E | _]; [now destruct Hc | reflexivity].
Qed.

Lemma capitalized_no_underscore (prev : bool) (key : string) :
  JS.includes (JS.capitalize_words prev (JS.underscores_to_spaces key)) "_" = false.
Proof.
  revert prev. induction key as [|c key IH]; intros prev; [reflexivity|].
  cbn [JS.underscores_to_spaces JS.capitalize_words].
  rewrite includes_underscore_cons by apply label_char_no_underscore.
  apply IH.
Qed.

Lemma underscores_to_spaces_fixed (s : string) :
  JS.includes s "_" = false -> JS.underscores_to_spaces s = s.
Proof.
  induction s as [|c s IH]; [reflexivity|]. intros H.
  cbn [JS.underscores_to_spaces].
  destruct (Ascii.eqb_spec c "_") as [-> | Hc].
  { exfalso. revert H. cbn [JS.includes String.prefix].
    destruct (ascii_dec "_" "_") as [_ | Hne]; [|now destruct Hne].
    destruct s; discriminate. }
  rewrite includes_underscore_cons in H by exact Hc. now rewrite IH.
Qed.

Lemma capitalize_words_idempotent (prev : bool) (s : string) :
  JS.capitalize_words prev (JS.capitalize_words prev s) = JS.capitalize_words prev s.
Proof.
  revert prev. induction s as [|c s IH]; intros prev; [reflexivity|].
  cbn [JS.capitalize_words].
  destruct (JS.is_word c && negb prev)%bool eqn:Hw.
  - rewrite is_word_upper_ascii, Hw, upper_ascii_idempotent. now rewrite IH.
  - rewrite Hw. now rewrite IH.
Qed.

Lemma capitalize_words_length (prev : bool) (s : string) :
  String.length (JS.capitalize_words prev s) = String.length s.
Proof.
  revert prev. induction s as [|c s IH]; intros prev; [reflexivity|].
  cbn [JS.capitalize_words String.length]. now rewrite IH.
Qed.

Lemma underscores_to_spaces_length (s : string) :
  String.length (JS.underscores_to_spaces s) = String.length s.
Proof.
  induction s as [|c s IH]; [reflexivity|].
  cbn [JS.underscores_to_spaces String.length]. now rewrite IH.
Qed.

(** X23. The label renderObjectAsCards prints for a key has as many
    characters as the key and no underscore, and labelling a label again
    changes nothing. *)
Theorem label_of_is_a_clean_label (key : string) :
  String.length (label_of key) = String.length key /\
  JS.includes (label_of key) "_" = false /\
  label_of (label_of key) = label_of key.
Proof.
  unfold label_of. split; [|split].
  - now rewrite capitalize_words_length, underscores_to_spaces_length.
  - apply capitalized_no_underscore.
  - rewrite (underscores_to_spaces_fixed _ (capitalized_no_underscore false key)).
    apply capitalize_words_idempotent.
Qed.



End CardFacts.

(** ** The page scripts behind the service worker *)

Module WorkerFacts.
Import Json Endpoints ServiceWorker ServiceWorkerFacts ServiceWorkerCaching.

Lemma prefix_nil (s : string) : String.prefix "" s = true.
Proof. now destruct s. Qed.

Lemma startsWith_app_left (a b p : string) :
  JS.startsWith a p = true -> JS.startsWith (a +:+ b) p = true.
Proof.
  unfold JS.startsWith. revert p. induction a as [|c a IH]; intros p H.
  - destruct p; [apply prefix_nil | discriminate H].
  - destruct p as [|d p]; [reflexivity|].
    change (String.prefix (String d p) (String c (a +:+ b)) = true).
    cbn [String.prefix] in H |- *.
    destruct (ascii_dec d c); [now apply IH | discriminate H].
Qed.

Lemma includes_app_right (a b p : string) :
  JS.includes b p = true -> JS.includes (a +:+ b) p = true.
Proof.
  intros H. induction a as [|c a IH]; [exact H|].
  change (JS.includes (String c (a +:+ b)) p = true).
  cbn [JS.includes]. rewrite IH. apply orb_true_r.
Qed.

Lemma path_starts_with_slash (s : site) :
  exists rest, path (request_at s) = String "/" rest.
Proof. destruct s; eexists; reflexivity. Qed.

Lemma page_url_has_slash (origin : string) (s : site) :
  JS.includes (origin +:+ path (request_at s)) "/" = true.
Proof.
  apply includes_app_right. destruct (path_starts_with_slash s) as [rest ->].
  cbn [JS.includes String.prefix].
  destruct (ascii_dec "/" "/") as [_ | Hne]; [|now destruct Hne].
  now rewrite prefix_nil.
Qed.

(** X25. Behind the service worker, every GET of the page scripts (the
    status poll, the dashboard, the application status, the download of
    an analysis) is answered cache-first, and every other request (the
    POSTs) is left to the browser. *)
Theorem worker_routes_page_requests (origin : string) (s : site) :
  JS.startsWith origin "http" = true ->
  on_fetch (worker_request origin (request_at s)) =
  if String.eqb (verb (request_at s)) "GET" then Some CacheFirst else None.
Proof.
  intros Horigin. unfold on_fetch, worker_request. cbn [method url].
  destruct (String.eqb (verb (request_at s)) "GET"); [|reflexivity]. cbn [negb].
  rewrite (startsWith_app_left _ _ _ Horigin). cbn [negb].
  now rewrite (slash_is_static _ (page_url_has_slash origin s)).
Qed.

Lemma worker_routes_page_requests_witness :
  on_fetch (worker_request sample_origin
              (request_at (AsyncAnalysisManager_startStatusMonitoring (JStr "t1"))))
  = Some CacheFirst /\
  on_fetch (worker_request sample_origin
              (request_at AsyncAnalysisManager_startAsyncAnalysis)) = None.
Proof.
  split.
  - exact (worker_routes_page_requests sample_origin
             (AsyncAnalysisManager_startStatusMonitoring (JStr "t1")) eq_refl).
  - exact (worker_routes_page_requests sample_origin
             AsyncAnalysisManager_startAsyncAnalysis eq_refl).
Defined.

(** X26. Behind the service worker, the status of a task is read from the
    network once.  The first poll that gets an ok response stores it in
    the static cache; every later poll of the task is answered with that
    same response, without the network being asked, whatever the worker
    has handled in between and whatever the server would answer by then. *)
Theorem status_polls_are_frozen_by_worker (origin : string) (t : value)
    (c : caches) (net net' : network) (x : response)
    (evs : list (request * network)) :
  JS.startsWith origin "http" = true ->
  let poll := worker_request origin (AsyncAnalysisManager.task_status_request t) in
  caches_match c poll = None ->
  net (url poll) = Some x ->
  ok x = true ->
  exists s,
    handle_fetch c net poll = Some s /\
    answer s = Some x /\ contacted s = true /\
    handle_fetch (after_fetch_events (store s) evs) net' poll =
    Some {| answer := Some x; store := after_fetch_events (store s) evs;
            contacted := false; from_cache := true |}.
Proof.
  intros Horigin poll Hmiss Hnet Hok.
  assert (Hroute : on_fetch poll = Some CacheFirst).
  { apply get_is_cache_first; [reflexivity | |].
    - exact (startsWith_app_left _ _ _ Horigin).
    - exact (page_url_has_slash origin (AsyncAnalysisManager_startStatusMonitoring t)). }
  exists (cacheFirst c net poll).
  destruct (cacheFirst_miss c net poll x Hmiss Hnet) as (Ha & Hc & Hs & _).
  unfold handle_fetch. rewrite Hroute. cbn [run_strategy].
  split; [reflexivity|]. split; [exact Ha|]. split; [exact Hc|].
  f_equal. apply cacheFirst_hit. unfold caches_match.
  now rewrite (after_fetches_keep_static _ evs _ _ (Hs Hok)).
Qed.

Lemma status_polls_are_frozen_by_worker_witness :
  exists s,
    handle_fetch no_caches (fun _ => Some progress_reply) sample_poll = Some s /\
    answer s = Some progress_reply /\ contacted s = true /\
    handle_fetch (after_fetch_events (store s) [(stats_get, offline)]) later_network
      sample_poll =
    Some {| answer := Some progress_reply;
            store := after_fetch_events (store s) [(stats_get, offline)];
            contacted := false; from_cache := true |}.
Proof.
  exact (status_polls_are_frozen_by_worker sample_origin (JStr "t1") no_caches
           (fun _ => Some progress_reply) later_network progress_reply
           [(stats_get, offline)] eq_refl eq_refl eq_refl eq_refl).
Defined.

End WorkerFacts.

(** ** Updates of the other tables *)

Module UpdateFacts.
Import Schema SchemaFacts.

Lemma row_of_insert (t : table) (r : row) (c : string) (d : datum) :
  row_of t r -> is_Some (r !! c) -> row_of t (<[c := d]> r).
Proof.
  intros Hrow Hc k. rewrite lookup_insert_is_Some.
  split.
  - intros [<- | [_ H]]; apply Hrow; assumption.
  - intros H. destruct (decide (c = k)) as [E | E]; [now left|].
    right. split; [exact E|]. now apply Hrow.
Qed.

(** The trigger of analyses assigns to a column that has no constraint. *)
Lemma analyses_constraints_stamped (others : list row) (NEW : row) (clock : Z) :
  not_null_ok analyses (<["updated_at" := Time clock]> NEW) = not_null_ok analyses NEW /\
  unique_ok analyses others (<["updated_at" := Time clock]> NEW)
  = unique_ok analyses others NEW.
Proof.
  unfold not_null_ok, unique_ok.
  cbn [analyses columns forallb serial_key required plain stamped col_name not_null
       unique negb orb andb].
  now rewrite !lookup_insert_ne by discriminate.
Qed.

Lemma untriggered_update (t : table) (NEW : row) (clock : Z) :
  table_name t <> "analyses" -> table_name t <> "sessions" ->
  update t NEW clock = Some NEW.
Proof.
  intros Ha Hs. unfold update, triggers. cbn [fold_left].
  unfold fire at 2. cbn [on_table].
  destruct (String.eqb_spec "analyses" (table_name t)) as [E | _];
    [now destruct Ha|].
  unfold fire. cbn [on_table].
  destruct (String.eqb_spec "sessions" (table_name t)) as [E | _];
    [now destruct Hs|].
  reflexivity.
Qed.

(** X27. The BEFORE UPDATE trigger of analyses never raises on a row of
    the table and changes nothing of the proposed row but updated_at,
    which it sets to the time of the statement.  The UPDATE itself is
    stored exactly when the proposed row meets the NOT NULL and key
    constraints of the table (id and nicho are not NULL, no other row has
    the id), which the trigger does not touch: the stored row is then the
    proposed one with the new updated_at, created_at and every other
    column as proposed; otherwise the statement raises and nothing is
    stored, as for a row without nicho.  On a table that has no trigger,
    such as attachments, the row that is checked and stored is the
    proposed row as it is. *)
Theorem analyses_update_touches_only_updated_at (NEW : row) (others : list row)
    (clock : Z) (t : table) :
  (row_of analyses NEW ->
   update analyses NEW clock = Some (<["updated_at" := Time clock]> NEW) /\
   (not_null_ok analyses NEW && unique_ok analyses others NEW = true ->
    exists r,
      update_statement analyses others NEW clock = Some r /\
      r !! "updated_at" = Some (Time clock) /\
      (forall c, c <> "updated_at" -> r !! c = NEW !! c) /\
      row_of analyses r /\
      not_null_ok analyses r = true /\ unique_ok analyses others r = true) /\
   (not_null_ok analyses NEW && unique_ok analyses others NEW = false ->
    update_statement analyses others NEW clock = None)) /\
  (table_name t <> "analyses" -> table_name t <> "sessions" ->
   update t NEW clock = Some NEW /\
   update_statement t others NEW clock
   = if not_null_ok t NEW && unique_ok t others NEW then Some NEW else None) /\
  update_statement analyses [] analysis_without_niche clock = None.
Proof.
  split; [|split].
  - intros Hrow.
    pose proof (analyses_update_stamps NEW clock Hrow) as Hstamp.
    destruct (analyses_constraints_stamped others NEW clock) as [Hnn Hun].
    split; [exact Hstamp|]. unfold update_statement. rewrite Hstamp, Hnn, Hun.
    split; intros Hok; rewrite Hok; [|reflexivity].
    exists (<["updated_at" := Time clock]> NEW).
    split; [reflexivity|].
    split; [apply lookup_insert_eq|].
    split; [intros c Hc; now apply lookup_insert_ne|].
    split; [apply row_of_insert; [exact Hrow | now apply analyses_has_updated_at]|].
    rewrite Hnn, Hun. now apply andb_true_iff in Hok.
  - intros Ha Hs. unfold update_statement.
    rewrite (untriggered_update t NEW clock Ha Hs). now split.
  - vm_compute. reflexivity.
Qed.

Lemma sample_analysis_is_row : row_of analyses sample_analysis.
Proof.
  intros c. unfold sample_analysis.
  rewrite !lookup_insert_is_Some.
  split.
  - intros [<- | [_ [<- | [_ H]]]].
    + simpl. do 22 right. now left.
    + simpl. do 21 right. now left.
    + destruct H as [d H]. apply elem_of_list_to_map_2 in H.
      apply list_elem_of_In in H. apply in_map_iff in H as (col & [= <- _] & Hcol).
      apply in_map. exact Hcol.
  - intros H. destruct (decide ("updated_at" = c)) as [E | E]; [now left|].
    right. split; [exact E|].
    destruct (decide ("created_at" = c)) as [E' | E']; [now left|].
    right. split; [exact E'|].
    apply in_map_iff in H as (col & <- & Hcol).
    exists Null. apply elem_of_list_to_map_1.
    + apply (bool_decide_unpack _). vm_compute. reflexivity.
    + apply list_elem_of_In. apply in_map_iff. exists col. now split.
Qed.

Lemma stored_analysis_is_row : row_of analyses stored_analysis.
Proof.
  unfold stored_analysis.
  apply row_of_insert; [apply row_of_insert; [exact sample_analysis_is_row|]|];
    now eexists.
Qed.

Lemma analyses_update_touches_only_updated_at_witness :
  (exists r, update_statement analyses [] stored_analysis 200 = Some r /\
             r !! "updated_at" = Some (Time 200) /\
             r !! "created_at" = Some (Time 100) /\
             r !! "nicho" = Some (Str "E-commerce")) /\
  update_statement analyses [stored_analysis] stored_analysis 200 = None /\
  update attachments sample_attachment 200 = Some sample_attachment.
Proof.
  split; [|split].
  - destruct (proj1 (analyses_update_touches_only_updated_at stored_analysis []
                       200 attachments) stored_analysis_is_row)
      as (_ & Hok & _).
    destruct (Hok eq_refl) as (r & Hr & Hup & Hother & _).
    exists r. split; [exact Hr|]. split; [exact Hup|].
    rewrite !Hother by discriminate. split; reflexivity.
  - destruct (proj1 (analyses_update_touches_only_updated_at stored_analysis
                       [stored_analysis] 200 attachments) stored_analysis_is_row)
      as (_ & _ & Hbad).
    exact (Hbad eq_refl).
  - apply (proj1 (proj2 (analyses_update_touches_only_updated_at sample_attachment []
                           200 attachments))); discriminate.
Defined.

End UpdateFacts.

(** ** What getSessionId leaves in the storage *)

Module StorageFacts.
Import Session SessionFacts.

(** X28. getSessionId never returns the empty string, and what it returns
    is what the storage holds afterwards under 'arqv30_session_id'; no
    other key of the storage is touched.  A stored identifier that is the
    empty string counts as missing: it is replaced by a fresh one. *)
Theorem getSessionId_stores_what_it_returns (c : caller) (ls : storage)
    (e : entropy) :
  let sessionId := fst (getSessionId c ls e) in
  let ls' := snd (getSessionId c ls e) in
  sessionId <> "" /\
  ls' !! "arqv30_session_id" = Some sessionId /\
  (forall key, key <> "arqv30_session_id" -> ls' !! key = ls !! key) /\
  (ls !! "arqv30_session_id" = Some "" ->
   sessionId = "session_" +:+ JS.dec (now e) +:+ "_" +:+ random36 e).
Proof.
  cbn zeta. destruct (returned_is_stored c ls e) as [Hne Hst].
  split; [exact Hne|]. split; [exact Hst|].
  rewrite same_code. unfold AnalysisManager.getSessionId.
  destruct (ls !! "arqv30_session_id") as [s|] eqn:Hs.
  - destruct (String.eqb_spec s "") as [-> | Hs'].
    + split; [|reflexivity]. intros key Hkey. cbn [snd].
      now apply lookup_insert_ne.
    + split; [reflexivity|]. intros [= E]. now destruct Hs'.
  - split; [|discriminate]. intros key Hkey. cbn [snd].
    now apply lookup_insert_ne.
Qed.

Lemma getSessionId_stores_what_it_returns_witness :
  fst (getSessionId Async {["arqv30_session_id" := ""]} sample_entropy)
  = "session_1700000000000_k3j9x0q1z".
Proof.
  exact (proj2 (proj2 (proj2 (getSessionId_stores_what_it_returns Async
                                {["arqv30_session_id" := ""]} sample_entropy)))
               eq_refl).
Defined.

End StorageFacts.

(** ** Every analysis that starts comes to an end *)

Module AnalysisRunFacts.
Import Json AnalysisManager.

Lemma count_app (p : effect -> bool) (l1 l2 : list effect) :
  count p (l1 ++ l2) = (count p l1 + count p l2)%nat.
Proof. unfold count. now rewrite List.filter_app, length_app. Qed.

Lemma finally_accounted (w : world) (i : nat) (es : list effect) :
  is_Some (runs w !! i) ->
  count is_start es = 0%nat -> count is_stop es = 0%nat ->
  count is_end es = 1%nat -> count is_post es = 0%nat ->
  accounted w -> accounted (finally (emit w es) i).
Proof.
  intros Hi Hs Ht He Hp (H1 & H2 & H3).
  pose proof (length_delete (runs w) i Hi) as Hlen.
  assert (Hpos : (0 < length (runs w))%nat).
  { destruct Hi as [x Hx]. apply lookup_lt_Some in Hx. lia. }
  unfold accounted, finally, emit. cbn [log runs self].
  rewrite !count_app, Hs, Ht, He, Hp. cbn. lia.
Qed.

Lemma step_accounted (w : world) (ev : event) : accounted w -> accounted (step w ev).
Proof.
  intros Hw. destruct ev as [filled form clock | i r | i r]; cbn [step].
  - unfold startAnalysis. destruct (isAnalyzing (self w)); [exact Hw|].
    destruct Hw as (H1 & H2 & H3).
    destruct filled; cbn [negb].
    + destruct form as [body | e]; unfold accounted, catch, emit; cbn [log runs self];
        rewrite !count_app, ?length_app; cbn; lia.
    + unfold accounted, emit. cbn [log runs]. rewrite !count_app. cbn. lia.
  - destruct (runs w !! i) as [[]|] eqn:Hi; try exact Hw.
    unfold after_fetch. destruct r as [[[] status] | e].
    + destruct Hw as (H1 & H2 & H3). unfold accounted. cbn [log runs].
      now rewrite length_insert.
    + unfold catch. apply finally_accounted; try reflexivity; [|exact Hw].
      now rewrite Hi.
    + unfold catch. apply finally_accounted; try reflexivity; [|exact Hw].
      now rewrite Hi.
  - destruct (runs w !! i) as [[]|] eqn:Hi; try exact Hw.
    unfold after_json. destruct r as [result | e].
    + apply finally_accounted; try reflexivity; [|exact Hw]. now rewrite Hi.
    + unfold catch. apply finally_accounted; try reflexivity; [|exact Hw].
      now rewrite Hi.
Qed.

(** X29. Every analysis that went past the guard of startAnalysis comes
    to an end the user sees: at any moment, the runs whose progress
    animation was started are those still suspended at an await, plus
    those that ended; each ended run has stopped the animation once, and
    has either scheduled its results for display or shown the error of
    its catch clause, never both and never neither.  No POST is sent
    without the animation having been started. *)
Theorem every_run_comes_to_an_end (evs : list event) :
  let w := run initial evs in
  count is_start (log w) = (count is_stop (log w) + length (runs w))%nat /\
  count is_start (log w) = (count is_end (log w) + length (runs w))%nat /\
  (count is_post (log w) <= count is_start (log w))%nat.
Proof.
  cbn zeta. change (accounted (run initial evs)).
  assert (H0 : accounted initial) by (repeat split; cbn; lia).
  revert H0. unfold run. generalize initial.
  induction evs as [|ev evs IH]; intros w Hw; [exact Hw|].
  cbn [fold_left]. apply IH. now apply step_accounted.
Qed.

End AnalysisRunFacts.

(** ** The session of an upload and the session of an analysis *)

Module SessionMismatch.
Import Session SessionFacts.

Lemma fresh_is_not_default (e : entropy) :
  "session_" +:+ JS.dec (now e) +:+ "_" +:+ random36 e <> "default_session".
Proof. discriminate. Qed.

Lemma getSessionId_default (c : caller) (ls : storage) (e : entropy) :
  fst (getSessionId c ls e) = "default_session" ->
  ls !! "arqv30_session_id" = Some "default_session".
Proof.
  rewrite same_code. unfold AnalysisManager.getSessionId.
  destruct (ls !! "arqv30_session_id") as [s|].
  - destruct (String.eqb s ""); cbn [fst].
    + intros H. now apply fresh_is_not_default in H.
    + now intros ->.
  - cbn [fst]. intros H. now apply fresh_is_not_default in H.
Qed.

(** X30. An upload sent from a page without window.app is filed under
    the session 'default_session', and no analysis is: getSessionId
    returns that text only if it was already stored under
    'arqv30_session_id', and it never stores it itself, so from an empty
    storage every submission of either manager carries another session
    identifier than the uploads do. *)
Theorem uploads_and_analyses_disagree_on_session (c : caller) (ls : storage)
    (e : entropy) (calls : list (caller * entropy)) :
  form_session_id Json.JUndefined = "default_session" /\
  (fst (getSessionId c ls e) = form_session_id Json.JUndefined ->
   ls !! "arqv30_session_id" = Some "default_session") /\
  (ls !! "arqv30_session_id" <> Some "default_session" ->
   snd (getSessionId c ls e) !! "arqv30_session_id" <> Some "default_session") /\
  Forall (fun sessionId => sessionId <> form_session_id Json.JUndefined)
         (session_ids ∅ calls).
Proof.
  split; [reflexivity|]. split; [apply getSessionId_default|]. split.
  - intros Hls Hst. apply Hls. apply (getSessionId_default c ls e).
    destruct (returned_is_stored c ls e) as [_ Hret]. congruence.
  - destruct calls as [|[c0 e0] rest]; [constructor|].
    cbn [session_ids].
    destruct (getSessionId c0 ∅ e0) as [s0 ls'] eqn:H0.
    assert (Hs0 : s0 = "session_" +:+ JS.dec (now e0) +:+ "_" +:+ random36 e0).
    { rewrite same_code in H0. unfold AnalysisManager.getSessionId in H0.
      rewrite lookup_empty in H0. now injection H0 as <- _. }
    destruct (returned_is_stored c0 ∅ e0) as [Hne Hst]. rewrite H0 in Hne, Hst.
    cbn [fst snd] in Hne, Hst.
    constructor.
    + rewrite Hs0. apply fresh_is_not_default.
    + apply (Forall_impl _ _ _ (session_ids_constant rest ls' s0 Hst Hne)).
      intros x ->. rewrite Hs0. apply fresh_is_not_default.
Qed.

Lemma uploads_and_analyses_disagree_on_session_witness :
  snd (getSessionId Sync ∅ sample_entropy) !! "arqv30_session_id"
  <> Some "default_session".
Proof.
  apply (proj1 (proj2 (proj2 (uploads_and_analyses_disagree_on_session Sync ∅
                                sample_entropy [])))).
  discriminate.
Defined.

End SessionMismatch.
